(** * YouTube analytics backend: the URL pipeline of [app.py]

    A shallow embedding of [src/app.py]: the class [YouTubeAnalyzer] and the
    request handler [analyze], together with the fragment of the Python
    runtime they rest on (strings, JSON-like values, integer and binary64
    arithmetic, number formatting, the regular expressions of the two
    extractors).  The runtime is CPython 3.11.

    Conventions of the embedding.
    - A Python [str] is a [string]; every [ascii] stands for the code point
      with the same number, so the model covers the texts whose code points
      are below 256.
    - A Python exception raised inside a [try ... except Exception] block is
      [None] of an [option]: every handler of the program discards the
      exception value.  The handler of [analyze] is the one place that
      renders the message, and the one exception that can reach it is
      modelled with its text.
    - [print] calls only write to the log of the process and are left out.
    - A remote call ([requests.get] followed by [response.json()]) asks an
      oracle for the parsed body and records the call in a trace. *)

From Stdlib Require Import ZArith List String Ascii Bool Lia DecimalString.
Import ListNotations.

Local Open Scope string_scope.
Local Open Scope Z_scope.
Local Set Warnings "-register-all".

(* ================================================================== *)
(** * Python strings *)
(* ================================================================== *)

Module Str.

Definition code (c : ascii) : Z := Z.of_N (N_of_ascii c).

Definition in_range (lo hi : Z) (c : ascii) : bool :=
  (lo <=? code c) && (code c <=? hi).

(** [str.isspace] on one character, for code points below 256. *)
Definition isspace (c : ascii) : bool :=
  in_range 9 13 c || in_range 28 32 c || (code c =? 133) || (code c =? 160).

Definition isdigit (c : ascii) : bool := in_range 48 57 c.

Definition digit_value (c : ascii) : Z := code c - 48.

(** [str.lower] on one character, for code points below 256: the letters
    A-Z and the Latin-1 capitals (all of 192..222 but the sign 215). *)
Definition lower_char (c : ascii) : ascii :=
  if in_range 65 90 c || (in_range 192 222 c && negb (code c =? 215))
  then ascii_of_N (N_of_ascii c + 32)
  else c.

Fixpoint lower (s : string) : string :=
  match s with
  | EmptyString => EmptyString
  | String c s' => String (lower_char c) (lower s')
  end.

(** [s.startswith(p)] *)
Fixpoint startswith (p s : string) : bool :=
  match p, s with
  | EmptyString, _ => true
  | String a p', String b s' => Ascii.eqb a b && startswith p' s'
  | String _ _, EmptyString => false
  end.

(** The rest of [s] after the prefix [p], when [s] starts with [p]. *)
Fixpoint strip_prefix (p s : string) : option string :=
  match p, s with
  | EmptyString, _ => Some s
  | String a p', String b s' =>
      if Ascii.eqb a b then strip_prefix p' s' else None
  | String _ _, EmptyString => None
  end.

(** [needle in hay] for two strings. *)
Fixpoint contains (needle hay : string) : bool :=
  startswith needle hay ||
  match hay with
  | EmptyString => false
  | String _ hay' => contains needle hay'
  end.

(** [s.lstrip()], [s.rstrip()], [s.strip()] without argument. *)
Fixpoint lstrip (s : string) : string :=
  match s with
  | EmptyString => EmptyString
  | String c s' => if isspace c then lstrip s' else s
  end.

Fixpoint rstrip (s : string) : string :=
  match s with
  | EmptyString => EmptyString
  | String c s' =>
      match rstrip s' with
      | EmptyString => if isspace c then EmptyString else String c EmptyString
      | r => String c r
      end
  end.

Definition strip (s : string) : string := rstrip (lstrip s).

Fixpoint rev_onto (acc s : string) : string :=
  match s with
  | EmptyString => acc
  | String c s' => rev_onto (String c acc) s'
  end.

Definition rev (s : string) : string := rev_onto EmptyString s.

(** [s.split(sep)] for a non-empty separator: the pieces between the
    occurrences of [sep], found from the left and not overlapping.  [skip]
    counts the characters of a separator still to pass over and [cur] holds
    the current piece, reversed. *)
Fixpoint split_go (sep : string) (skip : nat) (cur s : string) : list string :=
  match s with
  | EmptyString => [rev cur]
  | String c s' =>
      match skip with
      | S k => split_go sep k cur s'
      | O =>
          if startswith sep s
          then rev cur :: split_go sep (Nat.pred (String.length sep)) EmptyString s'
          else split_go sep O (String c cur) s'
      end
  end.

Definition split (sep s : string) : list string := split_go sep O EmptyString s.

(** [l[-1]] and [l[0]] of a list of strings that [split] returned (never
    empty). *)
Definition last_piece (l : list string) : string := List.last l EmptyString.
Definition first_piece (l : list string) : string := List.hd EmptyString l.

Fixpoint all_chars (p : ascii -> bool) (s : string) : bool :=
  match s with
  | EmptyString => true
  | String c s' => p c && all_chars p s'
  end.

Fixpoint repeat_char (c : ascii) (n : nat) : string :=
  match n with
  | O => EmptyString
  | S k => String c (repeat_char c k)
  end.

(** [str(n)] for an integer. *)
Definition of_Z (n : Z) : string := NilZero.string_of_int (Z.to_int n).

(** The decimal digits of [n >= 0], padded with zeros on the left to at
    least [width] characters. *)
Definition of_Z_padded (width : nat) (n : Z) : string :=
  let d := of_Z n in
  repeat_char "0" (width - String.length d) ++ d.

End Str.

(* ================================================================== *)
(** * Python floats: IEEE 754 binary64 *)
(* ================================================================== *)

Module Float.

(** A float is [(-1)^neg * m * 2^e] with [0 <= m], an infinity or a NaN. *)
Inductive float : Type :=
| Finite (neg : bool) (m e : Z)
| Inf (neg : bool)
| NaN.

(** [n / d] rounded to the nearest integer, ties to even ([0 <= n], [0 < d]). *)
Definition div_rne (n d : Z) : Z :=
  let q := n / d in
  match (2 * (n mod d)) ?= d with
  | Lt => q
  | Gt => q + 1
  | Eq => if Z.even q then q else q + 1
  end.

(** [floor (log2 (n / d))] for [0 < n], [0 < d]. *)
Definition log2_ratio (n d : Z) : Z :=
  let k := Z.log2 n - Z.log2 d in
  if 0 <=? k
  then (if d * 2 ^ k <=? n then k else k - 1)
  else (if d <=? n * 2 ^ (- k) then k else k - 1).

(** The binary64 nearest to [(-1)^neg * n / d] (ties to even), with gradual
    underflow below [2^-1022] and overflow to an infinity from
    [2^1024 - 2^970] on. *)
Definition round64 (neg : bool) (n d : Z) : float :=
  if n =? 0 then Finite neg 0 0
  else
    let shift := Z.max (log2_ratio n d - 52) (-1074) in
    let m := if 0 <=? shift
             then div_rne n (d * 2 ^ shift)
             else div_rne (n * 2 ^ (- shift)) d in
    let (m, shift) := if m =? 2 ^ 53 then (2 ^ 52, shift + 1) else (m, shift) in
    if 971 <? shift then Inf neg else Finite neg m shift.

(** The float nearest to the dyadic number [(-1)^neg * m * 2^e]. *)
Definition of_dyadic (neg : bool) (m e : Z) : float :=
  if 0 <=? e then round64 neg (m * 2 ^ e) 1 else round64 neg m (2 ^ (- e)).

Definition signed (neg : bool) (m : Z) : Z := if neg then - m else m.

(** [x * y] *)
Definition mul (x y : float) : float :=
  match x, y with
  | NaN, _ | _, NaN => NaN
  | Inf s, Inf t => Inf (xorb s t)
  | Inf s, Finite t m _ | Finite t m _, Inf s =>
      if m =? 0 then NaN else Inf (xorb s t)
  | Finite s m e, Finite t n f => of_dyadic (xorb s t) (m * n) (e + f)
  end.

(** [x + y] *)
Definition add (x y : float) : float :=
  match x, y with
  | NaN, _ | _, NaN => NaN
  | Inf s, Inf t => if Bool.eqb s t then Inf s else NaN
  | Inf s, Finite _ _ _ | Finite _ _ _, Inf s => Inf s
  | Finite s m e, Finite t n f =>
      let g := Z.min e f in
      let sum := signed s (m * 2 ^ (e - g)) + signed t (n * 2 ^ (f - g)) in
      if sum =? 0 then Finite (s && t) 0 0
      else of_dyadic (sum <? 0) (Z.abs sum) g
  end.

(** [a / b] on two integers: the quotient correctly rounded.  [None] is
    [ZeroDivisionError] (for [b = 0]) or [OverflowError]. *)
Definition int_truediv (a b : Z) : option float :=
  if b =? 0 then None
  else
    match round64 (xorb (a <? 0) (b <? 0)) (Z.abs a) (Z.abs b) with
    | Finite s m e => Some (Finite s m e)
    | _ => None
    end.

(** [float(n)] on an integer; [None] is [OverflowError]. *)
Definition of_int (n : Z) : option float :=
  match round64 (n <? 0) (Z.abs n) 1 with
  | Finite s m e => Some (Finite s m e)
  | _ => None
  end.

(** [int(x)] on a float: truncation towards zero; [None] is
    [OverflowError] (infinities) or [ValueError] (NaN). *)
Definition to_int (x : float) : option Z :=
  match x with
  | Finite s m e =>
      Some (signed s (if 0 <=? e then m * 2 ^ e else m / 2 ^ (- e)))
  | _ => None
  end.


(** [format(x, ".<prec>f")]: the decimal expansion of the exact value of
    [x], rounded to [prec] digits after the point, ties to even. *)
Definition format_fixed (prec : nat) (x : float) : string :=
  match x with
  | NaN => "nan"
  | Inf s => if s then "-inf" else "inf"
  | Finite s m e =>
      let p := 10 ^ Z.of_nat prec in
      let q := if 0 <=? e then m * 2 ^ e * p else div_rne (m * p) (2 ^ (- e)) in
      ((if s then "-" else "") ++ Str.of_Z (q / p) ++
       match prec with
       | O => ""
       | _ => "." ++ Str.of_Z_padded prec (q mod p)
       end)%string
  end.

End Float.

(* ================================================================== *)
(** * Python values *)
(* ================================================================== *)

Module Py.

(** The values the program handles: what [response.json()] can return and
    what the program builds from it.  A [dict] keeps its entries in
    insertion order; its keys are strings and occur once. *)
Inductive value : Type :=
| PNone
| PBool (b : bool)
| PInt (n : Z)
| PFloat (x : Float.float)
| PStr (s : string)
| PList (l : list value)
| PDict (d : list (string * value)).

(** Truth value of an object, as [if x:] and [not x] take it. *)
Definition truthy (v : value) : bool :=
  match v with
  | PNone => false
  | PBool b => b
  | PInt n => negb (n =? 0)
  | PFloat (Float.Finite _ m _) => negb (m =? 0)
  | PFloat _ => true
  | PStr s => negb (String.eqb s "")
  | PList l => match l with [] => false | _ => true end
  | PDict d => match d with [] => false | _ => true end
  end.

Fixpoint lookup (k : string) (d : list (string * value)) : option value :=
  match d with
  | [] => None
  | (k', v) :: d' => if String.eqb k k' then Some v else lookup k d'
  end.

Definition is_str (k : string) (v : value) : bool :=
  match v with
  | PStr s => String.eqb k s
  | _ => false
  end.

(** ['k' in x]: key of a dict, element of a list, substring of a string;
    [None] is the [TypeError] of the other types. *)
Definition contains (k : string) (x : value) : option bool :=
  match x with
  | PDict d => Some (existsb (fun kv => String.eqb k (fst kv)) d)
  | PList l => Some (existsb (is_str k) l)
  | PStr s => Some (Str.contains k s)
  | _ => None
  end.

(** [x['k']]: only a dict takes a string subscript; [None] is [KeyError]
    or [TypeError]. *)
Definition getitem (x : value) (k : string) : option value :=
  match x with
  | PDict d => lookup k d
  | _ => None
  end.

(** [x[0]]: first element of a list, first character of a string; [None]
    is [IndexError], or [KeyError] (no dict of the program has the key
    [0]), or [TypeError]. *)
Definition getitem0 (x : value) : option value :=
  match x with
  | PList (v :: _) => Some v
  | PStr (String c _) => Some (PStr (String c ""))
  | _ => None
  end.

(** [len(x)]; [None] is [TypeError]. *)
Definition len (x : value) : option Z :=
  match x with
  | PList l => Some (Z.of_nat (List.length l))
  | PStr s => Some (Z.of_nat (String.length s))
  | PDict d => Some (Z.of_nat (List.length d))
  | _ => None
  end.

(** [x.get('k', default)]: a method of dicts; [None] is [AttributeError]. *)
Definition get (x : value) (k : string) (default : value) : option value :=
  match x with
  | PDict d => Some (match lookup k d with Some v => v | None => default end)
  | _ => None
  end.

Fixpoint chars (s : string) : list value :=
  match s with
  | EmptyString => []
  | String c s' => PStr (String c "") :: chars s'
  end.

(** The elements [for item in x] runs over; [None] is [TypeError]. *)
Definition iter (x : value) : option (list value) :=
  match x with
  | PList l => Some l
  | PStr s => Some (chars s)
  | PDict d => Some (map (fun kv => PStr (fst kv)) d)
  | _ => None
  end.

(** ** Numbers from text *)

(** Reads a run of digits in which single underscores may separate digits:
    the value read after [acc], the number of digits seen after [cnt], and
    the rest of the text. *)
Fixpoint read_digits (acc : Z) (cnt : nat) (s : string) : Z * nat * string :=
  match s with
  | EmptyString => (acc, cnt, s)
  | String c s' =>
      if Str.isdigit c
      then read_digits (10 * acc + Str.digit_value c) (S cnt) s'
      else if Ascii.eqb c "_" && negb (Nat.eqb cnt 0)
      then match s' with
           | String d s'' =>
               if Str.isdigit d
               then read_digits (10 * acc + Str.digit_value d) (S cnt) s''
               else (acc, cnt, s)
           | EmptyString => (acc, cnt, s)
           end
      else (acc, cnt, s)
  end.

(** An optional sign: whether it is a minus, and the rest. *)
Definition read_sign (s : string) : bool * string :=
  match s with
  | String c s' =>
      if Ascii.eqb c "-" then (true, s')
      else if Ascii.eqb c "+" then (false, s')
      else (false, s)
  | EmptyString => (false, s)
  end.

(** What [int] and [float] skip around the text of a number.  Both turn
    the white space above U+007F into blanks (below 256: U+0085 and U+00A0)
    and then skip the white space of C, U+0009 to U+000D and the blank.  The
    separators U+001C to U+001F, which [str.strip] removes, are not skipped:
    [int("56\x1f")] and [float("\x1c12")] raise [ValueError]. *)
Definition number_space (c : ascii) : bool :=
  Str.in_range 9 13 c || (Str.code c =? 32) || (Str.code c =? 133)
  || (Str.code c =? 160).

Fixpoint skip_left (s : string) : string :=
  match s with
  | EmptyString => EmptyString
  | String c s' => if number_space c then skip_left s' else s
  end.

Fixpoint skip_right (s : string) : string :=
  match s with
  | EmptyString => EmptyString
  | String c s' =>
      match skip_right s' with
      | EmptyString => if number_space c then EmptyString else String c EmptyString
      | r => String c r
      end
  end.

Definition trim (s : string) : string := skip_right (skip_left s).

(** [sys.get_int_max_str_digits()]: [int] refuses a decimal text of more
    digits, leading zeros counted and underscores not. *)
Definition int_max_str_digits : Z := 4300.

(** [int(s)] on a string, base ten; [None] is [ValueError]. *)
Definition parse_int (s : string) : option Z :=
  let (neg, body) := read_sign (trim s) in
  match read_digits 0 O body with
  | (n, S k, EmptyString) =>
      if Z.of_nat (S k) <=? int_max_str_digits
      then Some (Float.signed neg n)
      else None
  | _ => None
  end.

(** The exponent part of a float literal: [""] or [e], an optional sign and
    digits up to the end of the text. *)
Definition read_exponent (s : string) : option Z :=
  match s with
  | EmptyString => Some 0
  | String c s' =>
      if Ascii.eqb c "e" || Ascii.eqb c "E"
      then let (neg, body) := read_sign s' in
           match read_digits 0 O body with
           | (n, S _, EmptyString) => Some (Float.signed neg n)
           | _ => None
           end
      else None
  end.

(** [float(s)] on a string; [None] is [ValueError]. *)
Definition parse_float (s : string) : option Float.float :=
  let (neg, body) := read_sign (trim s) in
  let low := Str.lower body in
  if String.eqb low "inf" || String.eqb low "infinity" then Some (Float.Inf neg)
  else if String.eqb low "nan" then Some Float.NaN
  else
    let '(ip, ni, r1) := read_digits 0 O body in
    let '(fp, nf, r2) :=
      match r1 with
      | String c r =>
          if Ascii.eqb c "." then read_digits 0 O r else (0, O, r1)
      | EmptyString => (0, O, r1)
      end in
    match (ni + nf)%nat, read_exponent r2 with
    | S _, Some ex =>
        let mant := ip * 10 ^ Z.of_nat nf + fp in
        let scale := ex - Z.of_nat nf in
        Some (if 0 <=? scale
              then Float.round64 neg (mant * 10 ^ scale) 1
              else Float.round64 neg mant (10 ^ (- scale)))
    | _, _ => None
    end.

(** [int(x)]; [None] is [TypeError], [ValueError] or [OverflowError]. *)
Definition to_int (x : value) : option Z :=
  match x with
  | PInt n => Some n
  | PBool b => Some (if b then 1 else 0)
  | PFloat f => Float.to_int f
  | PStr s => parse_int s
  | _ => None
  end.

(** [float(x)]; [None] is [TypeError], [ValueError] or [OverflowError]. *)
Definition to_float (x : value) : option Float.float :=
  match x with
  | PInt n => Float.of_int n
  | PBool b => Some (Float.Finite false (if b then 1 else 0) 0)
  | PFloat f => Some f
  | PStr s => parse_float s
  | _ => None
  end.

(** [f"{x:.<prec>f}"] on an integer or a float; an integer is converted
    to a float first. *)
Definition format_fixed (prec : nat) (x : value) : option string :=
  match x with
  | PInt n => option_map (Float.format_fixed prec) (Float.of_int n)
  | PFloat f => Some (Float.format_fixed prec f)
  | _ => None
  end.

(** Sequencing of steps that may raise. *)
Definition bind {A B : Type} (m : option A) (f : A -> option B) : option B :=
  match m with
  | Some a => f a
  | None => None
  end.

End Py.

Notation "x <- m ;; k" := (Py.bind m (fun x => k))
  (at level 61, m at next level, right associativity).

(* ================================================================== *)
(** * The regular expressions of the program *)
(* ================================================================== *)

Module Re.

(** The class [[^/?&]]. *)
Definition segment_char (c : ascii) : bool :=
  negb (Ascii.eqb c "/" || Ascii.eqb c "?" || Ascii.eqb c "&").

(** The class [[0-9A-Za-z_-]]. *)
Definition id_char (c : ascii) : bool :=
  Str.in_range 48 57 c || Str.in_range 65 90 c || Str.in_range 97 122 c ||
  Ascii.eqb c "_" || Ascii.eqb c "-".

(** What [.] matches: every character but the line feed. *)
Definition dot (c : ascii) : bool := negb (Ascii.eqb c "010").

(** The constructs the patterns of the program are made of: literal text
    (with [\.] and [\/] unescaped), [(?:a|b)], concatenation, [cls+],
    [cls{n}], [cls*] and the capturing group. *)
Inductive regex : Type :=
| Lit (text : string)
| Alt (r1 r2 : regex)
| Seq (r1 r2 : regex)
| Plus (cls : ascii -> bool)
| Times (n : nat) (cls : ascii -> bool)
| Star (cls : ascii -> bool)
| Group (r : regex).

Definition push (c : ascii) (pr : string * string) : string * string :=
  (String c (fst pr), snd pr).

(** The ways [cls*] matches at the start of [s], each as the text it takes
    and the rest, the longest first (the operator is greedy). *)
Fixpoint stars (cls : ascii -> bool) (s : string) : list (string * string) :=
  match s with
  | EmptyString => [(EmptyString, EmptyString)]
  | String c s' =>
      if cls c
      then (map (push c) (stars cls s') ++ [(EmptyString, s)])%list
      else [(EmptyString, s)]
  end.

(** The ways [cls+] matches. *)
Definition pluses (cls : ascii -> bool) (s : string) : list (string * string) :=
  match s with
  | EmptyString => []
  | String c s' => if cls c then map (push c) (stars cls s') else []
  end.

(** The ways [cls{n}] matches: one at most. *)
Fixpoint times (n : nat) (cls : ascii -> bool) (s : string) : list (string * string) :=
  match n with
  | O => [(EmptyString, s)]
  | S k =>
      match s with
      | EmptyString => []
      | String c s' => if cls c then map (push c) (times k cls s') else []
      end
  end.

(** The ways a pattern matches at the start of [s], in the order in which
    the backtracking matcher of [re] tries them: the text taken, group 1
    when it is set, and the rest. *)
Fixpoint run (r : regex) (s : string) : list (string * option string * string) :=
  match r with
  | Lit text =>
      match Str.strip_prefix text s with
      | Some rest => [(text, None, rest)]
      | None => []
      end
  | Alt r1 r2 => (run r1 s ++ run r2 s)%list
  | Seq r1 r2 =>
      flat_map
        (fun m1 =>
           let '(c1, g1, rest1) := m1 in
           map (fun m2 =>
                  let '(c2, g2, rest2) := m2 in
                  ((c1 ++ c2)%string,
                   match g2 with Some _ => g2 | None => g1 end,
                   rest2))
               (run r2 rest1))
        (run r1 s)
  | Plus cls => map (fun pr => (fst pr, None, snd pr)) (pluses cls s)
  | Times n cls => map (fun pr => (fst pr, None, snd pr)) (times n cls s)
  | Star cls => map (fun pr => (fst pr, None, snd pr)) (stars cls s)
  | Group r' =>
      map (fun m => let '(c, _, rest) := m in (c, Some c, rest)) (run r' s)
  end.

(** The match of the pattern at the start of [s], as its group 1: [None]
    when the pattern does not match there. *)
Definition match_at (r : regex) (s : string) : option (option string) :=
  match run r s with
  | [] => None
  | (_, g, _) :: _ => Some g
  end.

(** [re.search(pattern, s)], as [group(1)] of the match: the match at the
    leftmost position of [s] at which the pattern matches. *)
Fixpoint search (r : regex) (s : string) : option (option string) :=
  match match_at r s with
  | Some g => Some g
  | None =>
      match s with
      | EmptyString => None
      | String _ s' => search r s'
      end
  end.

(** [for pattern in patterns: match = re.search(pattern, url); if match:
    return match.group(1)], then [return None]. *)
Fixpoint first_group (patterns : list regex) (url : string) : option string :=
  match patterns with
  | [] => None
  | p :: ps =>
      match search p url with
      | Some g => g
      | None => first_group ps url
      end
  end.

End Re.

(* ================================================================== *)
(** * Remote calls *)
(* ================================================================== *)

(** One [requests.get(url, params=params)]. *)
Record call : Type := Call {
  endpoint : string;
  params : list (string * Py.value)
}.

(** The remote service: what [response.json()] gives for a call, given the
    calls made before it; [None] when [requests.get] or [response.json()]
    raises. *)
Definition oracle : Type := list call -> call -> option Py.value.

(** A computation that makes remote calls: from the service and the calls
    made so far to a result and the calls made by the end. *)
Definition Remote (A : Type) : Type := oracle -> list call -> A * list call.

(** The body of a [try] block: [None] when it raised. *)
Definition Try (A : Type) : Type := Remote (option A).

Definition ret {A : Type} (a : A) : Remote A := fun _ log => (a, log).

Definition tbind {A B : Type} (m : Try A) (f : A -> Try B) : Try B :=
  fun o log =>
    match m o log with
    | (Some a, log') => f a o log'
    | (None, log') => (None, log')
    end.

Notation "x <~ m ;; k" := (tbind m (fun x => k))
  (at level 61, m at next level, right associativity).

(** A step without remote calls that may raise. *)
Definition pure {A : Type} (m : option A) : Try A := fun _ log => (m, log).

(** A call of a method that makes remote calls and never raises. *)
Definition attempt {A : Type} (m : Remote A) : Try A :=
  fun o log => let (a, log') := m o log in (Some a, log').

(** [response = requests.get(url, params=params); data = response.json()] *)
Definition http_get (url : string) (ps : list (string * Py.value)) : Try Py.value :=
  fun o log => let c := Call url ps in (o log c, (log ++ [c])%list).

(** [try: body  except Exception: pass] followed by [return default]: the
    body hands back [Some v] where it returns [v] and [None] where it falls
    through to the end of the block. *)
Definition try_or {A : Type} (body : Try (option A)) (default : A) : Remote A :=
  fun o log =>
    match body o log with
    | (Some (Some v), log') => (v, log')
    | (_, log') => (default, log')
    end.

(** The value and the calls of a run that starts with an empty trace. *)
Definition run {A : Type} (m : Remote A) (o : oracle) : A * list call := m o [].

(* ================================================================== *)
(** * class YouTubeAnalyzer *)
(* ================================================================== *)

(** [self]: the object built by [YouTubeAnalyzer(api_key)]. *)
Record YouTubeAnalyzer : Type := {
  api_key : string;
  base_url : string
}.

(** [__init__] *)
Definition new_analyzer (key : string) : YouTubeAnalyzer :=
  {| api_key := key; base_url := "https://www.googleapis.com/youtube/v3" |}.

(** [{'success': False, 'error': msg}] *)
Definition failure (msg : string) : Py.value :=
  Py.PDict [("success", Py.PBool false); ("error", Py.PStr msg)].

(** The patterns of [extract_channel_id], in the order of the list:
    [youtube\.com/channel/([^/?&]+)], [youtube\.com/c/([^/?&]+)],
    [youtube\.com/user/([^/?&]+)] and [youtube\.com/@([^/?&]+)]. *)
Definition channel_patterns : list Re.regex :=
  [ Re.Seq (Re.Lit "youtube.com/channel/") (Re.Group (Re.Plus Re.segment_char));
    Re.Seq (Re.Lit "youtube.com/c/") (Re.Group (Re.Plus Re.segment_char));
    Re.Seq (Re.Lit "youtube.com/user/") (Re.Group (Re.Plus Re.segment_char));
    Re.Seq (Re.Lit "youtube.com/@") (Re.Group (Re.Plus Re.segment_char)) ].

Definition extract_channel_id (url : string) : option string :=
  Re.first_group channel_patterns url.

(** The patterns of [extract_video_id], in the order of the list:
    [(?:v=|\/)([0-9A-Za-z_-]{11}).*], [(?:embed\/)([0-9A-Za-z_-]{11})],
    [(?:shorts\/)([0-9A-Za-z_-]{11})] and [youtu\.be\/([0-9A-Za-z_-]{11})]. *)
Definition video_patterns : list Re.regex :=
  [ Re.Seq (Re.Seq (Re.Alt (Re.Lit "v=") (Re.Lit "/"))
                   (Re.Group (Re.Times 11 Re.id_char)))
           (Re.Star Re.dot);
    Re.Seq (Re.Lit "embed/") (Re.Group (Re.Times 11 Re.id_char));
    Re.Seq (Re.Lit "shorts/") (Re.Group (Re.Times 11 Re.id_char));
    Re.Seq (Re.Lit "youtu.be/") (Re.Group (Re.Times 11 Re.id_char)) ].

Definition extract_video_id (url : string) : option string :=
  Re.first_group video_patterns url.

(** ['items' in data and len(data['items']) > 0] *)
Definition has_items (data : Py.value) : option bool :=
  b <- Py.contains "items" data ;;
  if b then
    items <- Py.getitem data "items" ;;
    n <- Py.len items ;;
    Some (0 <? n)
  else Some false.

(** [data['items'][0]] *)
Definition first_item (data : Py.value) : option Py.value :=
  items <- Py.getitem data "items" ;;
  Py.getitem0 items.

Definition get_channel_id_from_custom_url (self : YouTubeAnalyzer)
    (custom_url : string) : Remote Py.value :=
  let search_url := base_url self ++ "/search" in
  let params := [ ("part", Py.PStr "snippet");
                  ("q", Py.PStr custom_url);
                  ("type", Py.PStr "channel");
                  ("key", Py.PStr (api_key self));
                  ("maxResults", Py.PInt 1) ] in
  try_or
    (data <~ http_get search_url params ;;
     b <~ pure (has_items data) ;;
     if b then
       pure (item <- first_item data ;;
             snippet <- Py.getitem item "snippet" ;;
             channel_id <- Py.getitem snippet "channelId" ;;
             Some (Some channel_id))
     else pure (Some None))
    Py.PNone.

(** The first lines of [get_channel_stats]: the channel id for the
    identifier, or [None] where the method gives up with [return None]. *)
Definition resolve_channel_id (self : YouTubeAnalyzer)
    (channel_identifier : string) : Remote (option Py.value) :=
  if Str.startswith "UC" channel_identifier
     && (String.length channel_identifier =? 24)%nat
  then ret (Some (Py.PStr channel_identifier))
  else
    fun o log =>
      let (channel_id, log') :=
        get_channel_id_from_custom_url self channel_identifier o log in
      (if Py.truthy channel_id then Some channel_id else None, log').

Definition format_number (num : Py.value) : string :=
  match
    (x <- Py.to_float num ;;
     num <- Float.to_int x ;;
     if 1000000000 <=? num then
       q <- Float.int_truediv num 1000000000 ;;
       Some (Float.format_fixed 1 q ++ "B")
     else if 1000000 <=? num then
       q <- Float.int_truediv num 1000000 ;;
       Some (Float.format_fixed 1 q ++ "M")
     else if 1000 <=? num then
       q <- Float.int_truediv num 1000 ;;
       Some (Float.format_fixed 1 q ++ "K")
     else Some (Str.of_Z num))
  with
  | Some s => s
  | None => "0"
  end.

Definition positive_words : list string :=
  ["great"; "awesome"; "amazing"; "love"; "good"; "excellent"; "perfect";
   "nice"; "wonderful"].

Definition negative_words : list string :=
  ["bad"; "terrible"; "awful"; "hate"; "worst"; "horrible"; "dislike"; "poor"].

(** [sum(1 for word in words if word in text_lower)] *)
Definition count_present (words : list string) (text_lower : string) : Z :=
  fold_right Z.add 0
    (map (fun _ => 1) (filter (fun word => Str.contains word text_lower) words)).

Definition analyze_sentiment (text : string) : string :=
  let text_lower := Str.lower text in
  let positive_count := count_present positive_words text_lower in
  let negative_count := count_present negative_words text_lower in
  if negative_count <? positive_count then "positive"
  else if positive_count <? negative_count then "negative"
  else "neutral".

(** [int(d.get(key, default))] *)
Definition int_field (d : Py.value) (key : string) (default : Z) : option Z :=
  v <- Py.get d key (Py.PInt default) ;; Py.to_int v.

(** The float [100.0] that the integer [100] becomes in [x * 100]. *)
Definition hundred : Float.float := Float.Finite false 100 0.

Definition calculate_video_engagement (stats : Py.value) : option Py.value :=
  views <- int_field stats "viewCount" 0 ;;
  likes <- int_field stats "likeCount" 0 ;;
  comments <- int_field stats "commentCount" 0 ;;
  ratios <-
    (if 0 <? views then
       lv <- Float.int_truediv likes views ;;
       let like_ratio := Float.mul lv hundred in
       cv <- Float.int_truediv comments views ;;
       let comment_ratio := Float.mul cv hundred in
       Some (Py.PFloat like_ratio, Py.PFloat comment_ratio,
             Py.PFloat (Float.add like_ratio comment_ratio))
     else Some (Py.PInt 0, Py.PInt 0, Py.PInt 0)) ;;
  let '(like_ratio, comment_ratio, total_engagement) := ratios in
  s1 <- Py.format_fixed 2 like_ratio ;;
  s2 <- Py.format_fixed 2 comment_ratio ;;
  s3 <- Py.format_fixed 2 total_engagement ;;
  s4 <- (if 0 <? views
         then option_map (Float.format_fixed 4) (Float.int_truediv likes views)
         else Some "0") ;;
  Some (Py.PDict [ ("like_ratio", Py.PStr (s1 ++ "%"));
                   ("comment_ratio", Py.PStr (s2 ++ "%"));
                   ("total_engagement", Py.PStr (s3 ++ "%"));
                   ("likes_per_view", Py.PStr s4) ]).

(** [sum(int(f(video)) for video in recent_videos)] *)
Fixpoint sum_int (f : Py.value -> option Py.value) (videos : list Py.value)
  : option Z :=
  match videos with
  | [] => Some 0
  | video :: rest =>
      n <- (v <- f video ;; Py.to_int v) ;;
      total <- sum_int f rest ;;
      Some (n + total)
  end.

(** [video['raw_data']['views']], [video['raw_data'].get('likes', 0)] and
    [video['raw_data'].get('comments', 0)] *)
Definition raw_views (video : Py.value) : option Py.value :=
  raw <- Py.getitem video "raw_data" ;; Py.getitem raw "views".

Definition raw_likes (video : Py.value) : option Py.value :=
  raw <- Py.getitem video "raw_data" ;; Py.get raw "likes" (Py.PInt 0).

Definition raw_comments (video : Py.value) : option Py.value :=
  raw <- Py.getitem video "raw_data" ;; Py.get raw "comments" (Py.PInt 0).

Definition calculate_channel_engagement (recent_videos : list Py.value)
    (channel_stats : Py.value) : option Py.value :=
  match recent_videos with
  | [] => Some (Py.PDict [])
  | _ =>
      total_views <- sum_int raw_views recent_videos ;;
      total_likes <- sum_int raw_likes recent_videos ;;
      total_comments <- sum_int raw_comments recent_videos ;;
      subscriber_count <- int_field channel_stats "subscriberCount" 1 ;;
      avg_views_per_video <-
        Float.int_truediv total_views (Z.of_nat (List.length recent_videos)) ;;
      engagement_rate <-
        (if 0 <? subscriber_count then
           q <- Float.int_truediv (total_likes + total_comments) subscriber_count ;;
           Some (Py.PFloat (Float.mul q hundred))
         else Some (Py.PInt 0)) ;;
      rate <- Py.format_fixed 2 engagement_rate ;;
      Some (Py.PDict
              [ ("avg_views_per_video",
                 Py.PStr (format_number (Py.PFloat avg_views_per_video)));
                ("engagement_rate", Py.PStr (rate ++ "%"));
                ("total_recent_views", Py.PStr (format_number (Py.PInt total_views)));
                ("total_recent_likes", Py.PStr (format_number (Py.PInt total_likes)));
                ("total_recent_comments",
                 Py.PStr (format_number (Py.PInt total_comments))) ])
  end.

Definition get_video_stats_by_id (self : YouTubeAnalyzer) (video_id : Py.value)
  : Remote Py.value :=
  let url := base_url self ++ "/videos" in
  let params := [ ("part", Py.PStr "statistics,snippet");
                  ("id", video_id);
                  ("key", Py.PStr (api_key self)) ] in
  try_or
    (data <~ http_get url params ;;
     b <~ pure (has_items data) ;;
     if b then
       pure (video_data <- first_item data ;;
             stats <- Py.getitem video_data "statistics" ;;
             snippet <- Py.getitem video_data "snippet" ;;
             title <- Py.getitem snippet "title" ;;
             published_at <- Py.getitem snippet "publishedAt" ;;
             views <- Py.get stats "viewCount" (Py.PInt 0) ;;
             likes <- Py.get stats "likeCount" (Py.PInt 0) ;;
             comments <- Py.get stats "commentCount" (Py.PInt 0) ;;
             Some (Some (Py.PDict
               [ ("title", title);
                 ("published_at", published_at);
                 ("raw_data", Py.PDict [ ("views", views);
                                         ("likes", likes);
                                         ("comments", comments) ]) ])))
     else pure (Some None))
    Py.PNone.

(** The loop of [get_recent_videos]: [videos] holds the summaries appended
    so far. *)
Fixpoint recent_videos_loop (self : YouTubeAnalyzer) (items videos : list Py.value)
  : Try (list Py.value) :=
  match items with
  | [] => pure (Some videos)
  | item :: rest =>
      video_id <~ pure (details <- Py.getitem item "contentDetails" ;;
                        Py.getitem details "videoId") ;;
      video_stats <~ attempt (get_video_stats_by_id self video_id) ;;
      recent_videos_loop self rest
        (if Py.truthy video_stats then (videos ++ [video_stats])%list else videos)
  end.

Definition get_recent_videos (self : YouTubeAnalyzer) (playlist_id : Py.value)
    (max_results : Z) : Remote (list Py.value) :=
  let url := base_url self ++ "/playlistItems" in
  let params := [ ("part", Py.PStr "snippet,contentDetails");
                  ("playlistId", playlist_id);
                  ("key", Py.PStr (api_key self));
                  ("maxResults", Py.PInt max_results) ] in
  try_or
    (data <~ http_get url params ;;
     b <~ pure (Py.contains "items" data) ;;
     if b then
       items <~ pure (v <- Py.getitem data "items" ;; Py.iter v) ;;
       videos <~ recent_videos_loop self items [] ;;
       pure (Some (Some videos))
     else pure (Some (Some [])))
    [].

(** The second half of [get_channel_stats], from [# Get channel basic
    stats] on. *)
Definition fetch_channel (self : YouTubeAnalyzer) (channel_id : Py.value)
  : Remote Py.value :=
  let url := base_url self ++ "/channels" in
  let params := [ ("part", Py.PStr "statistics,snippet,brandingSettings,contentDetails");
                  ("id", channel_id);
                  ("key", Py.PStr (api_key self)) ] in
  try_or
    (data <~ http_get url params ;;
     b <~ pure (has_items data) ;;
     if b then
       channel_data <~ pure (first_item data) ;;
       stats <~ pure (Py.getitem channel_data "statistics") ;;
       snippet <~ pure (Py.getitem channel_data "snippet") ;;
       uploads_playlist_id <~
         pure (details <- Py.getitem channel_data "contentDetails" ;;
               related <- Py.getitem details "relatedPlaylists" ;;
               Py.getitem related "uploads") ;;
       recent_videos <~ attempt (get_recent_videos self uploads_playlist_id 10) ;;
       engagement_metrics <~
         pure (calculate_channel_engagement recent_videos stats) ;;
       pure (title <- Py.getitem snippet "title" ;;
             description <- Py.get snippet "description" (Py.PStr "") ;;
             custom_url <- Py.get snippet "customUrl" (Py.PStr "") ;;
             subscribers <- Py.get stats "subscriberCount" (Py.PInt 0) ;;
             views <- Py.get stats "viewCount" (Py.PInt 0) ;;
             videos <- Py.get stats "videoCount" (Py.PInt 0) ;;
             thumbnail <- (t <- Py.getitem snippet "thumbnails" ;;
                           h <- Py.getitem t "high" ;;
                           Py.getitem h "url") ;;
             country <- Py.get snippet "country" (Py.PStr "Not specified") ;;
             published_at <- Py.getitem snippet "publishedAt" ;;
             Some (Some (Py.PDict
               [ ("success", Py.PBool true);
                 ("type", Py.PStr "channel");
                 ("title", title);
                 ("description", description);
                 ("custom_url", custom_url);
                 ("subscribers", Py.PStr (format_number subscribers));
                 ("views", Py.PStr (format_number views));
                 ("videos", Py.PStr (format_number videos));
                 ("thumbnail", thumbnail);
                 ("country", country);
                 ("published_at", published_at);
                 ("engagement_metrics", engagement_metrics);
                 ("recent_videos", Py.PList (firstn 5 recent_videos));
                 ("raw_data", Py.PDict [ ("subscribers", subscribers);
                                         ("views", views);
                                         ("videos", videos) ]) ])))
     else pure (Some None))
    (failure "Could not fetch channel data").

(** [channel_identifier] is a string or [None]; on [None] the call of
    [startswith] raises [AttributeError], which is the [None] of the
    result.  The method returns Python's [None] ([Py.PNone]) when the
    identifier does not resolve. *)
Definition get_channel_stats (self : YouTubeAnalyzer)
    (channel_identifier : option string) : Try Py.value :=
  match channel_identifier with
  | None => pure None
  | Some identifier =>
      resolved <~ attempt (resolve_channel_id self identifier) ;;
      match resolved with
      | None => pure (Some Py.PNone)
      | Some channel_id => attempt (fetch_channel self channel_id)
      end
  end.

(** One round of the loop of [get_video_comments]. *)
Definition comment_entry (item : Py.value) : option Py.value :=
  comment <- (s <- Py.getitem item "snippet" ;;
              t <- Py.getitem s "topLevelComment" ;;
              Py.getitem t "snippet") ;;
  author <- Py.getitem comment "authorDisplayName" ;;
  text <- Py.getitem comment "textDisplay" ;;
  likes <- Py.getitem comment "likeCount" ;;
  published_at <- Py.getitem comment "publishedAt" ;;
  sentiment <- (t <- Py.getitem comment "textDisplay" ;;
                match t with
                | Py.PStr s => Some (analyze_sentiment s)
                | _ => None
                end) ;;
  Some (Py.PDict [ ("author", author);
                   ("text", text);
                   ("likes", likes);
                   ("published_at", published_at);
                   ("sentiment", Py.PStr sentiment) ]).

Fixpoint comment_entries (items : list Py.value) : option (list Py.value) :=
  match items with
  | [] => Some []
  | item :: rest =>
      c <- comment_entry item ;;
      cs <- comment_entries rest ;;
      Some (c :: cs)
  end.

(** What [get_video_comments] makes of the body of the reply. *)
Definition parse_comments (data : Py.value) : option (list Py.value) :=
  b <- Py.contains "items" data ;;
  if b then
    items <- (v <- Py.getitem data "items" ;; Py.iter v) ;;
    comment_entries items
  else Some [].

Definition get_video_comments (self : YouTubeAnalyzer) (video_id : string)
    (max_results : Z) : Remote (list Py.value) :=
  let url := base_url self ++ "/commentThreads" in
  let params := [ ("part", Py.PStr "snippet");
                  ("videoId", Py.PStr video_id);
                  ("key", Py.PStr (api_key self));
                  ("maxResults", Py.PInt max_results);
                  ("order", Py.PStr "relevance") ] in
  try_or
    (data <~ http_get url params ;;
     comments <~ pure (parse_comments data) ;;
     pure (Some (Some comments)))
    [].

(** The dict [get_video_stats] returns on success. *)
Definition video_result (stats snippet content_details : Py.value)
    (comments : list Py.value) (engagement_metrics : Py.value) : option Py.value :=
  title <- Py.getitem snippet "title" ;;
  description <- Py.get snippet "description" (Py.PStr "") ;;
  channel_title <- Py.getitem snippet "channelTitle" ;;
  channel_id <- Py.getitem snippet "channelId" ;;
  views <- Py.get stats "viewCount" (Py.PInt 0) ;;
  likes <- Py.get stats "likeCount" (Py.PInt 0) ;;
  comment_count <- Py.get stats "commentCount" (Py.PInt 0) ;;
  duration <- Py.getitem content_details "duration" ;;
  published_at <- Py.getitem snippet "publishedAt" ;;
  thumbnail <- (t <- Py.getitem snippet "thumbnails" ;;
                h <- Py.getitem t "high" ;;
                Py.getitem h "url") ;;
  category_id <- Py.get snippet "categoryId" (Py.PStr "") ;;
  tags <- Py.get snippet "tags" (Py.PList []) ;;
  Some (Py.PDict
    [ ("success", Py.PBool true);
      ("type", Py.PStr "video");
      ("title", title);
      ("description", description);
      ("channel_title", channel_title);
      ("channel_id", channel_id);
      ("views", Py.PStr (format_number views));
      ("likes", Py.PStr (format_number likes));
      ("comments", Py.PStr (format_number comment_count));
      ("duration", duration);
      ("published_at", published_at);
      ("thumbnail", thumbnail);
      ("category_id", category_id);
      ("tags", tags);
      ("comments_data", Py.PList comments);
      ("engagement_metrics", engagement_metrics);
      ("raw_data", Py.PDict [ ("views", views);
                              ("likes", likes);
                              ("comments", comment_count);
                              ("duration", duration) ]) ]).

Definition get_video_stats (self : YouTubeAnalyzer) (video_url : string)
  : Remote Py.value :=
  match extract_video_id video_url with
  | None => ret (failure "Invalid video URL")
  | Some video_id =>
      if negb (Py.truthy (Py.PStr video_id))
      then ret (failure "Invalid video URL")
      else
        let url := base_url self ++ "/videos" in
        let params := [ ("part", Py.PStr "statistics,snippet,contentDetails");
                        ("id", Py.PStr video_id);
                        ("key", Py.PStr (api_key self)) ] in
        try_or
          (data <~ http_get url params ;;
           b <~ pure (has_items data) ;;
           if b then
             video_data <~ pure (first_item data) ;;
             stats <~ pure (Py.getitem video_data "statistics") ;;
             snippet <~ pure (Py.getitem video_data "snippet") ;;
             content_details <~ pure (Py.getitem video_data "contentDetails") ;;
             comments <~ attempt (get_video_comments self video_id 50) ;;
             engagement_metrics <~ pure (calculate_video_engagement stats) ;;
             result <~ pure (video_result stats snippet content_details
                               comments engagement_metrics) ;;
             pure (Some (Some result))
           else pure (Some None))
          (failure "Could not fetch video data")
  end.

(* ================================================================== *)
(** * The request handler *)
(* ================================================================== *)

(** What the route sends back: the body given to [jsonify], or the error
    page of the framework when the handler itself raises. *)
Inductive response : Type :=
| Json (body : Py.value)
| InternalServerError.

Definition channel_markers : list string :=
  ["youtube.com/channel/"; "youtube.com/c/"; "youtube.com/user/"; "youtube.com/@"].

Definition video_markers : list string :=
  ["youtube.com/watch"; "youtu.be/"; "youtube.com/shorts/"].

(** [any(pattern in url for pattern in markers)] *)
Definition any_in (markers : list string) (url : string) : bool :=
  existsb (fun pattern => Str.contains pattern url) markers.

(** [url.split(marker)[-1].split('/')[0]] *)
Definition segment_after (marker url : string) : string :=
  Str.first_piece (Str.split "/" (Str.last_piece (Str.split marker url))).

(** The second pass of the channel branch, under [# Try to get from custom
    URL]; [None] is Python's [None]. *)
Definition custom_url_fallback (url : string) : option string :=
  if Str.contains "youtube.com/c/" url
  then Some (segment_after "youtube.com/c/" url)
  else if Str.contains "youtube.com/@" url
  then Some (segment_after "youtube.com/@" url)
  else if Str.contains "youtube.com/user/" url
  then Some (segment_after "youtube.com/user/" url)
  else None.

(** The value of [channel_identifier] when [get_channel_stats] is called. *)
Definition channel_identifier_of (url : string) : option string :=
  match extract_channel_id url with
  | Some identifier =>
      if Py.truthy (Py.PStr identifier) then Some identifier
      else custom_url_fallback url
  | None => custom_url_fallback url
  end.

(** The branch [analyze] takes for a URL. *)
Inductive route : Type :=
| ChannelRoute (channel_identifier : option string)
| VideoRoute
| UnsupportedRoute.

Definition classify (url : string) : route :=
  if any_in channel_markers url then ChannelRoute (channel_identifier_of url)
  else if any_in video_markers url then VideoRoute
  else UnsupportedRoute.

(** [str(e)] of the [AttributeError] that [get_channel_stats(None)] raises. *)
Definition none_has_no_startswith : string :=
  "'NoneType' object has no attribute 'startswith'".

(** [analyze], for the analyzer [self] of the module and the parsed body
    [data] of the request. *)
Definition analyze (self : YouTubeAnalyzer) (data : Py.value) : Remote response :=
  match Py.get data "url" (Py.PStr "") with
  | Some (Py.PStr raw) =>
      let url := Str.strip raw in
      if negb (Py.truthy (Py.PStr url))
      then ret (Json (failure "Please provide a URL"))
      else
        match classify url with
        | ChannelRoute channel_identifier =>
            fun o log =>
              match get_channel_stats self channel_identifier o log with
              | (Some result, log') => (Json result, log')
              | (None, log') =>
                  (Json (failure ("Analysis failed: " ++ none_has_no_startswith)),
                   log')
              end
        | VideoRoute =>
            fun o log =>
              let (result, log') := get_video_stats self url o log in
              (Json result, log')
        | UnsupportedRoute => ret (Json (failure "Unsupported URL format"))
        end
  | _ => ret InternalServerError
  end.

(** A result of the shape the boundary promises: a dict with a boolean
    [success] entry. *)
Definition well_formed_result (r : response) : bool :=
  match r with
  | Json (Py.PDict d) =>
      match Py.lookup "success" d with
      | Some (Py.PBool _) => true
      | _ => false
      end
  | _ => false
  end.

(* ================================================================== *)
(** * Vocabulary of the properties *)
(* ================================================================== *)

(** ** The patterns of the program as scanners

    Each pattern of the program is a literal followed by one greedy class
    at its end, so its match at a position is a function of the text there.
    The functions below compute it without backtracking; they are shown
    equal to the matcher of [Re] before they are used. *)

Module Scan.

(** The leftmost position of the text at which [m] succeeds. *)
Fixpoint search (m : string -> option string) (s : string) : option string :=
  match m s with
  | Some g => Some g
  | None =>
      match s with
      | EmptyString => None
      | String _ s' => search m s'
      end
  end.

(** The longest prefix of [s] made of characters of the class. *)
Fixpoint span (cls : ascii -> bool) (s : string) : string :=
  match s with
  | EmptyString => EmptyString
  | String c s' => if cls c then String c (span cls s') else EmptyString
  end.

(** [(cls+)] at the end of a pattern: greedy, at least one character. *)
Definition plus (cls : ascii -> bool) (s : string) : option string :=
  match span cls s with
  | EmptyString => None
  | g => Some g
  end.

(** [(cls{n})]: exactly the next [n] characters, all of the class. *)
Fixpoint exactly (n : nat) (cls : ascii -> bool) (s : string) : option string :=
  match n with
  | O => Some EmptyString
  | S k =>
      match s with
      | EmptyString => None
      | String c s' =>
          if cls c then option_map (String c) (exactly k cls s') else None
      end
  end.

(** [lit([^/?&]+)] anchored at the start of [s]. *)
Definition lit_segment (lit s : string) : option string :=
  match Str.strip_prefix lit s with
  | Some rest => plus Re.segment_char rest
  | None => None
  end.

(** [lit([0-9A-Za-z_-]{11})] anchored at the start of [s]. *)
Definition lit_id (lit s : string) : option string :=
  match Str.strip_prefix lit s with
  | Some rest => exactly 11 Re.id_char rest
  | None => None
  end.

(** [(?:a|b)([0-9A-Za-z_-]{11}).*] anchored at the start of [s]. *)
Definition alt_id (a b s : string) : option string :=
  match lit_id a s with
  | Some g => Some g
  | None => lit_id b s
  end.

Fixpoint first_match (patterns : list (string -> option string)) (url : string)
  : option string :=
  match patterns with
  | [] => None
  | p :: ps =>
      match search p url with
      | Some g => Some g
      | None => first_match ps url
      end
  end.

Definition channel_patterns : list (string -> option string) :=
  [ lit_segment "youtube.com/channel/";
    lit_segment "youtube.com/c/";
    lit_segment "youtube.com/user/";
    lit_segment "youtube.com/@" ].

Definition video_patterns : list (string -> option string) :=
  [ alt_id "v=" "/";
    lit_id "embed/";
    lit_id "shorts/";
    lit_id "youtu.be/" ].

End Scan.

(** The integer [format_number] works with, [int(float(num))]; [None] where
    the conversion raises, which is how the method tells the inputs that
    are not numbers. *)
Definition numeric_value (num : Py.value) : option Z :=
  x <- Py.to_float num ;; Float.to_int x.





(** The [statistics] object of a video as the service sends it: the counts
    are decimal strings. *)
Definition video_statistics (views likes comments : string) : Py.value :=
  Py.PDict [ ("viewCount", Py.PStr views);
             ("likeCount", Py.PStr likes);
             ("commentCount", Py.PStr comments) ].








(** The number of positions of [hay] at which [needle] occurs. *)
Fixpoint occurrences (needle hay : string) : Z :=
  (if Str.startswith needle hay then 1 else 0) +
  match hay with
  | EmptyString => 0
  | String _ hay' => occurrences needle hay'
  end.

(** What one keyword adds to a count: one when it occurs, however often. *)
Definition presence (word text_lower : string) : Z :=
  Z.min 1 (occurrences word text_lower).

(** A count as the claim words it: the presences of the keywords, added
    up. *)
Definition presence_count (words : list string) (text_lower : string) : Z :=
  fold_right Z.add 0 (map (fun word => presence word text_lower) words).

Definition sentiment_tags : list string := ["positive"; "negative"; "neutral"].

(** A request body whose [url] entry is missing, empty or made of white
    space only. *)
Definition blank_url (data : Py.value) : Prop :=
  exists d, data = Py.PDict d /\
    (Py.lookup "url" d = None \/
     exists s, Py.lookup "url" d = Some (Py.PStr s) /\
               Str.all_chars Str.isspace s = true).

(** The one search call of the resolution of [identifier]. *)
Definition search_call (self : YouTubeAnalyzer) (identifier : string) : call :=
  Call (base_url self ++ "/search")
       [ ("part", Py.PStr "snippet");
         ("q", Py.PStr identifier);
         ("type", Py.PStr "channel");
         ("key", Py.PStr (api_key self));
         ("maxResults", Py.PInt 1) ].

(** The canonical shape of a channel id: the prefix UC and 24 characters. *)
Definition canonical_id (identifier : string) : Prop :=
  Str.startswith "UC" identifier = true /\ String.length identifier = 24%nat.

(** A service that finds no channel for any query. *)
Definition no_search_results : oracle :=
  fun _ _ => Some (Py.PDict [("items", Py.PList [])]).

(** A request for a handle that the search does not know. *)
Definition unresolved_request : Py.value :=
  Py.PDict [("url", Py.PStr "https://www.youtube.com/@nosuchhandle")].

(** The endpoint of the comment fetch. *)
Definition comments_url (self : YouTubeAnalyzer) : string :=
  base_url self ++ "/commentThreads".

(** The comment fetch fails: the call raises, or its reply is an object
    that the loop over the comments raises on. *)
Definition comment_fetch_fails (self : YouTubeAnalyzer) (o : oracle) : Prop :=
  forall log c, endpoint c = comments_url self ->
    match o log c with
    | Some data => parse_comments data = None
    | None => True
    end.

(** Two services that answer alike but for the comment fetch. *)
Definition same_elsewhere (self : YouTubeAnalyzer) (o o' : oracle) : Prop :=
  forall log c, endpoint c <> comments_url self -> o log c = o' log c.

(** The result with its [comments_data] entry replaced. *)
Definition with_comments (comments : list Py.value) (result : Py.value) : Py.value :=
  match result with
  | Py.PDict d =>
      Py.PDict (map (fun kv => if String.eqb (fst kv) "comments_data"
                               then (fst kv, Py.PList comments) else kv) d)
  | v => v
  end.

(** [result['success']] is [True]. *)
Definition succeeded (result : Py.value) : bool :=
  match Py.getitem result "success" with
  | Some (Py.PBool true) => true
  | _ => false
  end.

(** A reply of the [videos] endpoint with one complete item, a reply of the
    [commentThreads] endpoint with one comment, and two services: one whose
    comment fetch works and one whose comment fetch raises. *)
Definition sample_video_reply : Py.value :=
  Py.PDict [ ("items", Py.PList [ Py.PDict
    [ ("statistics", video_statistics "100" "10" "5");
      ("snippet", Py.PDict
         [ ("title", Py.PStr "a video");
           ("channelTitle", Py.PStr "a channel");
           ("channelId", Py.PStr "UCabcdefghijklmnopqrstuv");
           ("publishedAt", Py.PStr "2024-01-01T00:00:00Z");
           ("thumbnails", Py.PDict
              [ ("high", Py.PDict [("url", Py.PStr "https://i.ytimg.com/vi/x/hq.jpg")]) ]) ]);
      ("contentDetails", Py.PDict [("duration", Py.PStr "PT1M")]) ] ]) ].

Definition sample_comments_reply : Py.value :=
  Py.PDict [ ("items", Py.PList [ Py.PDict
    [ ("snippet", Py.PDict [ ("topLevelComment", Py.PDict [ ("snippet", Py.PDict
        [ ("authorDisplayName", Py.PStr "someone");
          ("textDisplay", Py.PStr "Great video");
          ("likeCount", Py.PInt 3);
          ("publishedAt", Py.PStr "2024-01-02T00:00:00Z") ]) ]) ]) ] ]) ].

Definition comments_up : oracle :=
  fun _ c =>
    if String.eqb (endpoint c) (comments_url (new_analyzer "key"))
    then Some sample_comments_reply
    else Some sample_video_reply.

Definition comments_down : oracle :=
  fun _ c =>
    if String.eqb (endpoint c) (comments_url (new_analyzer "key"))
    then None
    else Some sample_video_reply.

Definition sample_video_url : string :=
  "https://www.youtube.com/watch?v=ABCDEFGHIJK".

(** The fallback as the specification words it, for every channel marker:
    whenever the four patterns fail on a URL of the channel branch, the
    identifier is the first path segment after some marker the URL
    contains. *)
Definition fallback_for_every_marker : Prop :=
  forall url,
    any_in channel_markers url = true ->
    extract_channel_id url = None ->
    exists marker,
      In marker channel_markers /\
      Str.contains marker url = true /\
      channel_identifier_of url = Some (segment_after marker url).

(** A channel URL that stops after the marker. *)
Definition bare_channel_url : string := "https://www.youtube.com/channel/".

(** ** The supported shapes of a URL *)

(** Scheme and host, up to and with the slash that ends them. *)
Definition youtube_origins : list string :=
  [ "https://www.youtube.com/"; "http://www.youtube.com/";
    "https://youtube.com/"; "http://youtube.com/";
    "https://m.youtube.com/"; "www.youtube.com/"; "youtube.com/" ].

Definition short_origins : list string :=
  [ "https://youtu.be/"; "http://youtu.be/"; "youtu.be/" ].

(** The five shapes, each with its origin, its identifier and what follows
    the identifier. *)
Inductive url_shape : Type :=
| ChannelUrl (origin id rest : string)
| HandleUrl (origin handle rest : string)
| WatchUrl (origin id rest : string)
| ShortLinkUrl (origin id rest : string)
| ShortsUrl (origin id rest : string).

Definition render (u : url_shape) : string :=
  match u with
  | ChannelUrl origin id rest => origin ++ "channel/" ++ id ++ rest
  | HandleUrl origin handle rest => origin ++ "@" ++ handle ++ rest
  | WatchUrl origin id rest => origin ++ "watch?v=" ++ id ++ rest
  | ShortLinkUrl origin id rest => origin ++ id ++ rest
  | ShortsUrl origin id rest => origin ++ "shorts/" ++ id ++ rest
  end.

Definition embedded_identifier (u : url_shape) : string :=
  match u with
  | ChannelUrl _ id _ | WatchUrl _ id _ | ShortLinkUrl _ id _ | ShortsUrl _ id _ => id
  | HandleUrl _ handle _ => handle
  end.

Inductive kind : Type := Channel | Video.

Definition kind_of (u : url_shape) : kind :=
  match u with
  | ChannelUrl _ _ _ | HandleUrl _ _ _ => Channel
  | _ => Video
  end.

Definition one_of (origins : list string) (origin : string) : bool :=
  existsb (String.eqb origin) origins.

(** A non-empty path segment: no [/], [?] or [&]. *)
Definition is_segment (s : string) : bool :=
  negb (String.eqb s "") && Str.all_chars Re.segment_char s.

(** Eleven characters of [[0-9A-Za-z_-]]. *)
Definition is_video_id (s : string) : bool :=
  (String.length s =? 11)%nat && Str.all_chars Re.id_char s.

(** What follows a segment: nothing, or a text that starts with [/], [?]
    or [&]. *)
Definition ends_segment (rest : string) : bool :=
  match rest with
  | EmptyString => true
  | String c _ => negb (Re.segment_char c)
  end.

(** The text does not name the host again. *)
Definition no_host (s : string) : bool := negb (Str.contains "youtube.com/" s).

Definition well_formed_url (u : url_shape) : bool :=
  match u with
  | ChannelUrl origin id rest =>
      one_of youtube_origins origin && is_segment id && ends_segment rest
  | HandleUrl origin handle rest =>
      one_of youtube_origins origin && is_segment handle && ends_segment rest
      && no_host (handle ++ rest)
  | WatchUrl origin id rest =>
      one_of youtube_origins origin && is_video_id id && no_host (id ++ rest)
  | ShortLinkUrl origin id rest =>
      one_of short_origins origin && is_video_id id && no_host (id ++ rest)
  | ShortsUrl origin id rest =>
      one_of youtube_origins origin && is_video_id id && no_host (id ++ rest)
  end.

(** Classification followed by the extraction of the branch taken: the
    identifier [analyze] goes on with.  On the channel branch it is the
    argument of [get_channel_stats]; on the video branch [get_video_stats]
    extracts it from the URL. *)
Definition identify (url : string) : option (kind * string) :=
  match classify url with
  | ChannelRoute (Some identifier) => Some (Channel, identifier)
  | ChannelRoute None => None
  | VideoRoute => option_map (pair Video) (extract_video_id url)
  | UnsupportedRoute => None
  end.

(** The first path segment of a text: what comes before its first slash. *)
Definition path_segment (s : string) : string :=
  Scan.span (fun c => negb (Ascii.eqb c "/")) s.

(** [identifier] is the first path segment after the last occurrence of
    [marker] in [url]: of a text that follows an occurrence of the marker,
    runs to the end of the URL and does not contain the marker. *)
Definition first_segment_after (marker url identifier : string) : Prop :=
  exists before tail,
    url = (before ++ marker ++ tail)%string /\
    Str.contains marker tail = false /\
    identifier = path_segment tail.

(* ================================================================== *)
(** * The rest of the class and the vocabulary of further properties *)
(* ================================================================== *)

From Stdlib Require DecimalPos DecimalFacts.

(** [s[n:]] *)
Fixpoint drop (n : nat) (s : string) : string :=
  match n, s with
  | O, _ => s
  | S k, String _ s' => drop k s'
  | S _, EmptyString => EmptyString
  end.

(** [f"{n:02d}"]: at least two characters, zeros on the left; a negative
    number has its sign and a digit already. *)
Definition zero_pad2 (n : Z) : string :=
  if (0 <=? n) && (n <? 10) then ("0" ++ Str.of_Z n)%string else Str.of_Z n.

(** One of the three steps of [format_duration]: when [letter] occurs in
    [duration], the integer before its first occurrence and the piece after
    it ([duration.split(letter)[1]]); else zero and the text unchanged.
    [None] is the [ValueError] of [int]. *)
Definition duration_component (letter duration : string) : option (Z * string) :=
  if Str.contains letter duration then
    value <- Py.parse_int (Str.first_piece (Str.split letter duration)) ;;
    rest <- nth_error (Str.split letter duration) 1 ;;
    Some (value, rest)
  else Some (0, duration).

(** [format_duration]; the last step does not keep the rest of the text.
    The integers it prints were read by [int], so they have no more digits
    than [str] accepts. *)
Definition format_duration (duration : string) : option string :=
  let duration := drop 2 duration in
  hm <- duration_component "H" duration ;;
  let '(hours, duration) := hm in
  ms <- duration_component "M" duration ;;
  let '(minutes, duration) := ms in
  seconds <-
    (if Str.contains "S" duration
     then Py.parse_int (Str.first_piece (Str.split "S" duration))
     else Some 0) ;;
  if 0 <? hours
  then Some (Str.of_Z hours ++ ":" ++ zero_pad2 minutes ++ ":" ++ zero_pad2 seconds)%string
  else Some (Str.of_Z minutes ++ ":" ++ zero_pad2 seconds)%string.

(** The value of a run of decimal digits read after [acc]. *)
Fixpoint uint_value (d : Decimal.uint) (acc : Z) : Z :=
  match d with
  | Decimal.Nil => acc
  | Decimal.D0 l => uint_value l (10 * acc)
  | Decimal.D1 l => uint_value l (10 * acc + 1)
  | Decimal.D2 l => uint_value l (10 * acc + 2)
  | Decimal.D3 l => uint_value l (10 * acc + 3)
  | Decimal.D4 l => uint_value l (10 * acc + 4)
  | Decimal.D5 l => uint_value l (10 * acc + 5)
  | Decimal.D6 l => uint_value l (10 * acc + 6)
  | Decimal.D7 l => uint_value l (10 * acc + 7)
  | Decimal.D8 l => uint_value l (10 * acc + 8)
  | Decimal.D9 l => uint_value l (10 * acc + 9)
  end.

(** A text at which a run of digits ends: empty, or starting with a
    character that is neither a digit nor an underscore. *)
Definition ends_digits (rest : string) : bool :=
  match rest with
  | EmptyString => true
  | String c _ => negb (Str.isdigit c) && negb (Ascii.eqb c "_")
  end.

(** An ISO 8601 duration of hours, minutes and seconds, each component
    present or not: [PT], then [<hours>H], [<minutes>M], [<seconds>S]. *)
Definition component (v : option Z) (letter : string) : string :=
  match v with
  | Some n => (Str.of_Z n ++ letter)%string
  | None => EmptyString
  end.

Definition iso8601 (hours minutes seconds : option Z) : string :=
  ("PT" ++ component hours "H" ++ component minutes "M" ++ component seconds "S")%string.

(** The same with a day component before the [T]. *)
Definition iso8601_days (days : Z) (hours minutes seconds : option Z) : string :=
  ("P" ++ Str.of_Z days ++ "DT"
   ++ component hours "H" ++ component minutes "M" ++ component seconds "S")%string.

Definition given (v : option Z) : Z :=
  match v with
  | Some n => n
  | None => 0
  end.

Definition nonneg (v : option Z) : Prop :=
  match v with
  | Some n => 0 <= n
  | None => True
  end.

(** A component that [int] reads back: absent, or non-negative and of at
    most [Py.int_max_str_digits] digits. *)
Definition readable (v : option Z) : Prop :=
  match v with
  | Some n => 0 <= n < 10 ^ Py.int_max_str_digits
  | None => True
  end.

(** [H:MM:SS] with hours, [M:SS] without. *)
Definition clock (hours minutes seconds : Z) : string :=
  if 0 <? hours
  then (Str.of_Z hours ++ ":" ++ zero_pad2 minutes ++ ":" ++ zero_pad2 seconds)%string
  else (Str.of_Z minutes ++ ":" ++ zero_pad2 seconds)%string.

(** An id of eleven characters of [[0-9A-Za-z_-]] occurs in the URL right
    after a [v=] or a slash. *)
Definition video_id_occurs (url id : string) : Prop :=
  exists before sep after,
    (sep = "v=" \/ sep = "/") /\
    url = (before ++ sep ++ id ++ after)%string /\
    is_video_id id = true.

(** A non-empty path segment occurs in the URL right after a channel
    marker and runs to the end of the URL or to the next [/], [?] or [&]. *)
Definition channel_segment_occurs (url id : string) : Prop :=
  exists before marker after,
    In marker channel_markers /\
    url = (before ++ marker ++ id ++ after)%string /\
    is_segment id = true /\
    ends_segment after = true.

(** ** The calls of the two paths *)

Definition videos_call (self : YouTubeAnalyzer) (video_id : string) : call :=
  Call (base_url self ++ "/videos")
       [ ("part", Py.PStr "statistics,snippet,contentDetails");
         ("id", Py.PStr video_id);
         ("key", Py.PStr (api_key self)) ].

Definition comments_call (self : YouTubeAnalyzer) (video_id : string) (max_results : Z)
  : call :=
  Call (base_url self ++ "/commentThreads")
       [ ("part", Py.PStr "snippet");
         ("videoId", Py.PStr video_id);
         ("key", Py.PStr (api_key self));
         ("maxResults", Py.PInt max_results);
         ("order", Py.PStr "relevance") ].

Definition summary_call (self : YouTubeAnalyzer) (video_id : Py.value) : call :=
  Call (base_url self ++ "/videos")
       [ ("part", Py.PStr "statistics,snippet");
         ("id", video_id);
         ("key", Py.PStr (api_key self)) ].

Definition playlist_call (self : YouTubeAnalyzer) (playlist_id : Py.value)
    (max_results : Z) : call :=
  Call (base_url self ++ "/playlistItems")
       [ ("part", Py.PStr "snippet,contentDetails");
         ("playlistId", playlist_id);
         ("key", Py.PStr (api_key self));
         ("maxResults", Py.PInt max_results) ].

Definition channels_call (self : YouTubeAnalyzer) (channel_id : Py.value) : call :=
  Call (base_url self ++ "/channels")
       [ ("part", Py.PStr "statistics,snippet,brandingSettings,contentDetails");
         ("id", channel_id);
         ("key", Py.PStr (api_key self)) ].

(** The keys of a dict, in order. *)
Definition keys (r : Py.value) : list string :=
  match r with
  | Py.PDict d => map fst d
  | _ => []
  end.


Definition video_keys : list string :=
  ["success"; "type"; "title"; "description"; "channel_title"; "channel_id";
   "views"; "likes"; "comments"; "duration"; "published_at"; "thumbnail";
   "category_id"; "tags"; "comments_data"; "engagement_metrics"; "raw_data"].

Definition channel_keys : list string :=
  ["success"; "type"; "title"; "description"; "custom_url"; "subscribers";
   "views"; "videos"; "thumbnail"; "country"; "published_at";
   "engagement_metrics"; "recent_videos"; "raw_data"].

Definition summary_keys : list string := ["title"; "published_at"; "raw_data"].


(** The [videoId] of an item of the uploads playlist:
    [item['contentDetails']['videoId']]. *)
Definition item_video_id (item : Py.value) : option Py.value :=
  details <- Py.getitem item "contentDetails" ;; Py.getitem details "videoId".

(** A summary of a recent video: the three entries, and the three counts
    under [raw_data]. *)
Definition well_formed_summary (v : Py.value) : Prop :=
  keys v = summary_keys /\
  exists raw, Py.getitem v "raw_data" = Some raw /\
              keys raw = ["views"; "likes"; "comments"].




(** The summary fetched for the [i]-th id of a playlist: the result of
    [get_video_stats_by_id] on that id after the calls for the ids before it,
    [log] being the trace when the loop starts. *)
Definition summary_at (self : YouTubeAnalyzer) (o : oracle) (log : list call)
    (ids : list Py.value) (i : nat) : Py.value :=
  fst (get_video_stats_by_id self (nth i ids Py.PNone) o
         (log ++ map (summary_call self) (firstn i ids))%list).

(** The summaries of a playlist, in its order. *)
Definition summaries (self : YouTubeAnalyzer) (o : oracle) (log : list call)
    (ids : list Py.value) : list Py.value :=
  map (summary_at self o log ids) (seq 0 (List.length ids)).

(** ** A sample service *)

Definition sample_search_reply : Py.value :=
  Py.PDict [ ("items", Py.PList [ Py.PDict
    [ ("snippet", Py.PDict [("channelId", Py.PStr "UCabcdefghijklmnopqrstuv")]) ] ]) ].

Definition sample_channel_reply : Py.value :=
  Py.PDict [ ("items", Py.PList [ Py.PDict
    [ ("statistics", Py.PDict [ ("subscriberCount", Py.PStr "1000");
                                ("viewCount", Py.PStr "50000");
                                ("videoCount", Py.PStr "12") ]);
      ("snippet", Py.PDict
         [ ("title", Py.PStr "a channel");
           ("publishedAt", Py.PStr "2020-01-01T00:00:00Z");
           ("thumbnails", Py.PDict
              [ ("high", Py.PDict [("url", Py.PStr "https://yt3.ggpht.com/x")]) ]) ]);
      ("contentDetails", Py.PDict
         [ ("relatedPlaylists", Py.PDict [("uploads", Py.PStr "UUabcdefghijklmnopqrstuv")]) ]) ] ]) ].

Definition sample_playlist_reply : Py.value :=
  Py.PDict [ ("items", Py.PList
    [ Py.PDict [("contentDetails", Py.PDict [("videoId", Py.PStr "ABCDEFGHIJK")])];
      Py.PDict [("contentDetails", Py.PDict [("videoId", Py.PStr "LMNOPQRSTUV")])] ]) ].

(** A playlist whose second item has no [contentDetails]. *)
Definition broken_playlist_reply : Py.value :=
  Py.PDict [ ("items", Py.PList
    [ Py.PDict [("contentDetails", Py.PDict [("videoId", Py.PStr "ABCDEFGHIJK")])];
      Py.PDict [("snippet", Py.PDict [])];
      Py.PDict [("contentDetails", Py.PDict [("videoId", Py.PStr "LMNOPQRSTUV")])] ]) ].

Definition sample_key : YouTubeAnalyzer := new_analyzer "key".

(** A service that answers every endpoint, given its reply for the
    uploads playlist ([None]: that call raises). *)
Definition service (playlist_reply : option Py.value) : oracle :=
  fun _ c =>
    if String.eqb (endpoint c) (base_url sample_key ++ "/search")
    then Some sample_search_reply
    else if String.eqb (endpoint c) (base_url sample_key ++ "/channels")
    then Some sample_channel_reply
    else if String.eqb (endpoint c) (base_url sample_key ++ "/playlistItems")
    then playlist_reply
    else if String.eqb (endpoint c) (base_url sample_key ++ "/commentThreads")
    then Some sample_comments_reply
    else Some sample_video_reply.

(** ** The channel path *)

(** The endpoint of the uploads playlist. *)
Definition playlist_url (self : YouTubeAnalyzer) : string :=
  base_url self ++ "/playlistItems".

(** The fetch of the uploads playlist fails: the call raises, or its reply
    is an object without [items]. *)
Definition uploads_fetch_fails (self : YouTubeAnalyzer) (o : oracle) : Prop :=
  forall log c, endpoint c = playlist_url self ->
    match o log c with
    | Some data => Py.contains "items" data = Some false
    | None => True
    end.

(** Two services that answer alike but for the uploads playlist. *)
Definition same_but_uploads (self : YouTubeAnalyzer) (o o' : oracle) : Prop :=
  forall log c, endpoint c <> playlist_url self -> o log c = o' log c.

(** The result with no recent video and no metrics. *)
Definition without_uploads (result : Py.value) : Py.value :=
  match result with
  | Py.PDict d =>
      Py.PDict (map (fun kv =>
                       if String.eqb (fst kv) "recent_videos"
                       then (fst kv, Py.PList [])
                       else if String.eqb (fst kv) "engagement_metrics"
                       then (fst kv, Py.PDict [])
                       else kv) d)
  | v => v
  end.

(** A successful result of the channel path: its fourteen entries, at most
    five recent videos, each a well-formed summary. *)
Definition channel_result (result : Py.value) : Prop :=
  succeeded result = true /\
  keys result = channel_keys /\
  exists shown,
    Py.getitem result "recent_videos" = Some (Py.PList shown) /\
    (List.length shown <= 5)%nat /\
    Forall well_formed_summary shown.

(** What the sample service gives for a handle when the playlist is there. *)
Definition sample_channel_result : Py.value :=
  match fst (get_channel_stats sample_key (Some "@somebody")
               (service (Some sample_playlist_reply)) []) with
  | Some result => result
  | None => Py.PNone
  end.

(** ** The responses of the route *)

(** The errors [analyze] answers with before any remote call, and the
    errors of a fetch. *)
Definition request_errors : list string :=
  [ "Please provide a URL"; "Unsupported URL format"; "Invalid video URL";
    "Analysis failed: " ++ none_has_no_startswith ].

Definition fetch_errors : list string :=
  [ "Could not fetch video data"; "Could not fetch channel data" ].

(** A successful result of the video path: its seventeen entries. *)
Definition video_result_shape_ok (result : Py.value) : Prop :=
  succeeded result = true /\ keys result = video_keys.

(** ** The calls of a request *)

Definition endpoints : list string :=
  ["/search"; "/channels"; "/playlistItems"; "/videos"; "/commentThreads"].

(** A call of the analyzer: to one of the five endpoints under its base
    URL, with its API key as the [key] parameter. *)
Definition own_call (self : YouTubeAnalyzer) (c : call) : Prop :=
  (exists suffix, In suffix endpoints /\
                  endpoint c = (base_url self ++ suffix)%string) /\
  In ("key", Py.PStr (api_key self)) (params c).

(** The trace [log'] continues the trace [log] with calls of the analyzer. *)
Definition extends (self : YouTubeAnalyzer) (log log' : list call) : Prop :=
  exists added, log' = (log ++ added)%list /\ Forall (own_call self) added.

(* ================================================================== *)
(** * Facts about the runtime fragment *)
(* ================================================================== *)

(** ** Rounding to binary64 *)







(** ** Conversions to numbers *)















(** ** Engagement of a video *)




(** ** Engagement of a channel *)




(** ** Sentiment of a comment *)

Lemma occurrences_nonneg needle hay : 0 <= occurrences needle hay.
Proof.
  induction hay as [|c hay IH]; cbn [occurrences];
    destruct (Str.startswith needle _); lia.
Qed.

Lemma contains_occurrences needle hay :
  Str.contains needle hay = (0 <? occurrences needle hay).
Proof.
  induction hay as [|c hay IH]; cbn [Str.contains occurrences].
  - destruct (Str.startswith needle ""); reflexivity.
  - pose proof (occurrences_nonneg needle hay).
    destruct (Str.startswith needle (String c hay)); cbn [orb].
    + symmetry. apply Z.ltb_lt. lia.
    + rewrite IH. reflexivity.
Qed.

Lemma count_present_cons word words text_lower :
  count_present (word :: words) text_lower
  = presence word text_lower + count_present words text_lower.
Proof.
  unfold count_present, presence. cbn [filter].
  rewrite contains_occurrences.
  pose proof (occurrences_nonneg word text_lower).
  destruct (0 <? occurrences word text_lower) eqn:E.
  - apply Z.ltb_lt in E. cbn [map fold_right]. lia.
  - apply Z.ltb_ge in E. lia.
Qed.

Lemma count_present_sum words text_lower :
  count_present words text_lower
  = fold_right Z.add 0 (map (fun word => presence word text_lower) words).
Proof.
  induction words as [|word words IH]; [reflexivity|].
  rewrite count_present_cons, IH. reflexivity.
Qed.

Lemma count_present_bounds words text_lower :
  0 <= count_present words text_lower <= Z.of_nat (List.length words).
Proof.
  induction words as [|word words IH]; [cbn; lia|].
  rewrite count_present_cons. unfold presence.
  pose proof (occurrences_nonneg word text_lower).
  cbn [List.length]. lia.
Qed.

Lemma count_present_ext words t1 t2 :
  (forall word, In word words -> Str.contains word t1 = Str.contains word t2) ->
  count_present words t1 = count_present words t2.
Proof.
  intros H. unfold count_present. f_equal. f_equal.
  induction words as [|word words IH]; [reflexivity|].
  cbn [filter]. rewrite (H word (or_introl eq_refl)).
  rewrite IH by (intros w Hw; apply H; right; exact Hw).
  reflexivity.
Qed.

(** C10.  The count of a list of keywords is the sum of their presences,
    a presence being the minimum of one and the number of occurrences of the
    keyword in the lowered text; the tag is decided by comparing the two
    sums: positive when the positive one is larger, negative when the
    negative one is larger, neutral on a tie; so the tag is always one of
    the three, and it depends on the text only through which keywords occur
    in it.  A keyword counts where it occurs inside a longer word
    ("goodbye" has one positive match, through "good"), and repeating a
    keyword changes nothing ("good good good bad" is a tie). *)
Theorem sentiment_counts_presence :
  (forall text,
     let positive := presence_count positive_words (Str.lower text) in
     let negative := presence_count negative_words (Str.lower text) in
     0 <= positive <= 9 /\ 0 <= negative <= 8 /\
     (negative < positive <-> analyze_sentiment text = "positive") /\
     (positive < negative <-> analyze_sentiment text = "negative") /\
     (positive = negative <-> analyze_sentiment text = "neutral")) /\
  (forall text1 text2,
     (forall word, In word (positive_words ++ negative_words)%list ->
        Str.contains word (Str.lower text1) = Str.contains word (Str.lower text2)) ->
     analyze_sentiment text1 = analyze_sentiment text2) /\
  (presence_count positive_words (Str.lower "goodbye") = 1 /\
   presence_count negative_words (Str.lower "goodbye") = 0 /\
   analyze_sentiment "goodbye" = "positive") /\
  (occurrences "good" (Str.lower "good good good bad") = 3 /\
   presence_count positive_words (Str.lower "good good good bad") = 1 /\
   presence_count negative_words (Str.lower "good good good bad") = 1 /\
   analyze_sentiment "good good good bad" = "neutral") /\
  (forall text, In (analyze_sentiment text) sentiment_tags).
Proof.
  split.
  { intros text. cbv zeta. unfold presence_count.
    rewrite <- !count_present_sum.
    pose proof (count_present_bounds positive_words (Str.lower text)) as Hp.
    pose proof (count_present_bounds negative_words (Str.lower text)) as Hn.
    cbn [List.length positive_words negative_words] in Hp, Hn.
    split; [lia|]. split; [lia|].
    unfold analyze_sentiment.
    destruct (_ <? _) eqn:E1; [apply Z.ltb_lt in E1 | apply Z.ltb_ge in E1].
    - repeat split; intros H; try reflexivity; try discriminate H; lia.
    - destruct (_ <? _) eqn:E2; [apply Z.ltb_lt in E2 | apply Z.ltb_ge in E2];
        repeat split; intros H; try reflexivity; try discriminate H; lia. }
  split.
  { intros text1 text2 H. unfold analyze_sentiment.
    rewrite (count_present_ext positive_words (Str.lower text1) (Str.lower text2))
      by (intros w Hw; apply H, in_or_app; left; exact Hw).
    rewrite (count_present_ext negative_words (Str.lower text1) (Str.lower text2))
      by (intros w Hw; apply H, in_or_app; right; exact Hw).
    reflexivity. }
  split; [repeat split; vm_compute; reflexivity|].
  split; [repeat split; vm_compute; reflexivity|].
  intros text. unfold analyze_sentiment, sentiment_tags.
  destruct (_ <? _); [cbn; tauto|].
  destruct (_ <? _); cbn; tauto.
Qed.

Lemma sentiment_counts_presence_witness :
  analyze_sentiment "Goodbye, GOODBYE!" = analyze_sentiment "so good" /\
  (presence_count negative_words (Str.lower "terrible, worst ever")
   < presence_count positive_words (Str.lower "terrible, worst ever")
   <-> analyze_sentiment "terrible, worst ever" = "positive").
Proof.
  split.
  - apply (proj1 (proj2 sentiment_counts_presence)).
    intros word Hin.
    cbn in Hin.
    repeat (destruct Hin as [<- | Hin]; [vm_compute; reflexivity|]).
    contradiction.
  - exact (proj1 (proj2 (proj2 (proj1 sentiment_counts_presence
                                  "terrible, worst ever")))).
Defined.

(** ** The request handler without a URL *)

Lemma lstrip_blank s : Str.all_chars Str.isspace s = true -> Str.lstrip s = "".
Proof.
  induction s as [|c s IH]; [reflexivity|].
  cbn [Str.all_chars Str.lstrip]. rewrite andb_true_iff. intros [-> H]. auto.
Qed.

Lemma strip_blank s : Str.all_chars Str.isspace s = true -> Str.strip s = "".
Proof. intros H. unfold Str.strip. rewrite lstrip_blank by assumption. reflexivity. Qed.

(** C9.  When the [url] entry of the request is missing, empty or made of
    white space only, [analyze] answers
    [{"success": false, "error": "Please provide a URL"}] and the trace of
    remote calls is the one it started with. *)
Theorem analyze_blank_url (self : YouTubeAnalyzer) (data : Py.value)
    (o : oracle) (log : list call) :
  blank_url data ->
  analyze self data o log = (Json (failure "Please provide a URL"), log).
Proof.
  intros (d & -> & [Hmiss | (s & Hs & Hblank)]); unfold analyze; cbn [Py.get].
  - rewrite Hmiss. reflexivity.
  - rewrite Hs, strip_blank by assumption. reflexivity.
Qed.

Lemma analyze_blank_url_witness :
  run (analyze (new_analyzer "key") (Py.PDict [("url", Py.PStr "   ")]))
      no_search_results
  = (Json (failure "Please provide a URL"), []).
Proof.
  apply analyze_blank_url.
  exists [("url", Py.PStr "   ")]. split; [reflexivity|].
  right. exists "   ". split; reflexivity.
Defined.

(** ** Resolution of a channel identifier *)

(** C2.  An identifier of the canonical shape resolves to itself and the
    trace of remote calls does not change; for every other identifier the
    trace grows by exactly one call, the search for that identifier. *)
Theorem resolve_channel_id_calls (self : YouTubeAnalyzer) (identifier : string)
    (o : oracle) (log : list call) :
  (canonical_id identifier ->
   resolve_channel_id self identifier o log = (Some (Py.PStr identifier), log)) /\
  (~ canonical_id identifier ->
   exists resolved,
     resolve_channel_id self identifier o log
     = (resolved, (log ++ [search_call self identifier])%list)).
Proof.
  unfold canonical_id, resolve_channel_id. split.
  - intros [-> Hlen]. rewrite Hlen. reflexivity.
  - intros Hnot.
    destruct (Str.startswith "UC" identifier && (String.length identifier =? 24)%nat)
      eqn:E.
    + apply andb_true_iff in E. destruct E as [E1 E2].
      apply Nat.eqb_eq in E2. tauto.
    + unfold get_channel_id_from_custom_url, try_or, tbind, http_get, pure.
      fold (search_call self identifier).
      destruct (o log (search_call self identifier)) as [data|]; [|eauto].
      destruct (has_items data) as [[|]|]; [|eauto|eauto].
      destruct (_ <- first_item data ;; _) as [[v|]|]; eauto.
Qed.

Lemma resolve_channel_id_calls_witness :
  resolve_channel_id (new_analyzer "key") "UCabcdefghijklmnopqrstuv"
    no_search_results []
  = (Some (Py.PStr "UCabcdefghijklmnopqrstuv"), []) /\
  exists resolved,
    resolve_channel_id (new_analyzer "key") "nosuchhandle" no_search_results []
    = (resolved, [search_call (new_analyzer "key") "nosuchhandle"]).
Proof.
  split.
  - apply (proj1 (resolve_channel_id_calls (new_analyzer "key")
                    "UCabcdefghijklmnopqrstuv" no_search_results [])).
    split; reflexivity.
  - apply (proj2 (resolve_channel_id_calls (new_analyzer "key")
                    "nosuchhandle" no_search_results [])).
    intros [H _]. discriminate H.
Defined.

(** ** The channel path when the identifier does not resolve *)

Lemma get_channel_stats_unresolved self identifier o log log' :
  resolve_channel_id self identifier o log = (None, log') ->
  get_channel_stats self (Some identifier) o log = (Some Py.PNone, log').
Proof.
  intros H. unfold get_channel_stats, tbind, attempt. rewrite H. reflexivity.
Qed.

(** C1 at the failing input: for the URL of a handle that the search does
    not know, [get_channel_stats] returns [None] and [analyze] sends the
    JSON value [null], which is not a result object. *)
Theorem analyze_unresolved_handle_is_null (key : string) :
  run (analyze (new_analyzer key) unresolved_request) no_search_results
  = (Json Py.PNone, [search_call (new_analyzer key) "nosuchhandle"]) /\
  well_formed_result (Json Py.PNone) = false.
Proof. split; reflexivity. Qed.

Lemma analyze_unresolved_is_null self raw identifier o log log' :
  Str.strip raw <> "" ->
  classify (Str.strip raw) = ChannelRoute (Some identifier) ->
  resolve_channel_id self identifier o log = (None, log') ->
  analyze self (Py.PDict [("url", Py.PStr raw)]) o log = (Json Py.PNone, log').
Proof.
  intros Hne Hroute Hres. unfold analyze. cbn [Py.get Py.lookup String.eqb].
  cbn. destruct (Str.strip raw) as [|c s] eqn:E; [contradiction|].
  cbn [String.eqb negb]. rewrite Hroute.
  rewrite (get_channel_stats_unresolved _ _ _ _ _ Hres). reflexivity.
Qed.

(** ** The video path when the comment fetch fails *)

Lemma append_cancel_l (p a b : string) : (p ++ a = p ++ b)%string -> a = b.
Proof.
  induction p as [|c p IH]; cbn; [auto|]. intros [= H]. auto.
Qed.

Lemma videos_url_not_comments self :
  (base_url self ++ "/videos")%string <> comments_url self.
Proof.
  unfold comments_url. intros H. apply append_cancel_l in H. discriminate H.
Qed.

Lemma get_video_comments_fails self video_id max_results o log :
  comment_fetch_fails self o ->
  exists log',
    get_video_comments self video_id max_results o log = ([], log').
Proof.
  intros Hfail. unfold get_video_comments, try_or, tbind, http_get, pure.
  match goal with |- context [o log ?c] =>
    specialize (Hfail log c eq_refl); destruct (o log c) as [data|] end.
  - rewrite Hfail. eauto.
  - eauto.
Qed.

Ltac step_bind :=
  match goal with
  | H : context [Py.bind ?m _] |- _ =>
      let E := fresh "E" in
      destruct m eqn:E; cbn [Py.bind] in H; [|discriminate H]
  end.

Lemma video_result_comments stats snippet details comments comments' metrics r :
  video_result stats snippet details comments metrics = Some r ->
  video_result stats snippet details comments' metrics
  = Some (with_comments comments' r) /\
  Py.getitem (with_comments comments' r) "comments_data" = Some (Py.PList comments') /\
  succeeded (with_comments comments' r) = true.
Proof.
  unfold video_result. intros H.
  repeat step_bind.
  injection H as <-. cbn [Py.bind].
  repeat split; reflexivity.
Qed.

(** C7.  Take a video URL and a service under which [get_video_stats]
    succeeds.  Under a service that answers alike but whose comment fetch
    fails, [get_video_stats] returns the same result with an empty
    [comments_data]: [success] is still true, and no other entry changes. *)
Theorem comment_failure_keeps_video_result (self : YouTubeAnalyzer)
    (video_url : string) (o o' : oracle) (log : list call) :
  same_elsewhere self o o' ->
  comment_fetch_fails self o ->
  succeeded (fst (get_video_stats self video_url o' log)) = true ->
  fst (get_video_stats self video_url o log)
  = with_comments [] (fst (get_video_stats self video_url o' log)) /\
  succeeded (fst (get_video_stats self video_url o log)) = true /\
  Py.getitem (fst (get_video_stats self video_url o log)) "comments_data"
  = Some (Py.PList []).
Proof.
  intros Hsame Hfail. unfold get_video_stats.
  destruct (extract_video_id video_url) as [video_id|]; [|discriminate].
  destruct (negb (Py.truthy (Py.PStr video_id))); [discriminate|].
  unfold try_or, tbind, http_get, pure, attempt.
  match goal with |- context [o' log ?c] =>
    rewrite (Hsame log c (videos_url_not_comments self));
    destruct (o' log c) as [data|]; [|discriminate]
  end.
  destruct (has_items data) as [[|]|]; [|discriminate|discriminate].
  destruct (first_item data) as [video_data|]; [|discriminate].
  destruct (Py.getitem video_data "statistics") as [stats|]; [|discriminate].
  destruct (Py.getitem video_data "snippet") as [snippet|]; [|discriminate].
  destruct (Py.getitem video_data "contentDetails") as [details|]; [|discriminate].
  match goal with |- context [get_video_comments self video_id 50 o ?l] =>
    destruct (get_video_comments_fails self video_id 50 o l Hfail) as [log1 ->];
    destruct (get_video_comments self video_id 50 o' l) as [comments log2]
  end.
  destruct (calculate_video_engagement stats) as [metrics|]; [|discriminate].
  destruct (video_result stats snippet details comments metrics) as [r|] eqn:Er;
    [|discriminate].
  intros _.
  destruct (video_result_comments _ _ _ _ [] _ _ Er) as (-> & Hget & Hok).
  cbn [fst]. auto.
Qed.

Lemma comment_failure_keeps_video_result_witness :
  fst (get_video_stats (new_analyzer "key") sample_video_url comments_down [])
  = with_comments []
      (fst (get_video_stats (new_analyzer "key") sample_video_url comments_up [])) /\
  succeeded
    (fst (get_video_stats (new_analyzer "key") sample_video_url comments_down []))
  = true /\
  Py.getitem
    (fst (get_video_stats (new_analyzer "key") sample_video_url comments_down []))
    "comments_data"
  = Some (Py.PList []).
Proof.
  apply comment_failure_keeps_video_result.
  - intros log c Hc. unfold comments_down, comments_up.
    destruct (String.eqb (endpoint c) _) eqn:E; [|reflexivity].
    apply String.eqb_eq in E. contradiction.
  - intros log c Hc. unfold comments_down. rewrite Hc. exact I.
  - vm_compute. reflexivity.
Defined.

(** ** The patterns as scanners *)

Lemma stars_head cls s :
  exists rest tl, Re.stars cls s = (Scan.span cls s, rest) :: tl.
Proof.
  induction s as [|c s IH]; cbn [Re.stars Scan.span]; [eauto|].
  destruct (cls c); [|eauto].
  destruct IH as (rest & tl & ->).
  exists rest, (map (Re.push c) tl ++ [(EmptyString, String c s)])%list.
  reflexivity.
Qed.

Lemma pluses_head cls s :
  match Scan.plus cls s with
  | Some g => exists rest tl, Re.pluses cls s = (g, rest) :: tl
  | None => Re.pluses cls s = []
  end.
Proof.
  unfold Scan.plus. destruct s as [|c s]; cbn [Scan.span Re.pluses]; [reflexivity|].
  destruct (cls c); [|reflexivity].
  destruct (stars_head cls s) as (rest & tl & ->).
  exists rest, (map (Re.push c) tl). reflexivity.
Qed.

Lemma times_exactly n cls s :
  match Scan.exactly n cls s with
  | Some g => exists rest, Re.times n cls s = [(g, rest)]
  | None => Re.times n cls s = []
  end.
Proof.
  revert s. induction n as [|n IH]; intros s; cbn [Scan.exactly Re.times]; [eauto|].
  destruct s as [|c s]; [reflexivity|].
  destruct (cls c); [|reflexivity].
  specialize (IH s). destruct (Scan.exactly n cls s) as [g|]; cbn [option_map].
  - destruct IH as [rest ->]. exists rest. reflexivity.
  - rewrite IH. reflexivity.
Qed.

Lemma stars_nonempty cls s : Re.stars cls s <> [].
Proof. destruct (stars_head cls s) as (rest & tl & ->). discriminate. Qed.

(** [lit(cls+)] *)
Lemma match_at_lit_plus lit s :
  Re.match_at (Re.Seq (Re.Lit lit) (Re.Group (Re.Plus Re.segment_char))) s
  = option_map Some (Scan.lit_segment lit s).
Proof.
  unfold Re.match_at, Scan.lit_segment. cbn [Re.run].
  destruct (Str.strip_prefix lit s) as [rest|]; [|reflexivity].
  cbn [flat_map]. rewrite app_nil_r.
  pose proof (pluses_head Re.segment_char rest) as H.
  destruct (Scan.plus Re.segment_char rest) as [g|].
  - destruct H as (r & tl & ->). reflexivity.
  - rewrite H. reflexivity.
Qed.

(** [lit(cls{11})] *)
Lemma match_at_lit_times lit s :
  Re.match_at (Re.Seq (Re.Lit lit) (Re.Group (Re.Times 11 Re.id_char))) s
  = option_map Some (Scan.lit_id lit s).
Proof.
  unfold Re.match_at, Scan.lit_id. cbn [Re.run].
  destruct (Str.strip_prefix lit s) as [rest|]; [|reflexivity].
  cbn [flat_map]. rewrite app_nil_r.
  pose proof (times_exactly 11 Re.id_char rest) as H.
  destruct (Scan.exactly 11 Re.id_char rest) as [g|].
  - destruct H as (r & ->). reflexivity.
  - rewrite H. reflexivity.
Qed.

(** [(?:a|b)(cls{11}).*] *)
Lemma match_at_alt_times a b s :
  Re.match_at
    (Re.Seq (Re.Seq (Re.Alt (Re.Lit a) (Re.Lit b))
                    (Re.Group (Re.Times 11 Re.id_char)))
            (Re.Star Re.dot)) s
  = option_map Some (Scan.alt_id a b s).
Proof.
  unfold Re.match_at, Scan.alt_id, Scan.lit_id. cbn [Re.run].
  destruct (Str.strip_prefix a s) as [ra|]; destruct (Str.strip_prefix b s) as [rb|];
    cbn [app flat_map map];
    repeat match goal with
    | |- context [Re.times 11 Re.id_char ?r] =>
        let H := fresh "H" in
        pose proof (times_exactly 11 Re.id_char r) as H;
        destruct (Scan.exactly 11 Re.id_char r) as [?g|];
        [destruct H as (? & ->) | rewrite H]; cbn [app flat_map map]
    end;
    try reflexivity;
    match goal with
    | |- context [Re.stars Re.dot ?r] =>
        destruct (stars_head Re.dot r) as (? & ? & ->); reflexivity
    end.
Qed.

Lemma search_scan r m :
  (forall t, Re.match_at r t = option_map Some (m t)) ->
  forall s, Re.search r s = option_map Some (Scan.search m s).
Proof.
  intros H s. induction s as [|c s IH]; cbn [Re.search Scan.search]; rewrite H.
  - destruct (m ""); reflexivity.
  - destruct (m (String c s)); [reflexivity | exact IH].
Qed.

Lemma first_group_scan rs ms :
  Forall2 (fun r m => forall t, Re.match_at r t = option_map Some (m t)) rs ms ->
  forall url, Re.first_group rs url = Scan.first_match ms url.
Proof.
  intros H url. induction H as [|r m rs ms Hrm _ IH]; [reflexivity|].
  cbn [Re.first_group Scan.first_match].
  rewrite (search_scan r m Hrm).
  destruct (Scan.search m url); [reflexivity | exact IH].
Qed.

Lemma extract_channel_id_scan url :
  extract_channel_id url = Scan.first_match Scan.channel_patterns url.
Proof.
  apply first_group_scan.
  repeat constructor; intros t; apply match_at_lit_plus.
Qed.

Lemma extract_video_id_scan url :
  extract_video_id url = Scan.first_match Scan.video_patterns url.
Proof.
  apply first_group_scan.
  repeat constructor; intros t;
    first [apply match_at_alt_times | apply match_at_lit_times].
Qed.

(** ** Splitting on a marker *)

Lemma append_assoc (a b c : string) : ((a ++ b) ++ c = a ++ b ++ c)%string.
Proof. induction a as [|x a IH]; cbn; [reflexivity | now rewrite IH]. Qed.

Lemma append_nil_r (a : string) : (a ++ "" = a)%string.
Proof. induction a as [|x a IH]; cbn; [reflexivity | now rewrite IH]. Qed.

Lemma length_app (a b : string) :
  String.length (a ++ b) = (String.length a + String.length b)%nat.
Proof. induction a as [|x a IH]; cbn; [reflexivity | now rewrite IH]. Qed.

Lemma rev_onto_acc acc s : Str.rev_onto acc s = (Str.rev s ++ acc)%string.
Proof.
  unfold Str.rev. revert acc.
  induction s as [|c s IH]; intros acc; cbn [Str.rev_onto]; [reflexivity|].
  rewrite (IH (String c acc)), (IH (String c "")), append_assoc. reflexivity.
Qed.

Lemma rev_push c cur s :
  (Str.rev (String c cur) ++ s = Str.rev cur ++ String c s)%string.
Proof.
  unfold Str.rev at 1. cbn [Str.rev_onto].
  rewrite rev_onto_acc, append_assoc. reflexivity.
Qed.

Lemma startswith_split p s :
  Str.startswith p s = true -> exists t, s = (p ++ t)%string.
Proof.
  revert s. induction p as [|a p IH]; intros s; [exists s; reflexivity|].
  destruct s as [|b s]; cbn; [discriminate|].
  rewrite andb_true_iff. intros [E H]. apply Ascii.eqb_eq in E. subst b.
  destruct (IH _ H) as [t ->]. now exists t.
Qed.

(** Passing over the rest of a separator. *)
Lemma split_go_skip sep pre cur t :
  Str.split_go sep (String.length pre) cur (pre ++ t) = Str.split_go sep O cur t.
Proof.
  induction pre as [|c pre IH]; cbn [String.length append]; [reflexivity|].
  cbn [Str.split_go]. exact IH.
Qed.

Lemma split_go_nonempty sep skip cur s : Str.split_go sep skip cur s <> [].
Proof.
  revert skip cur. induction s as [|c s IH]; intros skip cur; cbn [Str.split_go].
  - discriminate.
  - destruct skip; [|apply IH].
    destruct (Str.startswith sep (String c s)); [discriminate | apply IH].
Qed.

Lemma last_cons_nonempty (x : string) l d : l <> [] -> List.last (x :: l) d = List.last l d.
Proof. destruct l; [contradiction | reflexivity]. Qed.

(** The last piece of a split: the whole text (after the current piece)
    when the separator does not occur, and else a text that follows an
    occurrence of the separator and does not contain it. *)
Lemma split_go_last_upto sep n :
  sep <> "" ->
  forall s cur, (String.length s <= n)%nat ->
    (Str.contains sep s = false ->
     Str.split_go sep O cur s = [(Str.rev cur ++ s)%string]) /\
    (Str.contains sep s = true ->
     exists before tail,
       s = (before ++ sep ++ tail)%string /\
       Str.contains sep tail = false /\
       Str.last_piece (Str.split_go sep O cur s) = tail).
Proof.
  intros Hsep. induction n as [|n IH]; intros s cur Hlen.
  - destruct s as [|c s]; [|cbn in Hlen; lia].
    split; intros H.
    + cbn. now rewrite append_nil_r.
    + destruct sep; [contradiction | discriminate H].
  - destruct s as [|c s].
    + split; intros H.
      * cbn. now rewrite append_nil_r.
      * destruct sep; [contradiction | discriminate H].
    + cbn in Hlen. cbn [Str.split_go Str.contains].
      destruct (Str.startswith sep (String c s)) eqn:Es; cbn [orb].
      * split; [discriminate|]. intros _.
        destruct (startswith_split _ _ Es) as [t Et].
        destruct sep as [|a sep']; [contradiction|].
        cbn [append] in Et. injection Et as <- ->.
        cbn [String.length Nat.pred]. rewrite split_go_skip.
        unfold Str.last_piece.
        rewrite last_cons_nonempty by apply split_go_nonempty.
        assert (Ht : (String.length t <= n)%nat).
        { rewrite length_app in Hlen. lia. }
        destruct (IH t "" Ht) as [IA IB].
        destruct (Str.contains (String c sep') t) eqn:Ec.
        -- destruct (IB eq_refl) as (b & tail & -> & Hno & Hl).
           exists (String c sep' ++ b)%string, tail.
           split; [|split; assumption].
           cbn [append]. now rewrite !append_assoc.
        -- exists ""%string, t. split; [reflexivity|]. split; [assumption|].
           rewrite (IA eq_refl). reflexivity.
      * destruct (IH s (String c cur) ltac:(lia)) as [IA IB]. split; intros H.
        -- rewrite (IA H), rev_push. reflexivity.
        -- destruct (IB H) as (b & tail & -> & Hno & Hl).
           exists (String c b), tail. repeat split; assumption.
Qed.

Lemma split_slash_first s cur :
  Str.first_piece (Str.split_go "/" O cur s) = (Str.rev cur ++ path_segment s)%string.
Proof.
  unfold path_segment. revert cur.
  induction s as [|c s IH]; intros cur; cbn [Str.split_go Scan.span].
  - cbn. now rewrite append_nil_r.
  - cbn [Str.startswith]. rewrite andb_true_r.
    rewrite (Ascii.eqb_sym "/" c).
    destruct (Ascii.eqb c "/"); cbn [negb].
    + cbn. now rewrite append_nil_r.
    + rewrite IH, rev_push. reflexivity.
Qed.

Lemma segment_after_spec marker url :
  marker <> "" -> Str.contains marker url = true ->
  first_segment_after marker url (segment_after marker url).
Proof.
  intros Hm Hc. unfold segment_after, Str.split.
  destruct (split_go_last_upto marker (String.length url) Hm url "" (Nat.le_refl _))
    as [_ HB].
  destruct (HB Hc) as (before & tail & E & Hno & ->).
  exists before, tail. repeat split; try assumption.
  now rewrite split_slash_first.
Qed.

(** ** The second extraction pass of the channel branch *)

(** C8, as the specification words it, fails for the marker
    [youtube.com/channel/]: on a URL that stops after this marker the four
    patterns fail and no fallback runs, the identifier stays [None]. *)
Lemma fallback_missing_for_channel_marker_counterexample :
  any_in channel_markers bare_channel_url = true /\
  extract_channel_id bare_channel_url = None /\
  channel_identifier_of bare_channel_url = None /\
  ~ fallback_for_every_marker.
Proof.
  assert (H : channel_identifier_of bare_channel_url = None) by (vm_compute; reflexivity).
  repeat split; try (vm_compute; reflexivity).
  intros Hclaim.
  destruct (Hclaim bare_channel_url) as (marker & _ & _ & Hid);
    try (vm_compute; reflexivity).
  rewrite H in Hid. discriminate Hid.
Qed.

(** C8, amended.  On a URL of the channel branch on which the four patterns
    fail, the fallback runs for the markers of the custom URLs: for
    [youtube.com/c/], else for [youtube.com/@], else for
    [youtube.com/user/], the identifier is [url.split(marker)[-1].split('/')[0]],
    the first path segment after the last occurrence of the marker.  When
    none of the three occurs, the URL contains [youtube.com/channel/] and
    the identifier stays [None]. *)
Theorem fallback_for_custom_urls (url : string) :
  any_in channel_markers url = true ->
  extract_channel_id url = None ->
  (Str.contains "youtube.com/c/" url = true ->
   channel_identifier_of url = Some (segment_after "youtube.com/c/" url) /\
   first_segment_after "youtube.com/c/" url (segment_after "youtube.com/c/" url)) /\
  (Str.contains "youtube.com/c/" url = false ->
   Str.contains "youtube.com/@" url = true ->
   channel_identifier_of url = Some (segment_after "youtube.com/@" url) /\
   first_segment_after "youtube.com/@" url (segment_after "youtube.com/@" url)) /\
  (Str.contains "youtube.com/c/" url = false ->
   Str.contains "youtube.com/@" url = false ->
   Str.contains "youtube.com/user/" url = true ->
   channel_identifier_of url = Some (segment_after "youtube.com/user/" url) /\
   first_segment_after "youtube.com/user/" url
     (segment_after "youtube.com/user/" url)) /\
  (Str.contains "youtube.com/c/" url = false ->
   Str.contains "youtube.com/@" url = false ->
   Str.contains "youtube.com/user/" url = false ->
   Str.contains "youtube.com/channel/" url = true /\
   channel_identifier_of url = None).
Proof.
  intros Hany Hnone. unfold channel_identifier_of, custom_url_fallback.
  rewrite Hnone. split; [|split; [|split]].
  - intros Hc. split; [now rewrite Hc|].
    apply segment_after_spec; [discriminate | assumption].
  - intros Hc Ha. split; [now rewrite Hc, Ha|].
    apply segment_after_spec; [discriminate | assumption].
  - intros Hc Ha Hu. split; [now rewrite Hc, Ha, Hu|].
    apply segment_after_spec; [discriminate | assumption].
  - intros Hc Ha Hu. split.
    + unfold any_in, channel_markers in Hany. cbn [existsb] in Hany.
      rewrite Hc, Ha, Hu in Hany. rewrite !orb_false_r in Hany. exact Hany.
    + rewrite Hc, Ha, Hu. reflexivity.
Qed.

Lemma fallback_for_custom_urls_witness :
  channel_identifier_of "https://www.youtube.com/c/?feature=shared"
  = Some "?feature=shared" /\
  first_segment_after "youtube.com/c/" "https://www.youtube.com/c/?feature=shared"
    "?feature=shared".
Proof.
  exact (proj1 (fallback_for_custom_urls "https://www.youtube.com/c/?feature=shared"
                  eq_refl eq_refl) eq_refl).
Defined.

(** ** The classifier on the supported shapes *)

Lemma one_of_In origins origin : one_of origins origin = true -> In origin origins.
Proof.
  unfold one_of. intros H. apply existsb_exists in H.
  destruct H as (x & Hin & E). apply String.eqb_eq in E. now subst.
Qed.

Lemma span_segment id rest :
  Str.all_chars Re.segment_char id = true -> ends_segment rest = true ->
  Scan.span Re.segment_char (id ++ rest) = id.
Proof.
  intros Hid Hrest. induction id as [|c id IH]; cbn [append Scan.span].
  - destruct rest as [|c r]; [reflexivity|].
    cbn [Scan.span]. cbn in Hrest. apply negb_true_iff in Hrest. now rewrite Hrest.
  - cbn in Hid. apply andb_true_iff in Hid. destruct Hid as [-> Hid].
    now rewrite IH.
Qed.

Lemma plus_segment id rest :
  is_segment id = true -> ends_segment rest = true ->
  Scan.plus Re.segment_char (id ++ rest) = Some id.
Proof.
  unfold is_segment. rewrite andb_true_iff, negb_true_iff.
  intros [Hne Hid] Hrest. unfold Scan.plus.
  rewrite span_segment by assumption.
  destruct id; [discriminate Hne | reflexivity].
Qed.

Lemma exactly_id n cls id rest :
  String.length id = n -> Str.all_chars cls id = true ->
  Scan.exactly n cls (id ++ rest) = Some id.
Proof.
  revert id. induction n as [|n IH]; intros [|c id]; cbn; try discriminate.
  - reflexivity.
  - intros [= Hlen]. rewrite andb_true_iff. intros [-> Hid].
    now rewrite IH.
Qed.

Lemma startswith_app p q s :
  Str.startswith (p ++ q) s = true -> Str.startswith p s = true.
Proof.
  revert s. induction p as [|a p IH]; intros s; [reflexivity|].
  destruct s as [|b s]; cbn; [discriminate|].
  rewrite !andb_true_iff. intros [-> H]. split; [reflexivity|]. now apply IH.
Qed.

Lemma strip_prefix_startswith p s r :
  Str.strip_prefix p s = Some r -> Str.startswith p s = true.
Proof.
  revert s. induction p as [|a p IH]; intros s; [reflexivity|].
  destruct s as [|b s]; cbn; [discriminate|].
  destruct (Ascii.eqb a b); [apply IH | discriminate].
Qed.

Lemma contains_false_tail needle c s :
  Str.contains needle (String c s) = false -> Str.contains needle s = false.
Proof. cbn [Str.contains]. now intros H%orb_false_iff. Qed.

Lemma contains_false_here needle s :
  Str.contains needle s = false -> Str.startswith needle s = false.
Proof. destruct s; cbn [Str.contains]; now intros H%orb_false_iff. Qed.

(** Where the text does not contain [p], a marker that starts with [p] is
    not in it, and a pattern whose literal starts with [p] finds nothing. *)
Lemma contains_longer_false p q s :
  Str.contains p s = false -> Str.contains (p ++ q) s = false.
Proof.
  induction s as [|c s IH]; intros H.
  - apply contains_false_here in H. cbn [Str.contains].
    destruct (Str.startswith (p ++ q) "") eqn:E; [|reflexivity].
    apply startswith_app in E. congruence.
  - pose proof (contains_false_here _ _ H) as Hh.
    cbn [Str.contains]. rewrite (IH (contains_false_tail _ _ _ H)).
    destruct (Str.startswith (p ++ q) (String c s)) eqn:E; [|reflexivity].
    apply startswith_app in E. congruence.
Qed.

Lemma search_lit_segment_none p q s :
  Str.contains p s = false -> Scan.search (Scan.lit_segment (p ++ q)) s = None.
Proof.
  assert (Hm : forall t, Str.contains p t = false -> Scan.lit_segment (p ++ q) t = None).
  { intros t Ht. unfold Scan.lit_segment.
    destruct (Str.strip_prefix (p ++ q) t) as [r|] eqn:E; [|reflexivity].
    apply strip_prefix_startswith, startswith_app in E.
    apply contains_false_here in Ht. congruence. }
  induction s as [|c s IH]; intros H; cbn [Scan.search]; rewrite (Hm _ H).
  - reflexivity.
  - apply IH. eapply contains_false_tail; eassumption.
Qed.

Lemma strip_prefix_app lit s : Str.strip_prefix lit (lit ++ s) = Some s.
Proof.
  induction lit as [|c lit IH]; cbn; [reflexivity|].
  now rewrite Ascii.eqb_refl.
Qed.

Lemma lit_segment_here lit id rest :
  is_segment id = true -> ends_segment rest = true ->
  Scan.lit_segment lit (lit ++ id ++ rest) = Some id.
Proof.
  intros Hid Hrest. unfold Scan.lit_segment.
  rewrite strip_prefix_app. now apply plus_segment.
Qed.

Lemma lit_id_here lit id rest :
  is_video_id id = true -> Scan.lit_id lit (lit ++ id ++ rest) = Some id.
Proof.
  unfold is_video_id. rewrite andb_true_iff, Nat.eqb_eq. intros [Hlen Hid].
  unfold Scan.lit_id. rewrite strip_prefix_app. now apply exactly_id.
Qed.

Lemma no_host_markers s :
  Str.contains "youtube.com/" s = false ->
  Str.contains "youtube.com/channel/" s = false /\
  Str.contains "youtube.com/c/" s = false /\
  Str.contains "youtube.com/user/" s = false /\
  Str.contains "youtube.com/@" s = false /\
  Str.contains "youtube.com/watch" s = false /\
  Str.contains "youtube.com/shorts/" s = false.
Proof.
  intros H.
  pose proof (fun q => contains_longer_false "youtube.com/" q s H) as L.
  repeat split;
    [ apply (L "channel/") | apply (L "c/") | apply (L "user/") | apply (L "@")
    | apply (L "watch") | apply (L "shorts/") ].
Qed.

Lemma no_host_patterns s :
  Str.contains "youtube.com/" s = false ->
  Scan.search (Scan.lit_segment "youtube.com/channel/") s = None /\
  Scan.search (Scan.lit_segment "youtube.com/c/") s = None /\
  Scan.search (Scan.lit_segment "youtube.com/user/") s = None.
Proof.
  intros H.
  pose proof (fun q => search_lit_segment_none "youtube.com/" q s H) as L.
  repeat split; [ apply (L "channel/") | apply (L "c/") | apply (L "user/") ].
Qed.

Lemma is_segment_nonempty id : is_segment id = true -> negb (String.eqb id "") = true.
Proof. unfold is_segment. now intros [H _]%andb_true_iff. Qed.

Arguments Scan.exactly !n cls !s.
Arguments Scan.plus cls !s.
Arguments Scan.search m !s.
Arguments Str.contains needle !hay.

(** What is left of a goal once the fixed part of a URL is evaluated: facts
    about the text after it. *)
Ltac use_no_host H :=
  let M := fresh "M" in
  let P := fresh "P" in
  pose proof (no_host_markers _ H) as M;
  pose proof (no_host_patterns _ H) as P;
  destruct M as (M1 & M2 & M3 & M4 & M5 & M6);
  destruct P as (P1 & P2 & P3);
  rewrite ?M1, ?M2, ?M3, ?M4, ?M5, ?M6, ?P1, ?P2, ?P3.

Ltac use_here L :=
  let E := fresh "E" in
  pose proof L as E; cbn [append] in E; rewrite ?E; clear E.

Lemma identify_channel_url origin id rest :
  In origin youtube_origins -> is_segment id = true -> ends_segment rest = true ->
  identify (origin ++ "channel/" ++ id ++ rest) = Some (Channel, id).
Proof.
  intros Hin Hid Hrest.
  pose proof (is_segment_nonempty _ Hid) as Ht.
  pose proof (plus_segment _ _ Hid Hrest) as Hp.
  unfold identify, classify, channel_identifier_of.
  rewrite extract_channel_id_scan.
  unfold Scan.channel_patterns, any_in, channel_markers.
  cbn in Hin.
  repeat (destruct Hin as [<- | Hin]; [
    cbn; rewrite Hp; cbn; rewrite Ht; reflexivity |]).
  contradiction.
Qed.

Lemma identify_handle_url origin handle rest :
  In origin youtube_origins -> is_segment handle = true -> ends_segment rest = true ->
  Str.contains "youtube.com/" (handle ++ rest) = false ->
  identify (origin ++ "@" ++ handle ++ rest) = Some (Channel, handle).
Proof.
  intros Hin Hid Hrest Hn.
  pose proof (is_segment_nonempty _ Hid) as Ht.
  pose proof (plus_segment _ _ Hid Hrest) as Hp.
  unfold identify, classify, channel_identifier_of.
  rewrite extract_channel_id_scan.
  unfold Scan.channel_patterns, any_in, channel_markers.
  cbn in Hin.
  repeat (destruct Hin as [<- | Hin]; [
    cbn; use_no_host Hn; cbn; rewrite Hp; cbn; rewrite Ht; reflexivity |]).
  contradiction.
Qed.

Lemma exactly_video_id id rest :
  is_video_id id = true -> Scan.exactly 11 Re.id_char (id ++ rest) = Some id.
Proof.
  unfold is_video_id. rewrite andb_true_iff, Nat.eqb_eq. intros [Hlen Hid].
  now apply exactly_id.
Qed.

Lemma alt_id_first a b id rest :
  is_video_id id = true -> Scan.alt_id a b (a ++ id ++ rest) = Some id.
Proof. intros Hid. unfold Scan.alt_id. now rewrite lit_id_here. Qed.

Ltac video_case Hid Hn :=
  cbn; use_no_host Hn; cbn;
  use_here (fun r => alt_id_first "v=" "/" _ r Hid);
  rewrite ?(exactly_video_id _ _ Hid), ?orb_true_r; cbn;
  rewrite ?(exactly_video_id _ _ Hid); reflexivity.

Lemma identify_video_url origin marker id rest :
  (In origin youtube_origins /\ (marker = "watch?v=" \/ marker = "shorts/")) \/
  (In origin short_origins /\ marker = "") ->
  is_video_id id = true ->
  Str.contains "youtube.com/" (id ++ rest) = false ->
  identify (origin ++ marker ++ id ++ rest) = Some (Video, id).
Proof.
  intros Hin Hid Hn.
  unfold identify, classify. rewrite extract_video_id_scan.
  unfold Scan.video_patterns, any_in, channel_markers, video_markers.
  destruct Hin as [[Hin [-> | ->]] | [Hin ->]]; cbn in Hin;
    repeat (destruct Hin as [<- | Hin]; [video_case Hid Hn|]);
    contradiction.
Qed.

(** C3.  For a URL of one of the five supported shapes (a channel URL
    [.../channel/ID], a handle URL [.../@handle], and the video URLs
    [.../watch?v=ID], [youtu.be/ID] and [.../shorts/ID] with an ID of eleven
    characters of [[0-9A-Za-z_-]]), classification followed by extraction
    gives the kind of the shape and exactly the identifier it embeds. *)
Theorem classifier_round_trip (u : url_shape) :
  well_formed_url u = true ->
  identify (render u) = Some (kind_of u, embedded_identifier u).
Proof.
  destruct u as [origin id rest | origin handle rest | origin id rest
                | origin id rest | origin id rest];
    cbn [well_formed_url render kind_of embedded_identifier];
    rewrite ?andb_true_iff; unfold no_host; rewrite ?negb_true_iff.
  - intros [[Ho Hid] Hrest]. apply identify_channel_url; auto using one_of_In.
  - intros [[[Ho Hid] Hrest] Hn]. apply identify_handle_url; auto using one_of_In.
  - intros [[Ho Hid] Hn]. apply identify_video_url; auto using one_of_In.
  - intros [[Ho Hid] Hn]. apply (identify_video_url origin ""); auto using one_of_In.
  - intros [[Ho Hid] Hn]. apply identify_video_url; auto using one_of_In.
Qed.

Lemma classifier_round_trip_witness :
  identify "https://www.youtube.com/channel/UCabcdefghijklmnopqrstuv/videos"
  = Some (Channel, "UCabcdefghijklmnopqrstuv") /\
  identify "https://www.youtube.com/@handlename"
  = Some (Channel, "handlename") /\
  identify "https://www.youtube.com/watch?v=ABCDEFGHIJK&t=10s"
  = Some (Video, "ABCDEFGHIJK") /\
  identify "https://youtu.be/ABCDEFGHIJK"
  = Some (Video, "ABCDEFGHIJK") /\
  identify "https://www.youtube.com/shorts/ABCDEFGHIJK"
  = Some (Video, "ABCDEFGHIJK").
Proof.
  split; [|split; [|split; [|split]]].
  - exact (classifier_round_trip
             (ChannelUrl "https://www.youtube.com/" "UCabcdefghijklmnopqrstuv" "/videos")
             eq_refl).
  - exact (classifier_round_trip
             (HandleUrl "https://www.youtube.com/" "handlename" "") eq_refl).
  - exact (classifier_round_trip
             (WatchUrl "https://www.youtube.com/" "ABCDEFGHIJK" "&t=10s") eq_refl).
  - exact (classifier_round_trip
             (ShortLinkUrl "https://youtu.be/" "ABCDEFGHIJK" "") eq_refl).
  - exact (classifier_round_trip
             (ShortsUrl "https://www.youtube.com/" "ABCDEFGHIJK" "") eq_refl).
Defined.

(* ================================================================== *)
(** * Further properties of the code *)
(* ================================================================== *)

(** ** Printing and reading integers *)

Lemma read_digits_stop acc cnt rest :
  ends_digits rest = true -> Py.read_digits acc cnt rest = (acc, cnt, rest).
Proof.
  destruct rest as [|c r]; [reflexivity|].
  cbn [ends_digits Py.read_digits]. rewrite andb_true_iff, !negb_true_iff.
  intros [-> ->]. reflexivity.
Qed.

Lemma read_digits_uint d :
  forall acc cnt rest,
    ends_digits rest = true ->
    Py.read_digits acc cnt (NilEmpty.string_of_uint d ++ rest)
    = (uint_value d acc, (cnt + Decimal.nb_digits d)%nat, rest).
Proof.
  induction d; intros acc cnt rest Hrest;
    cbn [NilEmpty.string_of_uint append uint_value Decimal.nb_digits];
    try (rewrite Nat.add_0_r; now apply read_digits_stop);
    cbn [Py.read_digits];
    match goal with |- context [Str.isdigit ?c] =>
      change (Str.isdigit c) with true;
      let v := eval vm_compute in (Str.digit_value c) in
      change (Str.digit_value c) with v;
      cbv iota
    end;
    rewrite ?Z.add_0_r, IHd by assumption;
    rewrite Nat.add_succ_r; reflexivity.
Qed.

Lemma uint_value_pos d : forall a : positive,
  uint_value d (Z.pos a) = Z.pos (Pos.of_uint_acc d a).
Proof.
  induction d; intros a; cbn [uint_value Pos.of_uint_acc]; [reflexivity|..];
    match goal with |- uint_value _ ?z = _ =>
      match goal with |- _ = Z.pos (Pos.of_uint_acc _ ?p) =>
        replace z with (Z.pos p) by lia end end;
    apply IHd.
Qed.

Lemma uint_value_zero d : uint_value d 0 = Z.of_N (Pos.of_uint d).
Proof.
  induction d; cbn [uint_value Pos.of_uint]; [reflexivity | exact IHd |..];
    cbn [Z.mul Z.add]; rewrite uint_value_pos; reflexivity.
Qed.

Lemma string_of_uint_digits d :
  Str.all_chars Str.isdigit (NilEmpty.string_of_uint d) = true.
Proof. induction d; cbn [NilEmpty.string_of_uint Str.all_chars]; auto. Qed.

Lemma to_uint_string p :
  NilZero.string_of_uint (Pos.to_uint p) = NilEmpty.string_of_uint (Pos.to_uint p).
Proof.
  pose proof (DecimalPos.Unsigned.to_uint_nonnil p) as H.
  destruct (Pos.to_uint p); [contradiction | reflexivity..].
Qed.

(** The text of a non-negative integer: digits, at least one. *)
Lemma of_Z_digits n :
  0 <= n ->
  exists d, Str.of_Z n = NilEmpty.string_of_uint d /\ d <> Decimal.Nil /\
            uint_value d 0 = n.
Proof.
  intros Hn. unfold Str.of_Z. destruct n as [|p|p]; [| |lia].
  - exists (Decimal.D0 Decimal.Nil). repeat split. discriminate.
  - exists (Pos.to_uint p). cbn [Z.to_int NilZero.string_of_int].
    rewrite to_uint_string. split; [reflexivity|].
    split; [apply DecimalPos.Unsigned.to_uint_nonnil|].
    rewrite uint_value_zero, DecimalPos.Unsigned.of_to. reflexivity.
Qed.

Lemma nb_digits_pos d : d <> Decimal.Nil -> exists k, Decimal.nb_digits d = S k.
Proof. destruct d; [contradiction | cbn; eauto..]. Qed.

(** Reading the text of a non-negative integer. *)
Lemma read_digits_of_Z n rest :
  0 <= n -> ends_digits rest = true ->
  exists k, Py.read_digits 0 O (Str.of_Z n ++ rest) = (n, S k, rest).
Proof.
  intros Hn Hrest. destruct (of_Z_digits n Hn) as (d & -> & Hd & Hv).
  rewrite read_digits_uint by assumption.
  destruct (nb_digits_pos d Hd) as [k ->]. rewrite Hv.
  exists k. reflexivity.
Qed.

Lemma digit_not_space c : Str.isdigit c = true -> Py.number_space c = false.
Proof.
  unfold Str.isdigit, Py.number_space, Str.in_range.
  rewrite andb_true_iff, !Z.leb_le. intros [H1 H2].
  repeat (apply orb_false_iff; split);
    rewrite ?andb_false_iff, ?Z.leb_gt, ?Z.eqb_neq; lia.
Qed.

Lemma digit_not_sign c :
  Str.isdigit c = true -> Ascii.eqb c "-" = false /\ Ascii.eqb c "+" = false.
Proof.
  intros H. split; apply Ascii.eqb_neq; intros ->; discriminate H.
Qed.

Lemma skip_right_id s :
  Str.all_chars (fun c => negb (Py.number_space c)) s = true -> Py.skip_right s = s.
Proof.
  induction s as [|c s IH]; [reflexivity|].
  cbn [Str.all_chars Py.skip_right]. rewrite andb_true_iff, negb_true_iff.
  intros [Hc Hs]. rewrite (IH Hs), Hc. destruct s; reflexivity.
Qed.

Lemma all_chars_weaken (p q : ascii -> bool) s :
  (forall c, p c = true -> q c = true) ->
  Str.all_chars p s = true -> Str.all_chars q s = true.
Proof.
  intros H. induction s as [|c s IH]; [reflexivity|].
  cbn [Str.all_chars]. rewrite !andb_true_iff. intros [Hc Hs]. auto.
Qed.

Lemma trim_digits s :
  Str.all_chars Str.isdigit s = true -> Py.trim s = s.
Proof.
  intros H. unfold Py.trim.
  assert (Hl : Py.skip_left s = s).
  { destruct s as [|c s]; [reflexivity|]. cbn in H |- *.
    apply andb_true_iff in H. destruct H as [Hc _].
    now rewrite (digit_not_space c Hc). }
  rewrite Hl. apply skip_right_id.
  eapply all_chars_weaken; [|exact H].
  intros c Hc. now rewrite (digit_not_space c Hc).
Qed.

Lemma digits_head d :
  d <> Decimal.Nil ->
  exists c s, NilEmpty.string_of_uint d = String c s /\ Str.isdigit c = true.
Proof. destruct d; [contradiction | cbn; eauto..]. Qed.

Lemma parse_int_digits d :
  d <> Decimal.Nil ->
  Z.of_nat (Decimal.nb_digits d) <= Py.int_max_str_digits ->
  Py.parse_int (NilEmpty.string_of_uint d) = Some (uint_value d 0).
Proof.
  intros Hd Hlen. unfold Py.parse_int.
  rewrite trim_digits by apply string_of_uint_digits.
  destruct (digits_head d Hd) as (c & s & E & Hc).
  destruct (digit_not_sign c Hc) as [Hm Hp].
  assert (Hs : Py.read_sign (NilEmpty.string_of_uint d)
               = (false, NilEmpty.string_of_uint d)).
  { rewrite E. cbn [Py.read_sign]. now rewrite Hm, Hp. }
  rewrite Hs.
  pose proof (read_digits_uint d 0 O "" eq_refl) as R.
  replace (NilEmpty.string_of_uint d ++ "") with (NilEmpty.string_of_uint d) in R
    by (symmetry; apply append_nil_r).
  rewrite R. destruct (nb_digits_pos d Hd) as [k Hk]. rewrite Hk in *.
  cbn [Nat.add].
  replace (Z.of_nat (S k) <=? Py.int_max_str_digits) with true
    by (symmetry; apply Z.leb_le; exact Hlen).
  reflexivity.
Qed.

(** The value of a run of digits, by its leading digits. *)
Lemma uint_value_acc d : forall acc,
  uint_value d acc = acc * 10 ^ Z.of_nat (Decimal.nb_digits d) + uint_value d 0.
Proof.
  induction d; intros acc; cbn [uint_value Decimal.nb_digits];
    [cbn; lia|..];
    (rewrite IHd, (IHd (10 * 0 + _)) || rewrite IHd, (IHd (10 * 0)));
    rewrite Nat2Z.inj_succ, Z.pow_succ_r by lia; lia.
Qed.

Lemma uint_value_nonneg d : 0 <= uint_value d 0.
Proof.
  induction d; cbn [uint_value]; [lia | exact IHd |..];
    rewrite uint_value_acc;
    pose proof (Z.pow_nonneg 10 (Z.of_nat (Decimal.nb_digits d)) ltac:(lia)); lia.
Qed.

(** A run of digits that starts with a digit other than zero is worth at
    least the power of ten of its length. *)
Lemma uint_value_lower d :
  d <> Decimal.Nil -> (forall d', d <> Decimal.D0 d') ->
  10 ^ (Z.of_nat (Decimal.nb_digits d) - 1) <= uint_value d 0.
Proof.
  intros Hnil Hzero.
  destruct d as [|d|d|d|d|d|d|d|d|d|d]; [contradiction|exfalso; eapply Hzero; reflexivity|..];
    cbn [uint_value Decimal.nb_digits];
    rewrite uint_value_acc;
    pose proof (uint_value_nonneg d);
    pose proof (Z.pow_pos_nonneg 10 (Z.of_nat (Decimal.nb_digits d)) ltac:(lia) ltac:(lia));
    replace (Z.of_nat (S (Decimal.nb_digits d)) - 1)
      with (Z.of_nat (Decimal.nb_digits d)) by lia;
    nia.
Qed.

Lemma to_uint_leading p : forall d', Pos.to_uint p <> Decimal.D0 d'.
Proof.
  intros d' E.
  pose proof (DecimalPos.Unsigned.to_of (Pos.to_uint p)) as H.
  rewrite DecimalPos.Unsigned.of_to in H. cbn [N.to_uint] in H.
  assert (Hn : Decimal.nzhead (Pos.to_uint p) <> Decimal.Nil).
  { intros Hz. apply (DecimalPos.Unsigned.to_uint_nonzero p).
    transitivity (Decimal.unorm (Pos.to_uint p)); [exact H|].
    unfold Decimal.unorm. rewrite Hz. reflexivity. }
  rewrite (DecimalFacts.unorm_nzhead _ Hn) in H.
  apply (DecimalFacts.nzhead_nonzero (Pos.to_uint p) d').
  rewrite <- H. exact E.
Qed.

(** The text of a non-negative integer below [10^k] has at most [k]
    digits. *)
Lemma of_Z_digit_count n k :
  0 <= n < 10 ^ k -> 1 <= k ->
  exists d, Str.of_Z n = NilEmpty.string_of_uint d /\ d <> Decimal.Nil /\
            uint_value d 0 = n /\ Z.of_nat (Decimal.nb_digits d) <= k.
Proof.
  intros [Hn Hk] Hk1. unfold Str.of_Z. destruct n as [|p|p]; [| |lia].
  - exists (Decimal.D0 Decimal.Nil). repeat split; [discriminate | cbn; lia].
  - exists (Pos.to_uint p). cbn [Z.to_int NilZero.string_of_int].
    rewrite to_uint_string. split; [reflexivity|].
    split; [apply DecimalPos.Unsigned.to_uint_nonnil|].
    assert (Hv : uint_value (Pos.to_uint p) 0 = Z.pos p)
      by (rewrite uint_value_zero, DecimalPos.Unsigned.of_to; reflexivity).
    split; [exact Hv|].
    pose proof (uint_value_lower (Pos.to_uint p)
                  (DecimalPos.Unsigned.to_uint_nonnil p) (to_uint_leading p)) as Hlow.
    rewrite Hv in Hlow.
    assert (Hlt : 10 ^ (Z.of_nat (Decimal.nb_digits (Pos.to_uint p)) - 1) < 10 ^ k)
      by lia.
    apply Z.pow_lt_mono_r_iff in Hlt; lia.
Qed.

(** [int(str(n)) == n] for a non-negative integer within the limit on the
    digits. *)
Lemma parse_int_of_Z n :
  0 <= n < 10 ^ Py.int_max_str_digits -> Py.parse_int (Str.of_Z n) = Some n.
Proof.
  intros Hn.
  destruct (of_Z_digit_count n Py.int_max_str_digits Hn ltac:(discriminate))
    as (d & -> & Hd & <- & Hlen).
  now apply parse_int_digits.
Qed.

(** ** format_duration *)

Lemma contains1_app (L : ascii) a b :
  Str.contains (String L "") (a ++ b)
  = Str.contains (String L "") a || Str.contains (String L "") b.
Proof.
  induction a as [|c a IH]; cbn [append].
  - reflexivity.
  - cbn [Str.contains]. rewrite IH, orb_assoc. reflexivity.
Qed.

Lemma contains1_digits (L : ascii) d :
  Str.isdigit L = false -> Str.all_chars Str.isdigit d = true ->
  Str.contains (String L "") d = false.
Proof.
  intros HL. induction d as [|c d IH]; [reflexivity|].
  cbn [Str.all_chars Str.contains Str.startswith].
  rewrite andb_true_iff. intros [Hc Hd]. rewrite (IH Hd), andb_true_r, orb_false_r.
  apply Ascii.eqb_neq. intros ->. congruence.
Qed.

Lemma split1_cut (L : ascii) a b : forall cur,
  Str.contains (String L "") a = false ->
  Str.split_go (String L "") O cur (a ++ String L b)
  = (Str.rev cur ++ a)%string :: Str.split_go (String L "") O "" b.
Proof.
  induction a as [|c a IH]; intros cur H; cbn [append].
  - cbn [Str.split_go Str.startswith]. rewrite Ascii.eqb_refl. cbn.
    now rewrite append_nil_r.
  - cbn [Str.contains Str.startswith] in H. apply orb_false_iff in H.
    destruct H as [Hc Ha]. rewrite andb_true_r in Hc.
    cbn [Str.split_go Str.startswith]. rewrite Hc. cbn [andb].
    rewrite (IH _ Ha), rev_push. reflexivity.
Qed.

Lemma split1_none (L : ascii) s :
  Str.contains (String L "") s = false -> Str.split (String L "") s = [s].
Proof.
  intros H. unfold Str.split.
  destruct (split_go_last_upto (String L "") (String.length s)
              ltac:(discriminate) s "" (Nat.le_refl _)) as [HA _].
  exact (HA H).
Qed.

Lemma of_Z_all_digits n : 0 <= n -> Str.all_chars Str.isdigit (Str.of_Z n) = true.
Proof.
  intros Hn. destruct (of_Z_digits n Hn) as (d & -> & _).
  apply string_of_uint_digits.
Qed.

(** A component that is there: its number, and the text after its letter. *)
Lemma duration_component_present (L : ascii) n rest :
  Str.isdigit L = false -> 0 <= n < 10 ^ Py.int_max_str_digits ->
  Str.contains (String L "") rest = false ->
  duration_component (String L "") (Str.of_Z n ++ String L rest) = Some (n, rest).
Proof.
  intros HL Hn Hrest. unfold duration_component.
  pose proof (contains1_digits L _ HL (of_Z_all_digits n (proj1 Hn))) as Hd.
  rewrite contains1_app. cbn [Str.contains Str.startswith].
  rewrite Ascii.eqb_refl, orb_true_r. unfold Str.split.
  rewrite split1_cut by assumption.
  fold (Str.split (String L "") rest). rewrite split1_none by assumption.
  cbn [Str.first_piece hd nth_error Str.rev Str.rev_onto append].
  rewrite parse_int_of_Z by assumption. reflexivity.
Qed.

Lemma duration_component_absent letter duration :
  Str.contains letter duration = false ->
  duration_component letter duration = Some (0, duration).
Proof. intros H. unfold duration_component. now rewrite H. Qed.

Lemma component_without (L K : ascii) v :
  Str.isdigit L = false -> Ascii.eqb L K = false -> nonneg v ->
  Str.contains (String L "") (component v (String K "")) = false.
Proof.
  intros HL HK Hv. destruct v as [n|]; [|reflexivity].
  cbn [component]. rewrite contains1_app.
  rewrite (contains1_digits L _ HL (of_Z_all_digits n Hv)).
  cbn. now rewrite HK.
Qed.

Lemma readable_nonneg v : readable v -> nonneg v.
Proof. destruct v as [n|]; cbn [readable nonneg]; tauto. Qed.

(** X1.  Every duration of hours, minutes and seconds, each absent or
    non-negative and of no more digits than [int] accepts, decodes to its
    clock text; a component that is not there counts as zero. *)
Theorem format_duration_decodes (hours minutes seconds : option Z) :
  readable hours -> readable minutes -> readable seconds ->
  format_duration (iso8601 hours minutes seconds)
  = Some (clock (given hours) (given minutes) (given seconds)).
Proof.
  intros Rh Rm Rs.
  pose proof (readable_nonneg _ Rh) as Hh.
  pose proof (readable_nonneg _ Rm) as Hm.
  pose proof (readable_nonneg _ Rs) as Hs.
  unfold format_duration, iso8601. cbn [append drop].
  assert (HH : duration_component "H"
                 (component hours "H" ++ component minutes "M" ++ component seconds "S")
               = Some (given hours, (component minutes "M" ++ component seconds "S")%string)).
  { assert (Hno : Str.contains "H" (component minutes "M" ++ component seconds "S") = false).
    { rewrite contains1_app, !component_without by (assumption || reflexivity).
      reflexivity. }
    destruct hours as [h|]; cbn [component given append].
    - rewrite append_assoc.
      apply duration_component_present; [reflexivity | exact Rh | exact Hno].
    - apply duration_component_absent. exact Hno. }
  rewrite HH. cbn [Py.bind].
  assert (HM : duration_component "M" (component minutes "M" ++ component seconds "S")
               = Some (given minutes, component seconds "S")).
  { assert (Hno : Str.contains "M" (component seconds "S") = false)
      by (apply component_without; (assumption || reflexivity)).
    destruct minutes as [m|]; cbn [component given append].
    - rewrite append_assoc.
      apply duration_component_present; [reflexivity | exact Rm | exact Hno].
    - apply duration_component_absent. exact Hno. }
  rewrite HM. cbn [Py.bind].
  assert (HS : (if Str.contains "S" (component seconds "S")
                then Py.parse_int (Str.first_piece (Str.split "S" (component seconds "S")))
                else Some 0) = Some (given seconds)).
  { destruct seconds as [s|]; cbn [component given]; [|reflexivity].
    pose proof (contains1_digits "S" _ eq_refl (of_Z_all_digits s Hs)) as Hd.
    rewrite contains1_app. cbn [Str.contains Str.startswith Ascii.eqb Bool.eqb andb].
    rewrite orb_true_r. unfold Str.split. rewrite split1_cut by assumption.
    cbn [Str.first_piece hd Str.rev Str.rev_onto append].
    apply parse_int_of_Z. exact Rs. }
  rewrite HS. cbn [Py.bind]. unfold clock.
  destruct (0 <? given hours); reflexivity.
Qed.

Ltac readable_component :=
  first [ exact I | split; [lia | vm_compute; reflexivity] ].

Lemma format_duration_decodes_witness :
  format_duration "PT1H2M3S" = Some "1:02:03" /\
  format_duration "PT5M9S" = Some "5:09" /\
  format_duration "PT45S" = Some "0:45" /\
  format_duration "PT0H75M" = Some "75:00".
Proof.
  split; [|split; [|split]].
  - apply (format_duration_decodes (Some 1) (Some 2) (Some 3)); readable_component.
  - apply (format_duration_decodes None (Some 5) (Some 9)); readable_component.
  - apply (format_duration_decodes None None (Some 45)); readable_component.
  - apply (format_duration_decodes (Some 0) (Some 75) None); readable_component.
Defined.

Lemma first_piece_cut (L : ascii) a b :
  Str.contains (String L "") a = false ->
  Str.first_piece (Str.split (String L "") (a ++ String L b)) = a.
Proof.
  intros H. unfold Str.split. rewrite split1_cut by assumption. reflexivity.
Qed.

Lemma append_nil_l (a : string) : ("" ++ a = a)%string.
Proof. reflexivity. Qed.

Lemma component_reassoc a b c (L : ascii) rest :
  (a ++ b ++ (c ++ String L "") ++ rest = (a ++ b ++ c) ++ String L rest)%string.
Proof. rewrite !append_assoc. reflexivity. Qed.

(** [int] rejects a text in which a [D] follows the leading digits. *)
Lemma parse_int_days d n :
  0 <= n ->
  Py.parse_int (NilEmpty.string_of_uint d ++ "DT" ++ Str.of_Z n) = None.
Proof.
  intros Hn. unfold Py.parse_int.
  set (text := (NilEmpty.string_of_uint d ++ "DT" ++ Str.of_Z n)%string).
  assert (Hns : Str.all_chars (fun c => negb (Py.number_space c)) text = true).
  { unfold text. clear text.
    assert (Happ : forall a b, Str.all_chars (fun c => negb (Py.number_space c)) a = true ->
              Str.all_chars (fun c => negb (Py.number_space c)) b = true ->
              Str.all_chars (fun c => negb (Py.number_space c)) (a ++ b) = true).
    { intros a b Ha Hb. induction a as [|c a IH]; [exact Hb|].
      cbn in Ha |- *. apply andb_true_iff in Ha. destruct Ha as [-> Ha]. auto. }
    assert (Hdig : forall s, Str.all_chars Str.isdigit s = true ->
              Str.all_chars (fun c => negb (Py.number_space c)) s = true).
    { intros s. apply all_chars_weaken. intros c Hc.
      now rewrite (digit_not_space c Hc). }
    apply Happ; [apply Hdig, string_of_uint_digits|].
    apply (Happ "DT"); [reflexivity|]. now apply Hdig, of_Z_all_digits. }
  assert (Hstrip : Py.trim text = text).
  { unfold Py.trim.
    assert (Hl : Py.skip_left text = text).
    { destruct text as [|c t]; [reflexivity|]. cbn in Hns |- *.
      apply andb_true_iff in Hns. destruct Hns as [Hc _].
      apply negb_true_iff in Hc. now rewrite Hc. }
    rewrite Hl. now apply skip_right_id. }
  rewrite Hstrip.
  assert (Hsign : Py.read_sign text = (false, text)).
  { unfold text. destruct d; cbn [NilEmpty.string_of_uint append Py.read_sign];
      reflexivity. }
  rewrite Hsign. unfold text.
  rewrite read_digits_uint by reflexivity.
  destruct (0 + Decimal.nb_digits d)%nat; reflexivity.
Qed.

Lemma days_tail days :
  0 <= days ->
  exists d, drop 2 ("P" ++ Str.of_Z days) = NilEmpty.string_of_uint d /\
            forall rest, drop 2 ("P" ++ Str.of_Z days ++ rest)
                         = (NilEmpty.string_of_uint d ++ rest)%string.
Proof.
  intros Hd. destruct (of_Z_digits days Hd) as (d & -> & Hnil & _).
  destruct d; [contradiction|..]; eexists; split; reflexivity.
Qed.

(** X2.  A duration with a day component and a time component raises: the text
    before the first letter found is not an integer. *)
Theorem format_duration_days_raise (days : Z) (hours minutes seconds : option Z) :
  0 <= days -> nonneg hours -> nonneg minutes -> nonneg seconds ->
  (hours, minutes, seconds) <> (None, None, None) ->
  format_duration (iso8601_days days hours minutes seconds) = None.
Proof.
  intros Hd Hh Hm Hs Hsome. unfold format_duration, iso8601_days.
  destruct (days_tail days Hd) as (d & _ & ->). cbv zeta.
  assert (Hfree : forall (L : ascii) n, Str.isdigit L = false ->
            Ascii.eqb L "D" = false -> Ascii.eqb L "T" = false -> 0 <= n ->
            Str.contains (String L "") (NilEmpty.string_of_uint d ++ "DT" ++ Str.of_Z n)
            = false).
  { intros L n HL HD HT Hn. rewrite !contains1_app.
    rewrite (contains1_digits L _ HL (string_of_uint_digits d)).
    rewrite (contains1_digits L _ HL (of_Z_all_digits n Hn)).
    cbn. now rewrite HD, HT. }
  assert (Hcomp : forall (L : ascii) n rest, Str.isdigit L = false ->
            Ascii.eqb L "D" = false -> Ascii.eqb L "T" = false -> 0 <= n ->
            duration_component (String L "")
              (NilEmpty.string_of_uint d ++ "DT" ++ (Str.of_Z n ++ String L "") ++ rest)
            = None).
  { intros L n rest HL HD HT Hn. unfold duration_component.
    rewrite component_reassoc.
    rewrite contains1_app. cbn [Str.contains Str.startswith].
    rewrite Ascii.eqb_refl, orb_true_r.
    rewrite first_piece_cut by now apply Hfree.
    rewrite parse_int_days by assumption. reflexivity. }
  destruct hours as [h|]; cbn [component].
  { rewrite (Hcomp "H"%char h _ eq_refl eq_refl eq_refl Hh). reflexivity. }
  rewrite append_nil_l.
  assert (HnoH : forall v w,
            nonneg v -> nonneg w ->
            Str.contains "H" (NilEmpty.string_of_uint d ++ "DT" ++ component v "M"
                              ++ component w "S") = false).
  { intros v w Hv Hw. rewrite !contains1_app.
    rewrite (contains1_digits "H" _ eq_refl (string_of_uint_digits d)).
    rewrite !component_without by (assumption || reflexivity). reflexivity. }
  rewrite duration_component_absent by now apply HnoH.
  cbn [Py.bind].
  destruct minutes as [m|]; cbn [component].
  { rewrite (Hcomp "M"%char m _ eq_refl eq_refl eq_refl Hm). reflexivity. }
  rewrite append_nil_l.
  assert (HnoM : Str.contains "M" (NilEmpty.string_of_uint d ++ "DT" ++ component seconds "S")
                 = false).
  { rewrite !contains1_app.
    rewrite (contains1_digits "M" _ eq_refl (string_of_uint_digits d)).
    rewrite component_without by (assumption || reflexivity). reflexivity. }
  rewrite duration_component_absent by exact HnoM.
  cbn [Py.bind].
  destruct seconds as [s|]; [|contradiction].
  cbn [component].
  replace (NilEmpty.string_of_uint d ++ "DT" ++ Str.of_Z s ++ "S")%string
    with ((NilEmpty.string_of_uint d ++ "DT" ++ Str.of_Z s) ++ String "S" "")%string
    by (rewrite !append_assoc; reflexivity).
  rewrite contains1_app. cbn [Str.contains Str.startswith Ascii.eqb Bool.eqb andb].
  rewrite orb_true_r.
  rewrite first_piece_cut by (apply Hfree; (assumption || reflexivity)).
  rewrite parse_int_days by assumption. reflexivity.
Qed.

Lemma format_duration_days_raise_witness :
  format_duration "P1DT2H3M4S" = None /\ format_duration "P12DT30S" = None.
Proof.
  split.
  - apply (format_duration_days_raise 1 (Some 2) (Some 3) (Some 4));
      cbn; (lia || discriminate).
  - apply (format_duration_days_raise 12 None None (Some 30));
      cbn; (lia || discriminate || exact I).
Defined.

(** ** extract_video_id *)

Lemma scan_search_some m s g :
  Scan.search m s = Some g ->
  exists before t, s = (before ++ t)%string /\ m t = Some g.
Proof.
  induction s as [|c s IH]; cbn [Scan.search].
  - destruct (m "") eqn:E; [|discriminate]. intros [= <-]. now exists "", "".
  - destruct (m (String c s)) eqn:E.
    + intros [= <-]. now exists "", (String c s).
    + intros H. destruct (IH H) as (b & t & -> & Ht). now exists (String c b), t.
Qed.

Lemma scan_search_none m s :
  Scan.search m s = None ->
  forall before t, s = (before ++ t)%string -> m t = None.
Proof.
  induction s as [|c s IH]; cbn [Scan.search].
  - destruct (m "") eqn:E; [discriminate|]. intros _ [|b before] t; cbn; [|discriminate].
    now intros <-.
  - destruct (m (String c s)) eqn:E; [discriminate|]. intros H [|b before] t; cbn.
    + now intros <-.
    + intros [= -> ->]. eapply IH; eauto.
Qed.

Lemma strip_prefix_some lit s rest :
  Str.strip_prefix lit s = Some rest -> s = (lit ++ rest)%string.
Proof.
  revert s. induction lit as [|a lit IH]; intros s; cbn.
  - now intros [= ->].
  - destruct s as [|b s]; [discriminate|].
    destruct (Ascii.eqb a b) eqn:E; [|discriminate].
    apply Ascii.eqb_eq in E. subst b. intros H. now rewrite (IH _ H).
Qed.

Lemma exactly_some n cls s id :
  Scan.exactly n cls s = Some id ->
  exists after, s = (id ++ after)%string /\ String.length id = n /\
                Str.all_chars cls id = true.
Proof.
  revert s id. induction n as [|n IH]; intros s id.
  - destruct s; cbn; intros [= <-]; eexists; repeat split.
  - destruct s as [|c s]; cbn [Scan.exactly]; [discriminate|].
    destruct (cls c) eqn:Ec; [|discriminate].
    destruct (Scan.exactly n cls s) as [g|] eqn:E; [|discriminate].
    cbn. intros [= <-]. destruct (IH _ _ E) as (after & -> & <- & Hall).
    exists after. cbn. now rewrite Ec, Hall.
Qed.

Lemma lit_id_some lit t id :
  Scan.lit_id lit t = Some id ->
  exists after, t = (lit ++ id ++ after)%string /\ is_video_id id = true.
Proof.
  unfold Scan.lit_id.
  destruct (Str.strip_prefix lit t) as [rest|] eqn:E; [|discriminate].
  intros H. apply strip_prefix_some in E.
  destruct (exactly_some _ _ _ _ H) as (after & -> & Hlen & Hall).
  exists after. split; [assumption|].
  unfold is_video_id. now rewrite Hlen, Hall.
Qed.

Lemma alt_id_some t id :
  Scan.alt_id "v=" "/" t = Some id ->
  exists sep after,
    (sep = "v=" \/ sep = "/") /\ t = (sep ++ id ++ after)%string /\
    is_video_id id = true.
Proof.
  unfold Scan.alt_id. destruct (Scan.lit_id "v=" t) as [g|] eqn:E.
  - intros [= ->]. destruct (lit_id_some _ _ _ E) as (after & -> & Hid).
    exists "v=", after. auto.
  - intros H. destruct (lit_id_some _ _ _ H) as (after & -> & Hid).
    exists "/", after. auto.
Qed.

Lemma alt_id_here sep id after :
  sep = "v=" \/ sep = "/" -> is_video_id id = true ->
  Scan.alt_id "v=" "/" (sep ++ id ++ after) <> None.
Proof.
  intros [-> | ->] Hid; unfold Scan.alt_id.
  - now rewrite lit_id_here.
  - rewrite (lit_id_here "/") by assumption.
    destruct (Scan.lit_id "v=" ("/" ++ id ++ after)); discriminate.
Qed.

(** A pattern whose literal ends with a slash matches only where the first
    pattern matches too, one slash further. *)
Lemma lit_slash_id_none lit url :
  Scan.search (Scan.alt_id "v=" "/") url = None ->
  Scan.search (Scan.lit_id (lit ++ "/")) url = None.
Proof.
  intros Hnone.
  destruct (Scan.search (Scan.lit_id (lit ++ "/")) url) as [g|] eqn:E; [|reflexivity].
  exfalso.
  destruct (scan_search_some _ _ _ E) as (before & t & -> & Ht).
  destruct (lit_id_some _ _ _ Ht) as (after & -> & Hid).
  apply (alt_id_here "/" g after (or_intror eq_refl) Hid).
  apply (scan_search_none _ _ Hnone (before ++ lit)).
  rewrite !append_assoc. reflexivity.
Qed.

Lemma extract_video_id_first url :
  extract_video_id url = Scan.search (Scan.alt_id "v=" "/") url.
Proof.
  rewrite extract_video_id_scan. unfold Scan.video_patterns.
  cbn [Scan.first_match].
  destruct (Scan.search (Scan.alt_id "v=" "/") url) eqn:E; [reflexivity|].
  pose proof (lit_slash_id_none "embed" url E) as E1.
  pose proof (lit_slash_id_none "shorts" url E) as E2.
  pose proof (lit_slash_id_none "youtu.be" url E) as E3.
  cbn [append] in E1, E2, E3. rewrite E1, E2, E3.
  reflexivity.
Qed.

(** X3.  [extract_video_id] returns an id that occurs in the URL after a [v=] or
    a slash; it returns [None] only when no such id occurs; and its last
    three patterns never decide the result. *)
Theorem extract_video_id_occurrence (url : string) :
  (forall id, extract_video_id url = Some id -> video_id_occurs url id) /\
  (extract_video_id url = None -> forall id, ~ video_id_occurs url id) /\
  extract_video_id url = Re.first_group (firstn 1 video_patterns) url.
Proof.
  split; [|split].
  - intros id H. rewrite extract_video_id_first in H.
    destruct (scan_search_some _ _ _ H) as (before & t & -> & Ht).
    destruct (alt_id_some _ _ Ht) as (sep & after & Hsep & -> & Hid).
    now exists before, sep, after.
  - intros H id (before & sep & after & Hsep & -> & Hid).
    rewrite extract_video_id_first in H.
    apply (alt_id_here sep id after Hsep Hid).
    now apply (scan_search_none _ _ H before).
  - rewrite extract_video_id_first. cbn [firstn video_patterns Re.first_group].
    rewrite (search_scan _ (Scan.alt_id "v=" "/") (match_at_alt_times "v=" "/")).
    destruct (Scan.search (Scan.alt_id "v=" "/") url); reflexivity.
Qed.

Lemma extract_video_id_occurrence_witness :
  video_id_occurs "https://www.youtube.com/embed/ABCDEFGHIJK" "ABCDEFGHIJK" /\
  ~ video_id_occurs "https://youtu.be/short" "short".
Proof.
  split.
  - apply (proj1 (extract_video_id_occurrence
                    "https://www.youtube.com/embed/ABCDEFGHIJK")).
    vm_compute. reflexivity.
  - apply (proj1 (proj2 (extract_video_id_occurrence "https://youtu.be/short"))).
    vm_compute. reflexivity.
Defined.

(** ** extract_channel_id *)

Lemma span_split cls s :
  exists after,
    s = (Scan.span cls s ++ after)%string /\
    Str.all_chars cls (Scan.span cls s) = true /\
    match after with
    | EmptyString => True
    | String c _ => cls c = false
    end.
Proof.
  induction s as [|c s IH]; cbn [Scan.span].
  - now exists "".
  - destruct (cls c) eqn:Ec.
    + destruct IH as (after & E & Hall & Hend). exists after.
      cbn [append Str.all_chars]. rewrite Ec, Hall. rewrite <- E. auto.
    + exists (String c s). auto.
Qed.

Lemma lit_segment_some lit t id :
  Scan.lit_segment lit t = Some id ->
  exists after, t = (lit ++ id ++ after)%string /\ is_segment id = true /\
                ends_segment after = true.
Proof.
  unfold Scan.lit_segment, Scan.plus.
  destruct (Str.strip_prefix lit t) as [rest|] eqn:E; [|discriminate].
  apply strip_prefix_some in E. subst t.
  destruct (span_split Re.segment_char rest) as (after & Hrest & Hall & Hend).
  destruct (Scan.span Re.segment_char rest) as [|c g] eqn:Es; [discriminate|].
  intros [= <-]. exists after. split; [now rewrite <- Hrest|].
  split.
  - unfold is_segment. now rewrite Hall.
  - destruct after as [|a r]; [reflexivity|]. cbn. now rewrite Hend.
Qed.

Lemma startswith_self p s : Str.startswith p (p ++ s) = true.
Proof.
  induction p as [|c p IH]; [reflexivity|].
  cbn. now rewrite Ascii.eqb_refl.
Qed.

Lemma contains_middle needle before rest :
  Str.contains needle (before ++ needle ++ rest) = true.
Proof.
  induction before as [|c before IH]; cbn [append].
  - destruct (needle ++ rest)%string eqn:E.
    + cbn [Str.contains]. rewrite <- E, startswith_self. reflexivity.
    + cbn [Str.contains]. rewrite <- E, startswith_self. reflexivity.
  - cbn [Str.contains]. rewrite IH. apply orb_true_r.
Qed.

Lemma first_match_channel url id :
  Scan.first_match Scan.channel_patterns url = Some id ->
  exists marker, In marker channel_markers /\
                 Scan.search (Scan.lit_segment marker) url = Some id.
Proof.
  unfold Scan.channel_patterns, channel_markers. cbn [Scan.first_match].
  repeat match goal with
  | |- context [Scan.search (Scan.lit_segment ?m) url] =>
      let E := fresh "E" in
      destruct (Scan.search (Scan.lit_segment m) url) eqn:E;
      [intros [= ->]; exists m; split; [cbn; tauto | exact E] |]
  end.
  discriminate.
Qed.

(** X4.  What [extract_channel_id] returns is a non-empty path segment that
    follows a channel marker in the URL, so the URL is dispatched to the
    channel branch and the identifier is passed on as it is: the fallback
    never replaces a result of the patterns.  It returns [None] only when no
    marker is followed by a segment. *)
Theorem extract_channel_id_segment (url : string) :
  (forall id, extract_channel_id url = Some id ->
     channel_segment_occurs url id /\
     any_in channel_markers url = true /\
     classify url = ChannelRoute (Some id)) /\
  (extract_channel_id url = None -> forall id, ~ channel_segment_occurs url id).
Proof.
  split.
  - intros id H.
    assert (Hocc : channel_segment_occurs url id).
    { rewrite extract_channel_id_scan in H.
      destruct (first_match_channel _ _ H) as (marker & Hin & Hs).
      destruct (scan_search_some _ _ _ Hs) as (before & t & -> & Ht).
      destruct (lit_segment_some _ _ _ Ht) as (after & -> & Hid & Hend).
      now exists before, marker, after. }
    assert (Hany : any_in channel_markers url = true).
    { destruct Hocc as (before & marker & after & Hin & -> & _).
      unfold any_in. apply existsb_exists. exists marker.
      split; [assumption | apply contains_middle]. }
    split; [assumption|]. split; [assumption|].
    unfold classify, channel_identifier_of. rewrite Hany, H.
    destruct Hocc as (_ & _ & _ & _ & _ & Hseg & _).
    cbn [Py.truthy]. now rewrite (is_segment_nonempty _ Hseg).
  - intros H id (before & marker & after & Hin & -> & Hid & Hend).
    rewrite extract_channel_id_scan in H.
    assert (Hm : Scan.search (Scan.lit_segment marker)
                   (before ++ marker ++ id ++ after) = None).
    { revert H. unfold Scan.channel_patterns, channel_markers in *.
      cbn [Scan.first_match]. cbn [In] in Hin.
      repeat match goal with
      | |- context [Scan.search (Scan.lit_segment ?m) ?u] =>
          destruct (Scan.search (Scan.lit_segment m) u) eqn:?; [discriminate|]
      end.
      intros _. repeat (destruct Hin as [<- | Hin]; [assumption|]). contradiction. }
    pose proof (scan_search_none _ _ Hm before _ eq_refl) as Hn.
    rewrite lit_segment_here in Hn by assumption. discriminate Hn.
Qed.

Lemma extract_channel_id_segment_witness :
  channel_segment_occurs "https://www.youtube.com/user/somebody?tab=1" "somebody" /\
  ~ channel_segment_occurs "https://www.youtube.com/c//x" "x".
Proof.
  split.
  - apply (proj1 (extract_channel_id_segment
                    "https://www.youtube.com/user/somebody?tab=1")).
    vm_compute. reflexivity.
  - apply (proj2 (extract_channel_id_segment "https://www.youtube.com/c//x")).
    vm_compute. reflexivity.
Defined.

(** ** get_video_comments *)






(** ** get_video_stats *)

Lemma get_video_comments_trace self video_id max_results o log :
  snd (get_video_comments self video_id max_results o log)
  = (log ++ [comments_call self video_id max_results])%list.
Proof.
  unfold get_video_comments, try_or, tbind, http_get, pure.
  fold (comments_call self video_id max_results).
  destruct (o log (comments_call self video_id max_results)) as [data|];
    [|reflexivity].
  destruct (parse_comments data); reflexivity.
Qed.

Lemma extract_video_id_is_id url id :
  extract_video_id url = Some id -> is_video_id id = true.
Proof.
  rewrite extract_video_id_first. intros H.
  destruct (scan_search_some _ _ _ H) as (before & t & -> & Ht).
  destruct (alt_id_some _ _ Ht) as (sep & after & _ & _ & Hid). exact Hid.
Qed.

Lemma video_id_truthy id : is_video_id id = true -> Py.truthy (Py.PStr id) = true.
Proof.
  unfold is_video_id. rewrite andb_true_iff, Nat.eqb_eq. intros [Hlen _].
  destruct id; [discriminate Hlen | reflexivity].
Qed.

Lemma video_result_shape stats snippet details comments metrics r :
  video_result stats snippet details comments metrics = Some r ->
  keys r = video_keys /\ succeeded r = true /\
  Py.getitem r "comments_data" = Some (Py.PList comments) /\
  Py.getitem r "engagement_metrics" = Some metrics.
Proof.
  unfold video_result. intros H. repeat step_bind.
  injection H as <-. repeat split.
Qed.

(** X6.  The runs of [get_video_stats].  Without a video id in the URL: the
    result ['Invalid video URL'] and no call.  With one: first the call for
    the video, then at most the call for its comments; the result is
    ['Could not fetch video data'], or a successful result with the
    seventeen entries of a video, and then both calls were made. *)
Theorem get_video_stats_outcomes (self : YouTubeAnalyzer) (video_url : string)
    (o : oracle) (log : list call) :
  match extract_video_id video_url with
  | None =>
      get_video_stats self video_url o log = (failure "Invalid video URL", log)
  | Some video_id =>
      exists result log',
        get_video_stats self video_url o log = (result, log') /\
        (log' = (log ++ [videos_call self video_id])%list \/
         log' = ((log ++ [videos_call self video_id])
                 ++ [comments_call self video_id 50])%list) /\
        (result = failure "Could not fetch video data" \/
         (succeeded result = true /\ keys result = video_keys /\
          log' = ((log ++ [videos_call self video_id])
                  ++ [comments_call self video_id 50])%list))
  end.
Proof.
  destruct (extract_video_id video_url) as [video_id|] eqn:Ex;
    unfold get_video_stats; rewrite Ex; [|reflexivity].
  rewrite (video_id_truthy _ (extract_video_id_is_id _ _ Ex)). cbn [negb].
  unfold try_or, tbind, http_get, pure, attempt.
  fold (videos_call self video_id).
  destruct (o log (videos_call self video_id)) as [data|]; [|eauto 8].
  destruct (has_items data) as [[|]|]; [|eauto 8|eauto 8].
  destruct (first_item data) as [video_data|]; [|eauto 8].
  destruct (Py.getitem video_data "statistics") as [stats|]; [|eauto 8].
  destruct (Py.getitem video_data "snippet") as [snippet|]; [|eauto 8].
  destruct (Py.getitem video_data "contentDetails") as [details|]; [|eauto 8].
  pose proof (get_video_comments_trace self video_id 50 o
                (log ++ [videos_call self video_id])%list) as Ht.
  destruct (get_video_comments self video_id 50 o
              (log ++ [videos_call self video_id])%list) as [comments log2].
  cbn [snd] in Ht. subst log2.
  destruct (calculate_video_engagement stats) as [metrics|]; [|eauto 8].
  destruct (video_result stats snippet details comments metrics) as [r|] eqn:Er;
    [|eauto 8].
  destruct (video_result_shape _ _ _ _ _ _ Er) as (Hk & Hs & _).
  exists r. eexists. split; [reflexivity|]. split; [now right|]. right. auto.
Qed.

Lemma get_video_stats_outcomes_witness :
  get_video_stats (new_analyzer "key") "https://youtu.be/short" comments_up []
  = (failure "Invalid video URL", []) /\
  exists result log',
    get_video_stats (new_analyzer "key") sample_video_url comments_down []
    = (result, log') /\
    (log' = [videos_call (new_analyzer "key") "ABCDEFGHIJK"] \/
     log' = [videos_call (new_analyzer "key") "ABCDEFGHIJK";
             comments_call (new_analyzer "key") "ABCDEFGHIJK" 50]).
Proof.
  split.
  - exact (get_video_stats_outcomes (new_analyzer "key") "https://youtu.be/short"
             comments_up []).
  - pose proof (get_video_stats_outcomes (new_analyzer "key") sample_video_url
                  comments_down []) as H.
    change (extract_video_id sample_video_url) with (Some "ABCDEFGHIJK") in H.
    cbv beta iota in H.
    destruct H as (result & log' & Hrun & Hlog & _).
    exists result, log'. split; assumption.
Defined.





(** ** get_video_stats_by_id and get_recent_videos *)

Lemma get_video_stats_by_id_outcome self video_id o log :
  snd (get_video_stats_by_id self video_id o log)
  = (log ++ [summary_call self video_id])%list /\
  (fst (get_video_stats_by_id self video_id o log) = Py.PNone \/
   (well_formed_summary (fst (get_video_stats_by_id self video_id o log)) /\
    Py.truthy (fst (get_video_stats_by_id self video_id o log)) = true)).
Proof.
  unfold get_video_stats_by_id, try_or, tbind, http_get, pure.
  fold (summary_call self video_id).
  destruct (o log (summary_call self video_id)) as [data|]; [|cbn; auto].
  destruct (has_items data) as [[|]|]; [|cbn; auto|cbn; auto].
  match goal with |- context [Py.bind ?m ?f] =>
    destruct (Py.bind m f) as [[r|]|] eqn:E end; [|cbn; auto|cbn; auto].
  cbn [fst snd]. split; [reflexivity|]. right.
  repeat step_bind. injection E as <-.
  split; [|reflexivity]. split; [reflexivity|].
  eexists. split; reflexivity.
Qed.

Lemma firstn_length_app {A} (l l' : list A) : firstn (List.length l) (l ++ l') = l.
Proof. induction l as [|a l IH]; [now destruct l' | cbn; now rewrite IH]. Qed.

Lemma nth_length_app {A} (l l' : list A) a d : nth (List.length l) (l ++ a :: l') d = a.
Proof. induction l as [|b l IH]; [reflexivity | exact IH]. Qed.

(** The loop over the items that are still to do, when every item has a
    video id: [done] are the ids already dealt with. *)
Lemma recent_videos_loop_run self o log0 :
  forall items todo done videos,
    Forall2 (fun item id => item_video_id item = Some id) items todo ->
    recent_videos_loop self items videos o
      (log0 ++ map (summary_call self) done)%list
    = (Some (videos ++ filter Py.truthy
               (map (summary_at self o log0 (done ++ todo))
                    (seq (List.length done) (List.length todo))))%list,
       (log0 ++ map (summary_call self) (done ++ todo))%list).
Proof.
  induction items as [|item items IH]; intros todo done videos H; inversion H; subst.
  - cbn. now rewrite !app_nil_r.
  - rename y into id, l' into todo'. cbn [recent_videos_loop].
    unfold tbind at 1, pure at 1. fold (item_video_id item).
    match goal with H : item_video_id item = Some id |- _ => rewrite H end.
    unfold tbind at 1, attempt at 1.
    pose proof (get_video_stats_by_id_outcome self id o
                  (log0 ++ map (summary_call self) done)%list) as [Hlog _].
    assert (Hat : summary_at self o log0 (done ++ id :: todo') (List.length done)
                  = fst (get_video_stats_by_id self id o
                           (log0 ++ map (summary_call self) done)%list)).
    { unfold summary_at. now rewrite nth_length_app, firstn_length_app. }
    destruct (get_video_stats_by_id self id o
                (log0 ++ map (summary_call self) done)%list) as [r log1].
    cbn [fst snd] in Hlog, Hat. subst log1.
    replace ((log0 ++ map (summary_call self) done) ++ [summary_call self id])%list
      with (log0 ++ map (summary_call self) (done ++ [id]))%list
      by (rewrite map_app, app_assoc; reflexivity).
    match goal with H : Forall2 _ items todo' |- _ =>
      rewrite (IH todo' (done ++ [id])%list _ H) end.
    rewrite <- !app_assoc. cbn [app].
    rewrite List.length_app. cbn [List.length]. rewrite Nat.add_1_r.
    f_equal. f_equal. cbn [seq map filter]. rewrite Hat.
    destruct (Py.truthy r); [rewrite <- app_assoc|]; reflexivity.
Qed.

(** The loop stops with an exception at the first item without a video
    id, after the calls for the items before it. *)
Lemma recent_videos_loop_abort self o log0 :
  forall good ids bad rest done videos,
    Forall2 (fun item id => item_video_id item = Some id) good ids ->
    item_video_id bad = None ->
    recent_videos_loop self (good ++ bad :: rest) videos o
      (log0 ++ map (summary_call self) done)%list
    = (None, (log0 ++ map (summary_call self) (done ++ ids))%list).
Proof.
  induction good as [|item good IH]; intros ids bad rest done videos H Hbad;
    inversion H; subst.
  - cbn [app recent_videos_loop]. unfold tbind, pure. fold (item_video_id bad).
    rewrite Hbad. now rewrite app_nil_r.
  - rename y into id, l' into ids'. cbn [app recent_videos_loop].
    unfold tbind at 1, pure at 1. fold (item_video_id item).
    match goal with H : item_video_id item = Some id |- _ => rewrite H end.
    unfold tbind at 1, attempt at 1.
    pose proof (get_video_stats_by_id_outcome self id o
                  (log0 ++ map (summary_call self) done)%list) as [Hlog _].
    destruct (get_video_stats_by_id self id o
                (log0 ++ map (summary_call self) done)%list) as [r log1].
    cbn [snd] in Hlog. subst log1.
    replace ((log0 ++ map (summary_call self) done) ++ [summary_call self id])%list
      with (log0 ++ map (summary_call self) (done ++ [id]))%list
      by (rewrite map_app, app_assoc; reflexivity).
    match goal with H : Forall2 _ good ids' |- _ =>
      rewrite (IH ids' bad rest (done ++ [id])%list _ H Hbad) end.
    rewrite <- !app_assoc. reflexivity.
Qed.

Lemma summaries_well_formed self o log ids :
  Forall well_formed_summary (filter Py.truthy (summaries self o log ids)).
Proof.
  unfold summaries. generalize (seq 0 (List.length ids)). intros l.
  induction l as [|i l IH]; cbn [map filter]; [constructor|].
  unfold summary_at at 1.
  destruct (get_video_stats_by_id_outcome self (nth i ids Py.PNone) o
              (log ++ map (summary_call self) (firstn i ids))%list)
    as [_ [-> | [Hwf ->]]].
  - exact IH.
  - constructor; assumption.
Qed.

Lemma filter_length_le {A} (p : A -> bool) l :
  (List.length (filter p l) <= List.length l)%nat.
Proof. induction l as [|a l IH]; cbn; [lia|]. destruct (p a); cbn; lia. Qed.

Lemma contains_items_of_dict data items :
  Py.getitem data "items" = Some items -> Py.contains "items" data = Some true.
Proof.
  destruct data; try discriminate. cbn [Py.getitem Py.contains]. intros H.
  f_equal. induction d as [|[k v] d IH]; [discriminate|].
  cbn [Py.lookup existsb fst] in H |- *.
  destruct (String.eqb "items" k); [reflexivity | auto].
Qed.

(** X8.  [get_recent_videos] on a reply with a list of items.  When every item
    has a video id: one call for the playlist and then one call for every
    item, in the order of the playlist and however many items there are;
    the result holds the summaries that were fetched, in that order, each
    with its three entries and its three counts.  When an item has no
    video id: the result is empty, and the calls for the items before it
    were made. *)
Theorem get_recent_videos_fan_out (self : YouTubeAnalyzer) (playlist_id : Py.value)
    (max_results : Z) (o : oracle) (log : list call) (data : Py.value)
    (items : list Py.value) :
  o log (playlist_call self playlist_id max_results) = Some data ->
  Py.getitem data "items" = Some (Py.PList items) ->
  let started := (log ++ [playlist_call self playlist_id max_results])%list in
  (forall ids,
     Forall2 (fun item id => item_video_id item = Some id) items ids ->
     get_recent_videos self playlist_id max_results o log
     = (filter Py.truthy (summaries self o started ids),
        (started ++ map (summary_call self) ids)%list) /\
     Forall well_formed_summary (filter Py.truthy (summaries self o started ids)) /\
     (List.length (filter Py.truthy (summaries self o started ids))
      <= List.length items)%nat) /\
  (forall good bad rest ids,
     items = (good ++ bad :: rest)%list ->
     Forall2 (fun item id => item_video_id item = Some id) good ids ->
     item_video_id bad = None ->
     get_recent_videos self playlist_id max_results o log
     = ([], (started ++ map (summary_call self) ids)%list)).
Proof.
  intros Hreply Hitems started.
  assert (Hrun :
            get_recent_videos self playlist_id max_results o log
            = match recent_videos_loop self items [] o started with
              | (Some videos, log') => (videos, log')
              | (None, log') => ([], log')
              end).
  { unfold get_recent_videos, try_or, tbind, http_get, pure.
    fold (playlist_call self playlist_id max_results). rewrite Hreply.
    rewrite (contains_items_of_dict _ _ Hitems), Hitems. cbn [Py.bind Py.iter].
    fold started. destruct (recent_videos_loop self items [] o started) as [[vs|] l];
      reflexivity. }
  split.
  - intros ids Hids. rewrite Hrun.
    pose proof (recent_videos_loop_run self o started items ids [] [] Hids) as L.
    cbn [map app List.length] in L. rewrite app_nil_r in L. rewrite L.
    split; [reflexivity|]. split; [apply summaries_well_formed|].
    etransitivity; [apply filter_length_le|].
    unfold summaries. rewrite length_map, length_seq.
    apply Forall2_length in Hids. lia.
  - intros good bad rest ids -> Hgood Hbad. rewrite Hrun.
    pose proof (recent_videos_loop_abort self o started good ids bad rest [] []
                  Hgood Hbad) as L.
    cbn [map app] in L. rewrite app_nil_r in L. rewrite L. reflexivity.
Qed.

Lemma get_recent_videos_fan_out_witness :
  get_recent_videos sample_key (Py.PStr "UUabcdefghijklmnopqrstuv") 1
    (service (Some sample_playlist_reply)) []
  = (filter Py.truthy
       (summaries sample_key (service (Some sample_playlist_reply))
          [playlist_call sample_key (Py.PStr "UUabcdefghijklmnopqrstuv") 1]
          [Py.PStr "ABCDEFGHIJK"; Py.PStr "LMNOPQRSTUV"]),
     [ playlist_call sample_key (Py.PStr "UUabcdefghijklmnopqrstuv") 1;
       summary_call sample_key (Py.PStr "ABCDEFGHIJK");
       summary_call sample_key (Py.PStr "LMNOPQRSTUV") ]) /\
  get_recent_videos sample_key (Py.PStr "UUabcdefghijklmnopqrstuv") 10
    (service (Some broken_playlist_reply)) []
  = ([], [ playlist_call sample_key (Py.PStr "UUabcdefghijklmnopqrstuv") 10;
           summary_call sample_key (Py.PStr "ABCDEFGHIJK") ]).
Proof.
  split.
  - refine (proj1 (proj1 (get_recent_videos_fan_out sample_key
                            (Py.PStr "UUabcdefghijklmnopqrstuv") 1
                            (service (Some sample_playlist_reply)) []
                            sample_playlist_reply _ eq_refl eq_refl)
                     [Py.PStr "ABCDEFGHIJK"; Py.PStr "LMNOPQRSTUV"] _)).
    repeat constructor.
  - refine (proj2 (get_recent_videos_fan_out sample_key
                     (Py.PStr "UUabcdefghijklmnopqrstuv") 10
                     (service (Some broken_playlist_reply)) []
                     broken_playlist_reply _ eq_refl eq_refl)
              [_] _ [_] [Py.PStr "ABCDEFGHIJK"] eq_refl _ eq_refl).
    repeat constructor.
Defined.

(** ** get_channel_stats *)

Lemma recent_videos_loop_well_formed self o :
  forall items videos log,
    Forall well_formed_summary videos ->
    match fst (recent_videos_loop self items videos o log) with
    | Some vs => Forall well_formed_summary vs
    | None => True
    end.
Proof.
  induction items as [|item items IH]; intros videos log Hv.
  - exact Hv.
  - cbn [recent_videos_loop]. unfold tbind at 1, pure at 1.
    destruct (_ <- Py.getitem item "contentDetails" ;; _) as [video_id|];
      [|exact I].
    unfold tbind at 1, attempt at 1.
    pose proof (get_video_stats_by_id_outcome self video_id o log) as [_ Hr].
    destruct (get_video_stats_by_id self video_id o log) as [r log1].
    cbn [fst] in Hr. apply IH.
    destruct Hr as [-> | [Hwf ->]]; [exact Hv|].
    apply Forall_app. split; [exact Hv | now constructor].
Qed.

Lemma get_recent_videos_well_formed self playlist_id max_results o log :
  Forall well_formed_summary
    (fst (get_recent_videos self playlist_id max_results o log)).
Proof.
  unfold get_recent_videos, try_or, tbind, http_get, pure.
  destruct (o log _) as [data|]; [|constructor].
  destruct (Py.contains "items" data) as [[|]|]; [|constructor|constructor].
  destruct (_ <- Py.getitem data "items" ;; _) as [items|]; [|constructor].
  pose proof (recent_videos_loop_well_formed self o items []
                (log ++ [playlist_call self playlist_id max_results])%list
                (Forall_nil _)) as H.
  unfold playlist_call in H.
  destruct (recent_videos_loop self items [] o _) as [[vs|] l]; [exact H | constructor].
Qed.

Lemma firstn_Forall {A} (P : A -> Prop) n l : Forall P l -> Forall P (firstn n l).
Proof.
  revert l. induction n as [|n IH]; intros l H; [constructor|].
  destruct l; [constructor|]. inversion H; subst. constructor; auto.
Qed.

(** What [fetch_channel] returns. *)
Lemma fetch_channel_outcome self channel_id o log :
  fst (fetch_channel self channel_id o log) = failure "Could not fetch channel data" \/
  channel_result (fst (fetch_channel self channel_id o log)).
Proof.
  unfold fetch_channel, try_or, tbind, http_get, pure, attempt.
  destruct (o log _) as [data|]; [|now left].
  destruct (has_items data) as [[|]|]; [|now left|now left].
  destruct (first_item data) as [channel_data|]; [|now left].
  destruct (Py.getitem channel_data "statistics") as [stats|]; [|now left].
  destruct (Py.getitem channel_data "snippet") as [snippet|]; [|now left].
  destruct (_ <- Py.getitem channel_data "contentDetails" ;; _) as [uploads|];
    [|now left].
  match goal with |- context [get_recent_videos self uploads 10 o ?l] =>
    pose proof (get_recent_videos_well_formed self uploads 10 o l) as Hwf;
    destruct (get_recent_videos self uploads 10 o l) as [videos log2]
  end.
  cbn [fst] in Hwf.
  destruct (calculate_channel_engagement videos stats) as [metrics|]; [|now left].
  match goal with |- context [Py.bind ?m ?f] =>
    destruct (Py.bind m f) as [[r|]|] eqn:E end; [|now left|now left].
  right. cbn [fst]. repeat step_bind. injection E as <-.
  split; [reflexivity|]. split; [reflexivity|].
  exists (firstn 5 videos). split; [reflexivity|].
  split; [apply firstn_le_length | now apply firstn_Forall].
Qed.

(** X9.  What [get_channel_stats] returns for an identifier: Python's [None]
    when the identifier does not resolve, ['Could not fetch channel data'],
    or a successful result with the fourteen entries of a channel, at most
    five recent videos and only well-formed summaries.  For the identifier
    [None] it raises, before any call. *)
Theorem get_channel_stats_outcomes (self : YouTubeAnalyzer) (o : oracle)
    (log : list call) :
  get_channel_stats self None o log = (None, log) /\
  forall identifier,
    exists result,
      fst (get_channel_stats self (Some identifier) o log) = Some result /\
      ((result = Py.PNone /\
        fst (resolve_channel_id self identifier o log) = None) \/
       result = failure "Could not fetch channel data" \/
       channel_result result).
Proof.
  split; [reflexivity|]. intros identifier.
  unfold get_channel_stats, tbind, attempt, pure.
  destruct (resolve_channel_id self identifier o log) as [[channel_id|] log1].
  - pose proof (fetch_channel_outcome self channel_id o log1) as H.
    destruct (fetch_channel self channel_id o log1) as [r log2]. cbn [fst] in *.
    exists r. split; [reflexivity|]. tauto.
  - exists Py.PNone. cbn. auto.
Qed.

(** ** The channel path when the fetch of the uploads fails *)

Lemma playlist_url_differs self suffix :
  suffix <> "/playlistItems" ->
  (base_url self ++ suffix)%string <> playlist_url self.
Proof.
  unfold playlist_url. intros Hs H. apply append_cancel_l in H. contradiction.
Qed.

Lemma get_recent_videos_fails self playlist_id max_results o log :
  uploads_fetch_fails self o ->
  exists log',
    get_recent_videos self playlist_id max_results o log = ([], log').
Proof.
  intros Hfail. unfold get_recent_videos, try_or, tbind, http_get, pure.
  match goal with |- context [o log ?c] =>
    specialize (Hfail log c eq_refl); destruct (o log c) as [data|] end.
  - rewrite Hfail. eauto.
  - eauto.
Qed.

Lemma resolve_channel_id_same self identifier o o' log :
  same_but_uploads self o o' ->
  resolve_channel_id self identifier o log
  = resolve_channel_id self identifier o' log.
Proof.
  intros Hsame. unfold resolve_channel_id.
  destruct (_ && _); [reflexivity|].
  unfold get_channel_id_from_custom_url, try_or, tbind, http_get, pure.
  match goal with |- context [o log ?c] =>
    rewrite (Hsame log c (playlist_url_differs self "/search" ltac:(discriminate)))
  end.
  destruct (o' log _) as [data|]; [|reflexivity].
  destruct (has_items data) as [[|]|]; reflexivity.
Qed.

Lemma fetch_channel_without_uploads self channel_id o o' log :
  same_but_uploads self o o' ->
  uploads_fetch_fails self o ->
  succeeded (fst (fetch_channel self channel_id o' log)) = true ->
  fst (fetch_channel self channel_id o log)
  = without_uploads (fst (fetch_channel self channel_id o' log)) /\
  succeeded (fst (fetch_channel self channel_id o log)) = true /\
  Py.getitem (fst (fetch_channel self channel_id o log)) "recent_videos"
  = Some (Py.PList []) /\
  Py.getitem (fst (fetch_channel self channel_id o log)) "engagement_metrics"
  = Some (Py.PDict []).
Proof.
  intros Hsame Hfail. unfold fetch_channel, try_or, tbind, http_get, pure, attempt.
  match goal with |- context [o log ?c] =>
    rewrite (Hsame log c (playlist_url_differs self "/channels" ltac:(discriminate)))
  end.
  destruct (o' log _) as [data|]; [|discriminate].
  destruct (has_items data) as [[|]|]; [|discriminate|discriminate].
  destruct (first_item data) as [channel_data|]; [|discriminate].
  destruct (Py.getitem channel_data "statistics") as [stats|]; [|discriminate].
  destruct (Py.getitem channel_data "snippet") as [snippet|]; [|discriminate].
  destruct (_ <- Py.getitem channel_data "contentDetails" ;; _) as [uploads|];
    [|discriminate].
  match goal with |- context [get_recent_videos self uploads 10 o ?l] =>
    destruct (get_recent_videos_fails self uploads 10 o l Hfail) as [log1 ->];
    destruct (get_recent_videos self uploads 10 o' l) as [videos log2]
  end.
  destruct (calculate_channel_engagement videos stats) as [metrics|]; [|discriminate].
  cbn [calculate_channel_engagement].
  match goal with |- context [Py.bind ?m ?f] =>
    destruct (Py.bind m f) as [[r|]|] eqn:E end; [|discriminate|discriminate].
  intros _. repeat step_bind. injection E as <-.
  split; [reflexivity|]. split; [reflexivity|]. split; reflexivity.
Qed.

(** X10.  Take an identifier and a service under which [get_channel_stats]
    succeeds.  Under a service that answers alike but whose fetch of the
    uploads playlist fails, [get_channel_stats] returns the same result with
    an empty [recent_videos] and an empty [engagement_metrics]: [success] is
    still true, and no other entry changes. *)
Theorem uploads_failure_keeps_channel_result (self : YouTubeAnalyzer)
    (identifier : string) (o o' : oracle) (log : list call) (result : Py.value) :
  same_but_uploads self o o' ->
  uploads_fetch_fails self o ->
  fst (get_channel_stats self (Some identifier) o' log) = Some result ->
  succeeded result = true ->
  fst (get_channel_stats self (Some identifier) o log)
  = Some (without_uploads result) /\
  succeeded (without_uploads result) = true /\
  Py.getitem (without_uploads result) "recent_videos" = Some (Py.PList []) /\
  Py.getitem (without_uploads result) "engagement_metrics" = Some (Py.PDict []).
Proof.
  intros Hsame Hfail. unfold get_channel_stats, tbind, attempt, pure.
  rewrite (resolve_channel_id_same self identifier o o' log Hsame).
  destruct (resolve_channel_id self identifier o' log) as [[channel_id|] log1].
  - pose proof (fetch_channel_without_uploads self channel_id o o' log1 Hsame Hfail)
      as Hfetch.
    destruct (fetch_channel self channel_id o' log1) as [r' log2].
    destruct (fetch_channel self channel_id o log1) as [r log3].
    cbn [fst] in *. intros [= <-] Hok.
    destruct (Hfetch Hok) as (-> & H1 & H2 & H3). auto.
  - cbn [fst]. intros [= <-]. discriminate.
Qed.

Lemma uploads_failure_keeps_channel_result_witness :
  fst (get_channel_stats sample_key (Some "@somebody") (service None) [])
  = Some (without_uploads sample_channel_result) /\
  succeeded (without_uploads sample_channel_result) = true /\
  Py.getitem (without_uploads sample_channel_result) "recent_videos"
  = Some (Py.PList []) /\
  Py.getitem (without_uploads sample_channel_result) "engagement_metrics"
  = Some (Py.PDict []).
Proof.
  apply (uploads_failure_keeps_channel_result sample_key "@somebody"
           (service None) (service (Some sample_playlist_reply)) []).
  - intros log c Hc. apply String.eqb_neq in Hc.
    unfold service, playlist_url in *. rewrite Hc. reflexivity.
  - intros log c Hc. unfold service. rewrite Hc. vm_compute. exact I.
  - vm_compute. reflexivity.
  - vm_compute. reflexivity.
Defined.

(** ** The responses of analyze *)

Lemma get_video_stats_result self video_url o log :
  get_video_stats self video_url o log = (failure "Invalid video URL", log) \/
  fst (get_video_stats self video_url o log) = failure "Could not fetch video data" \/
  video_result_shape_ok (fst (get_video_stats self video_url o log)).
Proof.
  unfold get_video_stats.
  destruct (extract_video_id video_url) as [video_id|]; [|now left].
  destruct (negb (Py.truthy (Py.PStr video_id))); [now left|]. right.
  unfold try_or, tbind, http_get, pure, attempt.
  destruct (o log _) as [data|]; [|now left].
  destruct (has_items data) as [[|]|]; [|now left|now left].
  destruct (first_item data) as [video_data|]; [|now left].
  destruct (Py.getitem video_data "statistics") as [stats|]; [|now left].
  destruct (Py.getitem video_data "snippet") as [snippet|]; [|now left].
  destruct (Py.getitem video_data "contentDetails") as [details|]; [|now left].
  destruct (get_video_comments self video_id 50 o _) as [comments log2].
  destruct (calculate_video_engagement stats) as [metrics|]; [|now left].
  destruct (video_result stats snippet details comments metrics) as [r|] eqn:Er;
    [|now left].
  destruct (video_result_shape _ _ _ _ _ _ Er) as (Hk & Hs & _).
  right. split; assumption.
Qed.

(** X11.  The responses of [analyze].  The error page arises only when the [url]
    of the body is not a string, and then no call is made.  Every other
    response is a JSON body: one of the four request errors, sent without
    any remote call; one of the two fetch errors; [null]; a successful
    channel result; or a successful video result. *)
Theorem analyze_responses (self : YouTubeAnalyzer) (data : Py.value)
    (o : oracle) (log : list call) :
  match analyze self data o log with
  | (InternalServerError, log') =>
      log' = log /\
      forall raw, Py.get data "url" (Py.PStr "") <> Some (Py.PStr raw)
  | (Json body, log') =>
      (exists msg, In msg request_errors /\ body = failure msg /\ log' = log) \/
      (exists msg, In msg fetch_errors /\ body = failure msg) \/
      body = Py.PNone \/
      channel_result body \/
      video_result_shape_ok body
  end.
Proof.
  unfold analyze.
  destruct (Py.get data "url" (Py.PStr "")) as [[| | | |raw| |]|];
    try (split; [reflexivity | intros raw'; discriminate]).
  destruct (negb (Py.truthy (Py.PStr (Str.strip raw)))).
  { left. exists "Please provide a URL". cbn. auto. }
  destruct (classify (Str.strip raw)) as [[identifier|]| |].
  - unfold get_channel_stats, tbind, attempt, pure.
    destruct (resolve_channel_id self identifier o log) as [[channel_id|] log1].
    + pose proof (fetch_channel_outcome self channel_id o log1) as H.
      destruct (fetch_channel self channel_id o log1) as [r log2]. cbn [fst] in H.
      destruct H as [-> | H].
      * right. left. exists "Could not fetch channel data". cbn. auto.
      * right. right. right. left. exact H.
    + right. right. left. reflexivity.
  - left. exists ("Analysis failed: " ++ none_has_no_startswith)%string.
    cbn. auto 6.
  - destruct (get_video_stats_result self (Str.strip raw) o log) as [H | [H | H]].
    + rewrite H. left. exists "Invalid video URL". cbn. auto.
    + destruct (get_video_stats self (Str.strip raw) o log) as [r log1].
      cbn [fst] in H. subst r. right. left.
      exists "Could not fetch video data". cbn. auto.
    + destruct (get_video_stats self (Str.strip raw) o log) as [r log1].
      cbn [fst] in H. right. right. right. right. exact H.
  - left. exists "Unsupported URL format". cbn. auto.
Qed.

Lemma analyze_responses_witness :
  (forall raw,
     Py.get (Py.PDict [("url", Py.PInt 3)]) "url" (Py.PStr "")
     <> Some (Py.PStr raw)) /\
  ((exists msg,
      In msg request_errors /\
      Py.PNone = failure msg /\
      [Call (base_url sample_key ++ "/search")
         [ ("part", Py.PStr "snippet"); ("q", Py.PStr "nobody");
           ("type", Py.PStr "channel"); ("key", Py.PStr "key");
           ("maxResults", Py.PInt 1) ]] = []) \/
   (exists msg, In msg fetch_errors /\ Py.PNone = failure msg) \/
   Py.PNone = Py.PNone \/
   channel_result Py.PNone \/
   video_result_shape_ok Py.PNone).
Proof.
  split.
  - exact (proj2 (analyze_responses sample_key (Py.PDict [("url", Py.PInt 3)])
                    (fun _ _ => None) [])).
  - exact (analyze_responses sample_key
             (Py.PDict [("url", Py.PStr "https://youtube.com/@nobody")])
             (fun _ _ => None) []).
Defined.

(** ** The calls of a request *)

Lemma extends_refl self log : extends self log log.
Proof. exists []. rewrite app_nil_r. split; [reflexivity | constructor]. Qed.

Lemma extends_trans self log1 log2 log3 :
  extends self log1 log2 -> extends self log2 log3 -> extends self log1 log3.
Proof.
  intros (a & -> & Ha) (b & -> & Hb). exists (a ++ b)%list.
  rewrite app_assoc. split; [reflexivity | now apply Forall_app].
Qed.

Lemma extends_call self log url ps suffix :
  In suffix endpoints ->
  url = (base_url self ++ suffix)%string ->
  In ("key", Py.PStr (api_key self)) ps ->
  extends self log (log ++ [Call url ps])%list.
Proof.
  intros Hs Hu Hk. exists [Call url ps]. split; [reflexivity|].
  constructor; [|constructor]. split; [exists suffix; auto | exact Hk].
Qed.

Ltac one_call :=
  eapply extends_call; [| reflexivity |]; cbn; auto 10.

Lemma resolve_channel_id_extends self identifier o log :
  extends self log (snd (resolve_channel_id self identifier o log)).
Proof.
  unfold resolve_channel_id.
  destruct (_ && _); [apply extends_refl|].
  unfold get_channel_id_from_custom_url, try_or, tbind, http_get, pure.
  destruct (o log _) as [data|]; [|cbn [snd]; one_call].
  destruct (has_items data) as [[|]|]; [|cbn [snd]; one_call|cbn [snd]; one_call].
  destruct (_ <- first_item data ;; _) as [[v|]|]; cbn [snd]; one_call.
Qed.

Lemma recent_videos_loop_extends self o :
  forall items videos log,
    extends self log (snd (recent_videos_loop self items videos o log)).
Proof.
  induction items as [|item items IH]; intros videos log.
  - apply extends_refl.
  - cbn [recent_videos_loop]. unfold tbind at 1, pure at 1.
    destruct (_ <- Py.getitem item "contentDetails" ;; _) as [video_id|];
      [|apply extends_refl].
    unfold tbind at 1, attempt at 1.
    pose proof (get_video_stats_by_id_outcome self video_id o log) as [Hlog _].
    destruct (get_video_stats_by_id self video_id o log) as [r log1].
    cbn [snd] in Hlog. subst log1.
    eapply extends_trans; [|apply IH]. unfold summary_call. one_call.
Qed.

Lemma get_recent_videos_extends self playlist_id max_results o log :
  extends self log (snd (get_recent_videos self playlist_id max_results o log)).
Proof.
  unfold get_recent_videos, try_or, tbind, http_get, pure.
  match goal with |- context [(log ++ [?c])%list] =>
    assert (Hc : extends self log (log ++ [c])%list) by one_call;
    set (call := c) in *; set (log1 := (log ++ [call])%list) in *
  end.
  destruct (o log call) as [data|]; [|exact Hc].
  destruct (Py.contains "items" data) as [[|]|]; [|exact Hc|exact Hc].
  destruct (_ <- Py.getitem data "items" ;; _) as [items|]; [|exact Hc].
  pose proof (recent_videos_loop_extends self o items [] log1) as H.
  destruct (recent_videos_loop self items [] o log1) as [[vs|] log2];
    cbn [snd] in *; eapply extends_trans; eauto.
Qed.

Lemma fetch_channel_extends self channel_id o log :
  extends self log (snd (fetch_channel self channel_id o log)).
Proof.
  unfold fetch_channel, try_or, tbind, http_get, pure, attempt.
  match goal with |- context [(log ++ [?c])%list] =>
    assert (Hc : extends self log (log ++ [c])%list) by one_call;
    set (call := c) in *; set (log1 := (log ++ [call])%list) in *
  end.
  destruct (o log call) as [data|]; [|exact Hc].
  destruct (has_items data) as [[|]|]; [|exact Hc|exact Hc].
  destruct (first_item data) as [channel_data|]; [|exact Hc].
  destruct (Py.getitem channel_data "statistics") as [stats|]; [|exact Hc].
  destruct (Py.getitem channel_data "snippet") as [snippet|]; [|exact Hc].
  destruct (_ <- Py.getitem channel_data "contentDetails" ;; _) as [uploads|];
    [|exact Hc].
  pose proof (get_recent_videos_extends self uploads 10 o log1) as H.
  destruct (get_recent_videos self uploads 10 o log1) as [videos log2].
  cbn [snd] in H. pose proof (extends_trans _ _ _ _ Hc H) as Hc2.
  destruct (calculate_channel_engagement videos stats) as [metrics|]; [|exact Hc2].
  match goal with |- context [Py.bind ?m ?f] =>
    destruct (Py.bind m f) as [[r|]|] end; exact Hc2.
Qed.

Lemma get_video_stats_extends self video_url o log :
  extends self log (snd (get_video_stats self video_url o log)).
Proof.
  unfold get_video_stats.
  destruct (extract_video_id video_url) as [video_id|]; [|apply extends_refl].
  destruct (negb (Py.truthy (Py.PStr video_id))); [apply extends_refl|].
  unfold try_or, tbind, http_get, pure, attempt.
  match goal with |- context [(log ++ [?c])%list] =>
    assert (Hc : extends self log (log ++ [c])%list) by one_call;
    set (call := c) in *; set (log1 := (log ++ [call])%list) in *
  end.
  destruct (o log call) as [data|]; [|exact Hc].
  destruct (has_items data) as [[|]|]; [|exact Hc|exact Hc].
  destruct (first_item data) as [video_data|]; [|exact Hc].
  destruct (Py.getitem video_data "statistics") as [stats|]; [|exact Hc].
  destruct (Py.getitem video_data "snippet") as [snippet|]; [|exact Hc].
  destruct (Py.getitem video_data "contentDetails") as [details|]; [|exact Hc].
  pose proof (get_video_comments_trace self video_id 50 o log1) as Ht.
  destruct (get_video_comments self video_id 50 o log1) as [comments log2].
  cbn [snd] in Ht. subst log2.
  assert (Hc2 : extends self log
                  (log1 ++ [comments_call self video_id 50])%list).
  { eapply extends_trans; [exact Hc|]. unfold comments_call. one_call. }
  destruct (calculate_video_engagement stats) as [metrics|]; [|exact Hc2].
  destruct (video_result stats snippet details comments metrics) as [r|];
    exact Hc2.
Qed.

(** X12.  Whatever the body of the request and whatever the service answers,
    [analyze] only appends to the trace of remote calls, and every call it
    adds goes to one of the five endpoints under the base URL of the
    analyzer and carries its API key. *)
Theorem analyze_calls_own_endpoints (self : YouTubeAnalyzer) (data : Py.value)
    (o : oracle) (log : list call) :
  exists added,
    snd (analyze self data o log) = (log ++ added)%list /\
    Forall (own_call self) added.
Proof.
  change (extends self log (snd (analyze self data o log))).
  unfold analyze.
  destruct (Py.get data "url" (Py.PStr "")) as [[| | | |raw| |]|];
    try apply extends_refl.
  destruct (negb (Py.truthy (Py.PStr (Str.strip raw)))); [apply extends_refl|].
  destruct (classify (Str.strip raw)) as [[identifier|]| |];
    try apply extends_refl.
  - unfold get_channel_stats, tbind, attempt, pure.
    pose proof (resolve_channel_id_extends self identifier o log) as H1.
    destruct (resolve_channel_id self identifier o log) as [[channel_id|] log1];
      cbn [snd] in H1; [|exact H1].
    pose proof (fetch_channel_extends self channel_id o log1) as H2.
    destruct (fetch_channel self channel_id o log1) as [r log2].
    cbn [snd] in *. eapply extends_trans; eauto.
  - pose proof (get_video_stats_extends self (Str.strip raw) o log) as H.
    destruct (get_video_stats self (Str.strip raw) o log) as [r log1].
    exact H.
Qed.

(** ** format_number on counts *)

Lemma lower_digits s :
  Str.all_chars Str.isdigit s = true -> Str.lower s = s.
Proof.
  induction s as [|c s IH]; [reflexivity|].
  cbn [Str.all_chars Str.lower]. rewrite andb_true_iff. intros [Hc Hs].
  rewrite (IH Hs). f_equal.
  destruct c as [[] [] [] [] [] [] [] []]; try discriminate Hc; reflexivity.
Qed.

Lemma digits_not_word s w c :
  Str.all_chars Str.isdigit s = true ->
  Str.isdigit c = false ->
  String.eqb s (String c w) = false.
Proof.
  intros Hs Hc. apply String.eqb_neq. intros ->.
  cbn [Str.all_chars] in Hs. rewrite Hc in Hs. discriminate Hs.
Qed.

(** [float(str(n))] is [float(n)], overflow apart. *)
Lemma parse_float_of_Z n :
  0 <= n -> Py.parse_float (Str.of_Z n) = Some (Float.round64 false n 1).
Proof.
  intros Hn. pose proof (of_Z_all_digits n Hn) as Hd.
  destruct (read_digits_of_Z n "" Hn eq_refl) as [k Hr].
  rewrite append_nil_r in Hr.
  unfold Py.parse_float. rewrite (trim_digits _ Hd).
  destruct (of_Z_digits n Hn) as (d & E & Hnil & _).
  destruct (digits_head d Hnil) as (c & s & E' & Hc).
  rewrite E, E' in *. unfold Py.read_sign.
  destruct (digit_not_sign c Hc) as [-> ->].
  rewrite (lower_digits _ Hd).
  rewrite !(digits_not_word _ _ _ Hd) by reflexivity.
  cbn [orb]. rewrite Hr. cbn [Py.read_exponent Nat.add].
  change (0 - Z.of_nat 0) with 0. change (Z.of_nat 0) with 0.
  change (0 <=? 0) with true. cbv iota.
  change (10 ^ 0) with 1. do 2 f_equal. lia.
Qed.

Lemma div_rne_one x : Float.div_rne x 1 = x.
Proof.
  unfold Float.div_rne. rewrite Z.mod_1_r, Z.div_1_r. reflexivity.
Qed.

(** [int(float(n))] is [n] below [2^53]. *)
Lemma of_int_exact n :
  0 <= n < 2 ^ 53 ->
  exists m e, Float.round64 false n 1 = Float.Finite false m e /\
              Float.to_int (Float.Finite false m e) = Some n.
Proof.
  intros [Hn Hb]. unfold Float.round64.
  destruct (n =? 0) eqn:E0.
  { apply Z.eqb_eq in E0. subst n. exists 0, 0. split; reflexivity. }
  apply Z.eqb_neq in E0.
  assert (Hpos : 0 < n) by lia.
  pose proof (Z.log2_spec n Hpos) as [Hlo Hhi].
  assert (HL : 0 <= Z.log2 n) by apply Z.log2_nonneg.
  assert (HL52 : Z.log2 n <= 52).
  { assert (Z.log2 n < 53); [|lia]. apply Z.log2_lt_pow2; lia. }
  assert (Hratio : Float.log2_ratio n 1 = Z.log2 n).
  { unfold Float.log2_ratio. change (Z.log2 1) with 0. rewrite Z.sub_0_r.
    destruct (0 <=? Z.log2 n) eqn:E; [|apply Z.leb_gt in E; lia].
    rewrite Z.mul_1_l. destruct (_ <=? n) eqn:E1; [reflexivity|].
    apply Z.leb_gt in E1. lia. }
  rewrite Hratio. rewrite Z.max_l by lia.
  set (shift := Z.log2 n - 52).
  assert (Hm : (if 0 <=? shift
                then Float.div_rne n (1 * 2 ^ shift)
                else Float.div_rne (n * 2 ^ (- shift)) 1) = n * 2 ^ (- shift)).
  { destruct (0 <=? shift) eqn:E.
    - apply Z.leb_le in E. assert (shift = 0) as -> by (unfold shift in *; lia).
      cbn. rewrite div_rne_one. lia.
    - apply div_rne_one. }
  rewrite Hm.
  assert (Hlt : n * 2 ^ (- shift) < 2 ^ 53).
  { replace (2 ^ 53) with (2 ^ (Z.succ (Z.log2 n)) * 2 ^ (- shift)).
    - apply Z.mul_lt_mono_pos_r; [apply Z.pow_pos_nonneg; unfold shift; lia | lia].
    - rewrite <- Z.pow_add_r by (unfold shift; lia). f_equal. unfold shift. lia. }
  destruct (n * 2 ^ (- shift) =? 2 ^ 53) eqn:E; [apply Z.eqb_eq in E; lia|].
  destruct (971 <? shift) eqn:E1; [apply Z.ltb_lt in E1; unfold shift in E1; lia|].
  exists (n * 2 ^ (- shift)), shift. split; [reflexivity|].
  unfold Float.to_int, Float.signed. f_equal.
  destruct (0 <=? shift) eqn:E2.
  - apply Z.leb_le in E2. assert (shift = 0) as -> by (unfold shift in *; lia).
    cbn. lia.
  - apply Z.div_mul. apply Z.pow_nonzero; [lia | unfold shift; lia].
Qed.

(** X13.  The API hands the counts over as decimal text.  For a count [n >= 0],
    [format_number] gives the same for the text as for the integer; below
    [2^53] the integer it works with is [n] itself, so that a count below a
    thousand comes back as it was written. *)
Theorem format_number_of_count (n : Z) :
  0 <= n ->
  format_number (Py.PStr (Str.of_Z n)) = format_number (Py.PInt n) /\
  (n < 2 ^ 53 ->
   numeric_value (Py.PStr (Str.of_Z n)) = Some n /\
   numeric_value (Py.PInt n) = Some n) /\
  (n < 1000 -> format_number (Py.PStr (Str.of_Z n)) = Str.of_Z n).
Proof.
  intros Hn.
  assert (Hint : Py.to_float (Py.PInt n)
                 = match Float.round64 false n 1 with
                   | Float.Finite s m e => Some (Float.Finite s m e)
                   | _ => None
                   end).
  { cbn [Py.to_float]. unfold Float.of_int.
    rewrite Z.abs_eq by exact Hn.
    destruct (n <? 0) eqn:E; [apply Z.ltb_lt in E; lia | reflexivity]. }
  assert (Hstr : Py.to_float (Py.PStr (Str.of_Z n))
                 = Some (Float.round64 false n 1)).
  { cbn [Py.to_float]. now apply parse_float_of_Z. }
  assert (Hsame : format_number (Py.PStr (Str.of_Z n)) = format_number (Py.PInt n)).
  { unfold format_number. rewrite Hint, Hstr.
    destruct (Float.round64 false n 1); reflexivity. }
  split; [exact Hsame|]. split.
  - intros Hb. destruct (of_int_exact n (conj Hn Hb)) as (m & e & Hr & Hi).
    unfold numeric_value. rewrite Hint, Hstr, Hr. cbn [Py.bind]. auto.
  - intros Hb. rewrite Hsame.
    destruct (of_int_exact n) as (m & e & Hr & Hi); [lia|].
    unfold format_number. rewrite Hint, Hr. cbn [Py.bind]. rewrite Hi.
    cbn [Py.bind].
    destruct (1000000000 <=? n) eqn:E1; [apply Z.leb_le in E1; lia|].
    destruct (1000000 <=? n) eqn:E2; [apply Z.leb_le in E2; lia|].
    destruct (1000 <=? n) eqn:E3; [apply Z.leb_le in E3; lia|].
    reflexivity.
Qed.

Lemma format_number_of_count_witness :
  format_number (Py.PStr (Str.of_Z 1234567)) = format_number (Py.PInt 1234567) /\
  format_number (Py.PStr (Str.of_Z 999)) = Str.of_Z 999.
Proof.
  split.
  - apply (format_number_of_count 1234567). lia.
  - apply (format_number_of_count 999); lia.
Defined.
